(** * StingerSpaces: alias generation, mention detection and the validation grid

    A shallow embedding of three Python modules of the repository,

    - [backend/src/advanced_alias_generator.py]   (module [AliasGenerator]),
    - [backend/src/enhanced_reddit_searcher.py]   (module [RedditSearcher]),
    - [backend/reddit_archive/supabase_grid_manager.py] (module [GridManager]),

    and the properties of them that the specification states.

    Conventions of the embedding.

    - A Python [str] is a Rocq [string]; the text is ASCII, so that a
      character is one byte, [lower]/[upper] touch the 26 letters only and
      [.encode()] is the identity.
    - A Python [float] is a primitive binary64 [float]: the operations
      [+], [*], [/] and the comparisons are those of IEEE 754, as in CPython.
    - A Python [int] is a [Z].
    - A [dict] with string keys is a [gmap string _], a [set] of strings a
      [gset string].  Python leaves the iteration order of a set open: a
      loop over a set takes the order as an argument [iter], about which
      the theorems assume only that it lists the elements of the set.
    - The JSON file that holds the grid is an [option GridData]: [None] when
      the file cannot be read.  [json.dump] followed by [json.load] gives the
      document back, so the file content is the document itself; opening
      the file for writing and [json.dump] are taken not to fail.
    - [datetime.now().isoformat()] is an argument of the function that calls
      it; a [datetime] value is kept as its ISO text.
    - The two third-party functions [fuzz.ratio] (fuzzywuzzy) and
      [phonetics.soundex] are arguments of the functions that call them. *)

From Stdlib Require Import ZArith Lia Bool List Ascii String.
From Stdlib Require Import Floats.PrimFloat Floats.SpecFloat Floats.FloatOps Floats.FloatAxioms.
From Stdlib Require Import Sorting.Sorted.
From stdpp Require Import gmap strings list.

Set Warnings "-inexact-float".
#[local] Open Scope string_scope.
#[local] Open Scope Z_scope.

(** ** Python string operations *)

Module Py.

Definition code (c : ascii) : N := N_of_ascii c.

Definition in_range (lo hi : N) (c : ascii) : bool :=
  ((lo <=? code c) && (code c <=? hi))%N.

Definition is_upper_char : ascii -> bool := in_range 65 90.
Definition is_lower_char : ascii -> bool := in_range 97 122.
Definition is_digit_char : ascii -> bool := in_range 48 57.

(** [str.isspace] on an ASCII character: tab, LF, VT, FF, CR, the four
    separators 0x1c..0x1f and the space. *)
Definition is_space_char (c : ascii) : bool :=
  in_range 9 13 c || in_range 28 32 c.

(** The class [\w] of [re] on an ASCII character. *)
Definition is_word_char (c : ascii) : bool :=
  is_upper_char c || is_lower_char c || is_digit_char c || (code c =? 95)%N.

Definition lower_char (c : ascii) : ascii :=
  if is_upper_char c then ascii_of_N (code c + 32) else c.

Definition upper_char (c : ascii) : ascii :=
  if is_lower_char c then ascii_of_N (code c - 32) else c.

Fixpoint map_chars (f : ascii -> ascii) (s : string) : string :=
  match s with
  | EmptyString => EmptyString
  | String c s' => String (f c) (map_chars f s')
  end.

Fixpoint filter_chars (p : ascii -> bool) (s : string) : string :=
  match s with
  | EmptyString => EmptyString
  | String c s' => if p c then String c (filter_chars p s') else filter_chars p s'
  end.

Fixpoint any_char (p : ascii -> bool) (s : string) : bool :=
  match s with
  | EmptyString => false
  | String c s' => p c || any_char p s'
  end.

Fixpoint all_chars (p : ascii -> bool) (s : string) : bool :=
  match s with
  | EmptyString => true
  | String c s' => p c && all_chars p s'
  end.

(** [s.lower()] and [s.upper()]. *)
Definition lower : string -> string := map_chars lower_char.
Definition upper : string -> string := map_chars upper_char.

Definition len (s : string) : Z := Z.of_nat (String.length s).

Definition is_empty (s : string) : bool :=
  match s with EmptyString => true | _ => false end.

(** [s.isdigit()]: every character is a digit and there is at least one. *)
Definition isdigit (s : string) : bool :=
  negb (is_empty s) && all_chars is_digit_char s.

(** [s.startswith(p)]. *)
Fixpoint startswith (p s : string) : bool :=
  match p, s with
  | EmptyString, _ => true
  | String a p', String b s' => Ascii.eqb a b && startswith p' s'
  | String _ _, EmptyString => false
  end.

(** [sub in s]: [sub] occurs in [s] as a substring. *)
Fixpoint contains (sub s : string) : bool :=
  startswith sub s ||
  match s with
  | EmptyString => false
  | String _ s' => contains sub s'
  end.

(** [s[n:]] and [s[:n]] for [n >= 0]. *)
Fixpoint drop (n : nat) (s : string) : string :=
  match n, s with
  | O, _ => s
  | S n', String _ s' => drop n' s'
  | S _, EmptyString => EmptyString
  end.

Fixpoint take (n : nat) (s : string) : string :=
  match n, s with
  | O, _ => EmptyString
  | S n', String c s' => String c (take n' s')
  | S _, EmptyString => EmptyString
  end.

(** [s[:-n]] for [n >= 0]. *)
Definition drop_last (n : nat) (s : string) : string :=
  take (String.length s - n) s.

(** [s.split()]: the maximal runs of characters that are not whitespace. *)
Fixpoint split_from (cur s : string) : list string :=
  match s with
  | EmptyString => if is_empty cur then [] else [cur]
  | String c s' =>
      if is_space_char c
      then (if is_empty cur then split_from EmptyString s'
            else cur :: split_from EmptyString s')
      else split_from (cur +:+ String c EmptyString) s'
  end.

Definition split (s : string) : list string := split_from EmptyString s.

(** [sep.join(l)]. *)
Fixpoint join (sep : string) (l : list string) : string :=
  match l with
  | [] => EmptyString
  | [x] => x
  | x :: l' => x +:+ sep +:+ join sep l'
  end.

(** [s.replace(old, new)]: the occurrences of [old] are replaced from left
    to right without overlap; an empty [old] matches before every character
    and at the end. *)
Fixpoint replace_from (old new s : string) (skip : nat) : string :=
  match s with
  | EmptyString => EmptyString
  | String c s' =>
      match skip with
      | S k => replace_from old new s' k
      | O =>
          if startswith old s
          then new +:+ replace_from old new s' (String.length old - 1)
          else String c (replace_from old new s' O)
      end
  end.

Fixpoint intersperse (new s : string) : string :=
  match s with
  | EmptyString => new
  | String c s' => new +:+ String c (intersperse new s')
  end.

Definition replace (old new s : string) : string :=
  if is_empty old then intersperse new s else replace_from old new s O.

(** [re.sub(r'[^\w\s]', '', s)]. *)
Definition strip_punctuation (s : string) : string :=
  filter_chars (fun c => is_word_char c || is_space_char c) s.

(** [re.search(r'\d+', s)]: the first maximal run of digits, if any. *)
Fixpoint take_digits (s : string) : string :=
  match s with
  | EmptyString => EmptyString
  | String c s' => if is_digit_char c then String c (take_digits s') else EmptyString
  end.

Fixpoint search_digits (s : string) : option string :=
  match s with
  | EmptyString => None
  | String c s' => if is_digit_char c then Some (take_digits s) else search_digits s'
  end.

(** [w[0]] of a non-empty string, as a one-character string. *)
Definition first_char (s : string) : string := take 1 s.

End Py.

(** ** MD5 ([hashlib.md5(...).hexdigest()]), on 32-bit words kept in [Z] *)

Module MD5.

Definition mask32 (x : Z) : Z := Z.land x 4294967295.
Definition add32 (x y : Z) : Z := mask32 (x + y).
Definition not32 (x : Z) : Z := Z.lxor x 4294967295.
Definition rotl32 (x n : Z) : Z :=
  mask32 (Z.lor (Z.shiftl x n) (Z.shiftr x (32 - n))).

Definition shifts : list Z :=
  [7; 12; 17; 22; 7; 12; 17; 22; 7; 12; 17; 22; 7; 12; 17; 22;
   5; 9; 14; 20; 5; 9; 14; 20; 5; 9; 14; 20; 5; 9; 14; 20;
   4; 11; 16; 23; 4; 11; 16; 23; 4; 11; 16; 23; 4; 11; 16; 23;
   6; 10; 15; 21; 6; 10; 15; 21; 6; 10; 15; 21; 6; 10; 15; 21].

(** [floor(2^32 * abs(sin(i + 1)))] for [i = 0 .. 63]. *)
Definition sines : list Z :=
  [3614090360; 3905402710; 606105819; 3250441966; 4118548399; 1200080426; 2821735955; 4249261313;
   1770035416; 2336552879; 4294925233; 2304563134; 1804603682; 4254626195; 2792965006; 1236535329;
   4129170786; 3225465664; 643717713; 3921069994; 3593408605; 38016083; 3634488961; 3889429448;
   568446438; 3275163606; 4107603335; 1163531501; 2850285829; 4243563512; 1735328473; 2368359562;
   4294588738; 2272392833; 1839030562; 4259657740; 2763975236; 1272893353; 4139469664; 3200236656;
   681279174; 3936430074; 3572445317; 76029189; 3654602809; 3873151461; 530742520; 3299628645;
   4096336452; 1126891415; 2878612391; 4237533241; 1700485571; 2399980690; 4293915773; 2240044497;
   1873313359; 4264355552; 2734768916; 1309151649; 4149444226; 3174756917; 718787259; 3951481745].

Definition nthZ (l : list Z) (i : Z) : Z := nth (Z.to_nat i) l 0.

Definition bytes_of (s : string) : list Z :=
  map (fun c => Z.of_N (N_of_ascii c)) (list_ascii_of_string s).

(** The message, a 0x80 byte, zeros up to 56 modulo 64, and the length in
    bits as 8 little-endian bytes. *)
Definition le_bytes (n : nat) (x : Z) : list Z :=
  map (fun i => Z.land (Z.shiftr x (8 * Z.of_nat i)) 255) (seq 0 n).

Definition pad (msg : list Z) : list Z :=
  let l := Z.of_nat (length msg) in
  let zeros := Z.to_nat ((55 - l) mod 64) in
  msg ++ [128] ++ repeat 0 zeros ++ le_bytes 8 ((8 * l) mod 2 ^ 64).

Definition word_of_bytes (b : list Z) : Z :=
  nthZ b 0 + Z.shiftl (nthZ b 1) 8 + Z.shiftl (nthZ b 2) 16 + Z.shiftl (nthZ b 3) 24.

Fixpoint words_of (n : nat) (b : list Z) : list Z :=
  match n with
  | O => []
  | S n' => word_of_bytes b :: words_of n' (skipn 4 b)
  end.

Definition state : Type := Z * Z * Z * Z.

Definition round (m : list Z) (st : state) (i : Z) : state :=
  let '(a, b, c, d) := st in
  let '(f, g) :=
    if i <? 16 then (Z.lor (Z.land b c) (Z.land (not32 b) d), i)
    else if i <? 32 then (Z.lor (Z.land d b) (Z.land (not32 d) c), (5 * i + 1) mod 16)
    else if i <? 48 then (Z.lxor (Z.lxor b c) d, (3 * i + 5) mod 16)
    else (Z.lxor c (Z.lor b (not32 d)), (7 * i) mod 16) in
  let f' := add32 (add32 (add32 f a) (nthZ sines i)) (nthZ m g) in
  (d, add32 b (rotl32 f' (nthZ shifts i)), b, c).

Definition process_chunk (st : state) (chunk : list Z) : state :=
  let m := words_of 16 chunk in
  let '(a, b, c, d) := fold_left (round m) (map Z.of_nat (seq 0 64)) st in
  let '(a0, b0, c0, d0) := st in
  (add32 a0 a, add32 b0 b, add32 c0 c, add32 d0 d).

Fixpoint chunks (n : nat) (b : list Z) : list (list Z) :=
  match n with
  | O => []
  | S n' => firstn 64 b :: chunks n' (skipn 64 b)
  end.

Definition digest_words (msg : list Z) : state :=
  let p := pad msg in
  fold_left process_chunk (chunks (length p / 64) p)
    (1732584193, 4023233417, 2562383102, 271733878).

Definition hex_digit (x : Z) : ascii :=
  ascii_of_N (Z.to_N (if x <? 10 then 48 + x else 87 + x)).

Definition hex_byte (x : Z) (rest : string) : string :=
  String (hex_digit (Z.shiftr x 4)) (String (hex_digit (Z.land x 15)) rest).

Definition hex_word (w : Z) (rest : string) : string :=
  hex_byte (Z.land w 255)
    (hex_byte (Z.land (Z.shiftr w 8) 255)
       (hex_byte (Z.land (Z.shiftr w 16) 255)
          (hex_byte (Z.land (Z.shiftr w 24) 255) rest))).

(** [hashlib.md5(s.encode()).hexdigest()] *)
Definition hexdigest (s : string) : string :=
  let '(a, b, c, d) := digest_words (bytes_of s) in
  hex_word a (hex_word b (hex_word c (hex_word d EmptyString))).

End MD5.

(** ** Python floats and the conversions that arithmetic performs *)

Module PyFloat.

(** The float nearest to an integer (ties to even). *)
Definition to_float (z : Z) : float :=
  SF2Prim (binary_normalize prec emax z 0 false).

(** Integers from this magnitude on round to [2^1024]: CPython raises
    [OverflowError] when it converts them. *)
Definition overflow_bound : Z := 2 ^ 1024 - 2 ^ 970.

Definition float_of_int (z : Z) : option float :=
  if Z.abs z <? overflow_bound then Some (to_float z) else None.

(** [x / n] for a float [x] and an int [n]: [None] stands for the
    [OverflowError] of the conversion and for [ZeroDivisionError]. *)
Definition truediv_int (x : float) (n : Z) : option float :=
  match float_of_int n with
  | Some d => if n =? 0 then None else Some (x / d)%float
  | None => None
  end.

(** [max(a, b)]: the first argument stays unless the second is greater. *)
Definition max (a b : float) : float := if (a <? b)%float then b else a.

End PyFloat.

(** ** Sorting as [list.sort(key=..., reverse=True)]: stable, descending *)

Section StableSort.

Context {A K : Type} (ltb : K -> K -> bool) (key : A -> K).

Fixpoint insert_desc (x : A) (l : list A) : list A :=
  match l with
  | [] => [x]
  | y :: l' => if ltb (key x) (key y) then y :: insert_desc x l' else x :: l
  end.

Definition sort_desc (l : list A) : list A := foldr insert_desc [] l.

End StableSort.

(** ** [advanced_alias_generator.py] *)

Module AliasGenerator.

Record ApartmentAlias : Type := {
  original_name : string;
  aliases : gset string;
  confidence_scores : gmap string float
}.

Definition common_words : gset string :=
  list_to_set
    ["apartment"; "apartments"; "apt"; "apts";
     "student"; "housing"; "residences"; "residence";
     "complex"; "community"; "towers"; "tower";
     "lofts"; "loft"; "place"; "plaza"; "point"; "pointe";
     "square"; "station"; "flats"; "the"; "at"; "on"; "of";
     "hall"; "halls"; "house"; "houses"; "village"; "commons";
     "center"; "centre"; "park"; "gardens"; "court"; "courts"].

Definition number_words : list (string * string) :=
  [("one", "1"); ("two", "2"); ("three", "3"); ("four", "4"); ("five", "5");
   ("six", "6"); ("seven", "7"); ("eight", "8"); ("nine", "9"); ("ten", "10");
   ("eleven", "11"); ("twelve", "12"); ("thirteen", "13"); ("fourteen", "14");
   ("fifteen", "15"); ("sixteen", "16"); ("seventeen", "17"); ("eighteen", "18");
   ("nineteen", "19"); ("twenty", "20"); ("thirty", "30"); ("forty", "40");
   ("fifty", "50"); ("sixty", "60"); ("seventy", "70"); ("eighty", "80");
   ("ninety", "90"); ("hundred", "100")].

Definition ordinal_words : list (string * string) :=
  [("first", "1st"); ("second", "2nd"); ("third", "3rd"); ("fourth", "4th");
   ("fifth", "5th"); ("sixth", "6th"); ("seventh", "7th"); ("eighth", "8th");
   ("ninth", "9th"); ("tenth", "10th"); ("eleventh", "11th"); ("twelfth", "12th");
   ("thirteenth", "13th"); ("fourteenth", "14th"); ("fifteenth", "15th");
   ("sixteenth", "16th"); ("seventeenth", "17th"); ("eighteenth", "18th");
   ("nineteenth", "19th"); ("twentieth", "20th")].

(** [self.abbreviation_patterns] *)
Definition abbreviation_patterns : list (string * list string) :=
  [("apartment", ["apt"]); ("apartments", ["apts"]);
   ("building", ["bldg"]); ("buildings", ["bldgs"]);
   ("tower", ["twr"]); ("towers", ["twrs"]);
   ("place", ["pl"]); ("plaza", ["plz"]);
   ("street", ["st"]); ("avenue", ["ave"]); ("boulevard", ["blvd"]);
   ("court", ["ct"]); ("circle", ["cir"]); ("drive", ["dr"]);
   ("residence", ["res"]); ("residences", ["res"]);
   ("student", ["stud"]); ("university", ["univ"; "u"]);
   ("college", ["coll"]); ("campus", ["camp"])].

(** The dictionary of the same name that [_generate_short_form_aliases]
    declares locally. *)
Definition short_form_patterns : list (string * list string) :=
  [("square", ["sq"; "sqr"]);
   ("apartment", ["apt"]);
   ("building", ["bldg"]);
   ("tower", ["twr"]);
   ("place", ["pl"]);
   ("street", ["st"]);
   ("avenue", ["ave"]);
   ("court", ["ct"]);
   ("circle", ["cir"]);
   ("drive", ["dr"]);
   ("station", ["sta"; "stn"])].

Definition phonetic_subs : list (string * string) :=
  [("ph", "f"); ("f", "ph"); ("c", "k"); ("k", "c");
   ("z", "s"); ("s", "z"); ("i", "y"); ("y", "i")].

(** [d.get(k)] / [k in d] on a dictionary kept in insertion order. *)
Fixpoint dict_get {V : Type} (d : list (string * V)) (k : string) : option V :=
  match d with
  | [] => None
  | (k', v) :: d' => if String.eqb k k' then Some v else dict_get d' k
  end.

Definition is_common (w : string) : bool := bool_decide (w ∈ common_words).

Definition has_digit (w : string) : bool := Py.any_char Py.is_digit_char w.

Definition is_vowel (c : ascii) : bool :=
  Py.contains (String c EmptyString) "aeiou".

Definition when {X : Type} (b : bool) (l : list X) : list X := if b then l else [].

Definition non_empty {X : Type} (l : list X) : bool :=
  match l with [] => false | _ => true end.

Section Generator.

(** [phonetics.soundex]; [None] when it raises. *)
Variable soundex : string -> option string.

(** [self.location_config] *)
Variable location_config : list (string * list string).

Definition _generate_basic_aliases (name : string) : gset string :=
  let clean_name := Py.lower name in
  let words := Py.split clean_name in
  let filtered_words := List.filter (fun w => negb (is_common w)) words in
  list_to_set
    (when (non_empty filtered_words) [Py.join " " filtered_words]
     ++ when (Py.startswith "the " clean_name) [Py.drop 4 clean_name]
     ++ [Py.strip_punctuation clean_name]
     ++ [Py.replace " " "" clean_name])%list.

Definition _generate_abbreviation_aliases (name : string) : gset string :=
  let words := Py.split (Py.lower name) in
  let abbrev :=
    Py.join "" (map Py.first_char (List.filter (fun w => negb (is_common w)) words)) in
  let letters :=
    map Py.first_char
      (List.filter (fun w => negb (is_common w) && negb (Py.isdigit w)) words) in
  let numbers := List.filter (fun w => Py.isdigit w || has_digit w) words in
  list_to_set
    (when ((1 <? Z.of_nat (length words)) && (2 <=? Py.len abbrev)) [abbrev]
     ++ when (non_empty letters && non_empty numbers)
          (map (fun num => Py.join "" letters +:+ num) numbers))%list.

(** The numbers of a name: digit runs of its words, then the digits of the
    ordinal words it holds. *)
Definition extract_numbers (words : list string) : list string :=
  (flat_map
     (fun word =>
        if Py.isdigit word then [word]
        else if has_digit word
             then match Py.search_digits word with Some n => [n] | None => [] end
             else [])
     words
   ++ flat_map
        (fun word =>
           match dict_get ordinal_words word with
           | Some ordinal_num =>
               match Py.search_digits ordinal_num with Some n => [n] | None => [] end
           | None => []
           end)
        words)%list.

Definition prefix_forms (word num : string) : list string :=
  (when (2 <=? Py.len word) [Py.upper (Py.take 2 word) +:+ num]
   ++ when (3 <=? Py.len word) [Py.upper (Py.take 3 word) +:+ num])%list.

Definition _generate_short_form_aliases (name : string) : gset string :=
  let words := Py.split (Py.lower name) in
  let numbers := extract_numbers words in
  let main_words :=
    List.filter (fun w => negb (is_common w) && negb (has_digit w)) words in
  (* Pattern 1: first 2-3 letters of main words + numbers *)
  let pattern1 :=
    when (non_empty main_words && non_empty numbers)
      (flat_map (fun main_word => flat_map (prefix_forms main_word) numbers) main_words) in
  (* Pattern 2: consonants only + numbers *)
  let pattern2 :=
    flat_map
      (fun word =>
         let consonants := Py.filter_chars (fun c => negb (is_vowel c)) word in
         when (2 <=? Py.len consonants)
           (map (fun num => Py.upper consonants +:+ num) numbers))
      main_words in
  (* Pattern 3: common abbreviation patterns *)
  let pattern3 :=
    flat_map
      (fun word =>
         match dict_get short_form_patterns word with
         | Some abbrevs =>
             flat_map
               (fun abbrev =>
                  let new_name := Py.replace word abbrev (Py.lower name) in
                  Py.replace " " "" new_name
                  :: map (fun num => Py.upper abbrev +:+ num) numbers)
               abbrevs
         | None => []
         end)
      words in
  (* Pattern 4: multi-word abbreviations + numbers *)
  let pattern4 :=
    when ((1 <=? Z.of_nat (length main_words)) && non_empty numbers)
      (flat_map (fun word => flat_map (prefix_forms word) numbers) main_words
       ++ when (2 <=? Z.of_nat (length main_words))
            (let first_letters :=
               Py.join "" (map (fun w => Py.upper (Py.first_char w)) main_words) in
             map (fun num => first_letters +:+ num) numbers))%list in
  (* Pattern 5: word combinations with common abbreviations + numbers *)
  let pattern5 :=
    flat_map
      (fun word =>
         match dict_get abbreviation_patterns word with
         | Some abbrevs =>
             flat_map
               (fun abbrev =>
                  flat_map
                    (fun num => [Py.upper abbrev +:+ num; Py.lower abbrev +:+ num])
                    numbers)
               abbrevs
         | None => []
         end)
      main_words in
  list_to_set (pattern1 ++ pattern2 ++ pattern3 ++ pattern4 ++ pattern5)%list.

Definition _generate_phonetic_aliases (name : string) : gset string :=
  list_to_set
    (match soundex name with Some c => [c] | None => [] end
     ++ flat_map
          (fun '(original, replacement) =>
             when (Py.contains original (Py.lower name))
               [Py.replace original replacement (Py.lower name)])
          phonetic_subs)%list.

Definition _generate_number_aliases (name : string) : gset string :=
  let name_lower := Py.lower name in
  list_to_set
    (flat_map
       (fun '(word, digit) =>
          when (Py.contains word name_lower) [Py.replace word digit name_lower])
       number_words
     ++ flat_map
          (fun '(word, ordinal) =>
             when (Py.contains word name_lower)
               [Py.replace word ordinal name_lower;
                Py.replace word (Py.drop_last 2 ordinal) name_lower])
          ordinal_words)%list.

Definition _generate_location_aliases (name : string) : gset string :=
  let name_lower := Py.lower name in
  list_to_set
    (flat_map
       (fun '(location_term, abbrevs) =>
          let location_lower := Py.lower location_term in
          when (Py.contains location_lower name_lower)
            (flat_map
               (fun abbrev =>
                  let alias := Py.replace location_lower (Py.lower abbrev) name_lower in
                  [alias; Py.replace " " "" alias])
               abbrevs))
       location_config).

(** [for alias in s: confidence_scores[alias] = w] *)
Definition assign_all (w : float) (s : gset string) (scores : gmap string float)
  : gmap string float :=
  set_fold (fun alias acc => <[alias := w]> acc) scores s.

(** The confidence that a sequence of passes leaves for an alias: that of
    the last pass which returns the alias, else the one it had before. *)
Definition last_written (k : string) (ps : list (gset string * float))
    (before : option float) : option float :=
  foldl (fun acc p => if decide (k ∈ p.1) then Some p.2 else acc) before ps.

(** The six passes in the order [generate_all_aliases] runs them, each
    with the confidence it writes. *)
Definition passes (name : string) : list (gset string * float) :=
  [(_generate_basic_aliases name, 0.9%float);
   (_generate_abbreviation_aliases name, 0.8%float);
   (_generate_short_form_aliases name, 0.7%float);
   (_generate_phonetic_aliases name, 0.6%float);
   (_generate_number_aliases name, 0.85%float);
   (_generate_location_aliases name, 0.75%float)].

Definition run_pass (acc : gset string * gmap string float) (p : gset string * float)
  : gset string * gmap string float :=
  (acc.1 ∪ p.1, assign_all p.2 p.1 acc.2).

Definition generate_all_aliases (apartment_name : string) : ApartmentAlias :=
  let aliases : gset string := {[ Py.lower apartment_name ]} in
  let confidence_scores : gmap string float :=
    <[Py.lower apartment_name := 1%float]> ∅ in
  let '(aliases, confidence_scores) :=
    foldl run_pass (aliases, confidence_scores) (passes apartment_name) in
  {| original_name := apartment_name;
     aliases := aliases;
     confidence_scores := confidence_scores |}.

End Generator.

Section Matcher.

(** [fuzz.ratio] *)
Variable ratio : string -> string -> Z.

(** The order in which [for alias in apt_alias.aliases] visits a set. *)
Variable iter : gset string -> list string.

(** The score of one alias: 100 on an exact match, else the fuzzy ratio. *)
Definition alias_score (search_term_lower alias : string) : Z :=
  if String.eqb search_term_lower alias then 100
  else ratio search_term_lower alias.

(** One turn of the inner loop of [find_best_match] on
    [(best_score, best_alias, confidence)]. *)
Definition best_step (apt_alias : ApartmentAlias) (search_term_lower : string)
    (acc : Z * option string * float) (alias : string) : Z * option string * float :=
  let '(best_score, best_alias, confidence) := acc in
  let score := alias_score search_term_lower alias in
  if best_score <? score
  then (score, Some alias, default 0.5%float (confidence_scores apt_alias !! alias))
  else acc.

Definition best_of (apt_alias : ApartmentAlias) (search_term_lower : string)
  : Z * option string * float :=
  foldl (best_step apt_alias search_term_lower) (0, None, 0%float)
    (iter (aliases apt_alias)).

Definition match_score (m : string * Z * option string * float) : Z :=
  let '(_, score, _, _) := m in score.

(** The tuple that [find_best_match] appends for an entity. *)
Definition match_of (q : string) (apt_alias : ApartmentAlias)
  : string * Z * option string * float :=
  let '(best_score, best_alias, confidence) := best_of apt_alias q in
  (original_name apt_alias, best_score, best_alias, confidence).

(** What the inner loop of [find_best_match] has after the aliases [seen]. *)
Definition best_so_far (apt_alias : ApartmentAlias) (q : string) (seen : list string)
    (acc : Z * option string * float) : Prop :=
  let '(best_score, best_alias, confidence) := acc in
  0 <= best_score
  /\ (forall a, a ∈ seen -> alias_score q a <= best_score)
  /\ match best_alias with
     | None => best_score = 0
     | Some a =>
         a ∈ seen /\ alias_score q a = best_score
         /\ confidence = default 0.5%float (confidence_scores apt_alias !! a)
     end.

Definition find_best_match (search_term : string)
    (apartment_aliases : list ApartmentAlias) (threshold : Z)
  : list (string * Z * option string * float) :=
  let search_term_lower := Py.lower search_term in
  let matches :=
    foldl
      (fun matches apt_alias =>
         let '(best_score, best_alias, confidence) :=
           best_of apt_alias search_term_lower in
         if threshold <=? best_score
         then (matches ++ [(original_name apt_alias, best_score, best_alias, confidence)])%list
         else matches)
      [] apartment_aliases in
  sort_desc Z.ltb match_score matches.

End Matcher.

End AliasGenerator.

(** ** A similarity ratio to run the matchers with

    The definitions of the embedding take [fuzz.ratio] as an argument; the
    ratio below serves to evaluate them on sample data. *)

Module Fuzz.

Fixpoint lcs_row (a : ascii) (t : list ascii) (prev : list Z) (diag left : Z) : list Z :=
  match t, prev with
  | b :: t', up :: prev' =>
      let cur := if Ascii.eqb a b then diag + 1 else Z.max up left in
      cur :: lcs_row a t' prev' up cur
  | _, _ => []
  end.

(** The length of a longest common subsequence. *)
Definition lcs (s t : string) : Z :=
  let t' := list_ascii_of_string t in
  List.last (fold_left (fun prev a => lcs_row a t' prev 0 0)
          (list_ascii_of_string s) (map (fun _ => 0) t')) 0.

(** Modelled from the spec: [fuzz.ratio] belongs to the fuzzywuzzy package,
    which is not part of the repository; the specification describes it as
    a normalized edit-distance similarity ratio scaled to 0-100.  Here it
    is [round(100 * 2 * lcs / (len s + len t))], the ratio of the
    insertion-deletion distance. *)
Definition ratio (s t : string) : Z :=
  let total := Py.len s + Py.len t in
  if total =? 0 then 100
  else (2 * (200 * lcs s t) + total) / (2 * total).

End Fuzz.

(** ** [supabase_grid_manager.py], with the local JSON file as storage *)

Module GridManager.

Record CommentValidation : Type := {
  comment_id : string;
  source_apartment : string;       (* the apartment being searched for *)
  mentioned_apartment : string;    (* the apartment mentioned in the comment *)
  comment_text : string;
  confidence_score : float;
  validation_status : string;      (* 'pending', 'verified', 'invalid' *)
  created_at : string;
  reddit_post_id : string;
  reddit_comment_id : string
}.

(** A cell [validation_grid[source][mentioned]] of the grid. *)
Record Cell : Type := {
  comment_count : Z;
  verified_comments : Z;
  confidence_sum : float;
  average_confidence : float;
  last_updated : option string
}.

(** A value of the [comments] dictionary, stored under the comment id. *)
Record StoredComment : Type := {
  stored_source_apartment : string;
  stored_mentioned_apartment : string;
  stored_comment_text : string;
  stored_confidence_score : float;
  stored_validation_status : string;
  stored_created_at : string;
  stored_reddit_post_id : string;
  stored_reddit_comment_id : string
}.

Record Metadata : Type := {
  meta_created_at : string;
  meta_last_updated : string;
  total_apartments : Z
}.

(** The document of the JSON file. *)
Record GridData : Type := {
  apartments : list string;
  validation_grid : gmap string (gmap string Cell);
  comments : gmap string StoredComment;
  metadata : Metadata
}.

Definition zero_cell : Cell :=
  {| comment_count := 0;
     verified_comments := 0;
     confidence_sum := 0%float;
     average_confidence := 0%float;
     last_updated := None |}.

(** [_initialize_local_storage]: every apartment can reference every other
    apartment.  The two arguments are the two readings of the clock. *)
Definition _initialize_local_storage (apartments : list string)
    (now_created now_updated : string) : GridData :=
  let row : gmap string Cell :=
    foldl (fun row target_apt => <[target_apt := zero_cell]> row) ∅ apartments in
  {| apartments := apartments;
     validation_grid :=
       foldl (fun grid source_apt => <[source_apt := row]> grid) ∅ apartments;
     comments := ∅;
     metadata :=
       {| meta_created_at := now_created;
          meta_last_updated := now_updated;
          total_apartments := Z.of_nat (length apartments) |} |}.

Definition set_comment_id (validation : CommentValidation) (id : string)
  : CommentValidation :=
  {| comment_id := id;
     source_apartment := source_apartment validation;
     mentioned_apartment := mentioned_apartment validation;
     comment_text := comment_text validation;
     confidence_score := confidence_score validation;
     validation_status := validation_status validation;
     created_at := created_at validation;
     reddit_post_id := reddit_post_id validation;
     reddit_comment_id := reddit_comment_id validation |}.

(** "Generate unique comment ID if not provided": the assignment to
    [validation.comment_id]. *)
Definition with_comment_id (validation : CommentValidation) : CommentValidation :=
  if Py.is_empty (comment_id validation)
  then set_comment_id validation
         (MD5.hexdigest
            (source_apartment validation +:+ mentioned_apartment validation
             +:+ Py.take 100 (comment_text validation)))
  else validation.

Definition stored (validation : CommentValidation) : StoredComment :=
  {| stored_source_apartment := source_apartment validation;
     stored_mentioned_apartment := mentioned_apartment validation;
     stored_comment_text := comment_text validation;
     stored_confidence_score := confidence_score validation;
     stored_validation_status := validation_status validation;
     stored_created_at := created_at validation;
     stored_reddit_post_id := reddit_post_id validation;
     stored_reddit_comment_id := reddit_comment_id validation |}.

(** The cell of a pair, when both [source in grid] and
    [mentioned in grid[source]] hold. *)
Definition grid_cell (grid : gmap string (gmap string Cell)) (source mentioned : string)
  : option Cell :=
  match grid !! source with
  | Some row => row !! mentioned
  | None => None
  end.

(** The statistics update of [_add_validation_local]; [None] when the
    division raises. *)
Definition update_cell (cell : Cell) (validation : CommentValidation) (now : string)
  : option Cell :=
  let comment_count := comment_count cell + 1 in
  let confidence_sum := (confidence_sum cell + confidence_score validation)%float in
  match PyFloat.truediv_int confidence_sum comment_count with
  | Some average_confidence =>
      Some {| comment_count := comment_count;
              verified_comments :=
                if String.eqb (validation_status validation) "verified"
                then verified_comments cell + 1 else verified_comments cell;
              confidence_sum := confidence_sum;
              average_confidence := average_confidence;
              last_updated := Some now |}
  | None => None
  end.

Definition set_cell (grid : gmap string (gmap string Cell)) (source mentioned : string)
    (cell : Cell) : gmap string (gmap string Cell) :=
  match grid !! source with
  | Some row => <[source := <[mentioned := cell]> row]> grid
  | None => grid
  end.

(** [_add_validation_local]: the file after the call, the validation object
    after the call (its [comment_id] may have been assigned) and the result.
    A file that cannot be read and an exception of the update both end in
    the [except] branch: nothing is written and the result is [False]. *)
Definition _add_validation_local (file : option GridData)
    (validation : CommentValidation) (now_cell now_meta : string)
  : option GridData * CommentValidation * bool :=
  match file with
  | None => (None, validation, false)
  | Some grid_data =>
      let validation := with_comment_id validation in
      let comments := <[comment_id validation := stored validation]> (comments grid_data) in
      let source := source_apartment validation in
      let mentioned := mentioned_apartment validation in
      let written grid :=
        (Some {| apartments := apartments grid_data;
                 validation_grid := grid;
                 comments := comments;
                 metadata :=
                   {| meta_created_at := meta_created_at (metadata grid_data);
                      meta_last_updated := now_meta;
                      total_apartments := total_apartments (metadata grid_data) |} |},
         validation, true) in
      match grid_cell (validation_grid grid_data) source mentioned with
      | Some cell =>
          match update_cell cell validation now_cell with
          | Some cell' =>
              written (set_cell (validation_grid grid_data) source mentioned cell')
          | None => (file, validation, false)
          end
      | None => written (validation_grid grid_data)
      end
  end.

(** [add_comment_validation] on a manager without Supabase credentials
    ([use_local_storage]). *)
Definition add_comment_validation := _add_validation_local.

(** What [_get_summary_local] returns: the stored cell, or the literal
    [{'comment_count': 0, 'verified_comments': 0, 'average_confidence': 0.0}]. *)
Inductive Summary : Type :=
  | SummaryCell (cell : Cell)
  | SummaryDefault.

Definition summary_comment_count (s : Summary) : Z :=
  match s with SummaryCell cell => comment_count cell | SummaryDefault => 0 end.

Definition _get_summary_local (file : option GridData)
    (source_apartment mentioned_apartment : string) : Summary :=
  match file with
  | Some grid_data =>
      match grid_cell (validation_grid grid_data) source_apartment mentioned_apartment with
      | Some cell => SummaryCell cell
      | None => SummaryDefault
      end
  | None => SummaryDefault
  end.

(** A cell whose average agrees with its sum and its count. *)
Definition cell_consistent (cell : Cell) : Prop :=
  0 <= comment_count cell
  /\ (0 < comment_count cell ->
      average_confidence cell
      = (confidence_sum cell / PyFloat.to_float (comment_count cell))%float)
  /\ (comment_count cell = 0 -> average_confidence cell = 0%float).

Definition grid_consistent (grid : gmap string (gmap string Cell)) : Prop :=
  forall source mentioned cell,
    grid_cell grid source mentioned = Some cell -> cell_consistent cell.

(** A run of the manager: [create_tables], then the given calls of
    [add_comment_validation], each with its two readings of the clock. *)
Definition run (apartments : list string) (now_created now_updated : string)
    (calls : list (CommentValidation * string * string)) : option GridData :=
  foldl
    (fun file '(validation, now_cell, now_meta) =>
       (_add_validation_local file validation now_cell now_meta).1.1)
    (Some (_initialize_local_storage apartments now_created now_updated))
    calls.

End GridManager.

(** ** [enhanced_reddit_searcher.py] *)

Module RedditSearcher.

Import AliasGenerator.

(** Context keywords that help validate apartment discussions. *)
Definition housing_context_keywords : gset string :=
  list_to_set
    ["housing"; "apartment"; "living"; "rent"; "lease"; "roommate";
     "move"; "dorm"; "residence"; "amenities"; "price"; "cost";
     "utilities"; "parking"; "location"; "campus"; "walk"; "shuttle";
     "noise"; "quiet"; "party"; "management"; "maintenance"; "gym";
     "pool"; "laundry"; "kitchen"; "bedroom"; "bathroom"; "balcony"].

(** The part of the searcher's state that the functions below read. *)
Record Searcher : Type := {
  apartments : list string;
  apartment_aliases : gmap string ApartmentAlias
}.

(** [_has_housing_context]: the sum counts the keywords of the set that
    occur in the lowercased text. *)
Definition _has_housing_context (text : string) : bool :=
  let text_lower := Py.lower text in
  let context_count :=
    Z.of_nat
      (size (filter (fun keyword => Py.contains keyword text_lower = true)
               housing_context_keywords)) in
  2 <=? context_count.

(** Equality of two [(term, confidence)] tuples, as [==] decides it. *)
Definition term_eqb (x y : string * float) : bool :=
  String.eqb x.1 y.1 && (x.2 =? y.2)%float.

(** The elements of [set(l)], each once, in the order of their first
    occurrence in [l]. *)
Fixpoint dedupe (l : list (string * float)) : list (string * float) :=
  match l with
  | [] => []
  | x :: l' => x :: List.filter (fun y => negb (term_eqb x y)) (dedupe l')
  end.

Section Search.

(** [fuzz.ratio] *)
Variable ratio : string -> string -> Z.

(** The order in which a [for] loop visits a set of aliases. *)
Variable iter : gset string -> list string.

(** [list(set(search_terms))]: the order of the list is that of the set. *)
Variable list_of_set : list (string * float) -> list (string * float).

Variable self : Searcher.

Definition generate_search_terms (apartment_name : string) : list (string * float) :=
  match apartment_aliases self !! apartment_name with
  | None => [(Py.lower apartment_name, 1%float)]
  | Some aliases =>
      let confidence_of alias :=
        default 0.5%float (confidence_scores aliases !! alias) in
      (* Priority 1: original name and high-confidence aliases *)
      let priority1 :=
        flat_map
          (fun alias =>
             let confidence := confidence_of alias in
             when (0.8 <=? confidence)%float [(alias, confidence)])
          (iter (AliasGenerator.aliases aliases)) in
      (* Priority 2: medium confidence aliases *)
      let priority2 :=
        flat_map
          (fun alias =>
             let confidence := confidence_of alias in
             when ((0.6 <=? confidence)%float && (confidence <? 0.8)%float)
               [(alias, confidence)])
          (iter (AliasGenerator.aliases aliases)) in
      let search_terms :=
        ((Py.lower apartment_name, 1%float) :: priority1 ++ priority2)%list in
      (* Sort by confidence, remove duplicates *)
      let search_terms := list_of_set search_terms in
      firstn 10 (sort_desc PrimFloat.ltb snd search_terms)
  end.

(** The [for word in words_in_text ... else] loop: the first word whose
    ratio reaches 85 decides the score. *)
Fixpoint fuzzy_word_score (alias : string) (confidence : float)
    (words_in_text : list string) : float :=
  match words_in_text with
  | [] => 0%float
  | word :: rest =>
      let fuzzy_score := ratio alias word in
      if 85 <=? fuzzy_score
      then (confidence * (PyFloat.to_float fuzzy_score / 100))%float
      else fuzzy_word_score alias confidence rest
  end.

(** The score of one alias in [_find_mentioned_apartments]. *)
Definition mention_score (aliases : ApartmentAlias) (text_lower alias : string) : float :=
  let confidence := default 0.5%float (confidence_scores aliases !! alias) in
  if Py.contains alias text_lower then confidence
  else if 4 <? Py.len alias
       then fuzzy_word_score alias confidence (Py.split text_lower)
       else 0%float.

Definition best_mention_score (aliases : ApartmentAlias) (text_lower : string) : float :=
  foldl (fun best_score alias =>
           PyFloat.max best_score (mention_score aliases text_lower alias))
    0%float (iter (AliasGenerator.aliases aliases)).

(** What the outer loop of [_find_mentioned_apartments] stores for a name. *)
Definition mention_entry (text_lower apt_name : string) : option float :=
  match apartment_aliases self !! apt_name with
  | None => None
  | Some aliases =>
      let best_score := best_mention_score aliases text_lower in
      if (0.6 <=? best_score)%float then Some best_score else None
  end.

Definition _find_mentioned_apartments (text : string) : gmap string float :=
  let text_lower := Py.lower text in
  foldl
    (fun mentioned apt_name =>
       match apartment_aliases self !! apt_name with
       | None => mentioned
       | Some aliases =>
           let best_score := best_mention_score aliases text_lower in
           if (0.6 <=? best_score)%float
           then <[apt_name := best_score]> mentioned
           else mentioned
       end)
    ∅ (apartments self).

End Search.

(** [load_apartment_data] on a data file that lists [names]: the searcher
    with the aliases of every apartment. *)
Definition load_apartment_data (soundex : string -> option string)
    (location_config : list (string * list string)) (names : list string) : Searcher :=
  {| apartments := names;
     apartment_aliases :=
       foldl
         (fun m apt_name =>
            <[apt_name := generate_all_aliases soundex location_config apt_name]> m)
         ∅ names |}.

End RedditSearcher.

(** ** Sample data, from the [main] functions of the modules *)

Module Sample.

Import GridManager.

Definition entities : list string :=
  ["Catalyst Midtown"; "Square On 5th"; "The Connector"; "100 Midtown"].

(** The first test validation of [supabase_grid_manager.main]. *)
Definition validation : CommentValidation :=
  {| comment_id := "";
     source_apartment := "Catalyst Midtown";
     mentioned_apartment := "Square On 5th";
     comment_text :=
       "I lived at Catalyst but my friend was at SQ5 and said it was much better";
     confidence_score := 0.85%float;
     validation_status := "verified";
     created_at := "2025-09-27T10:00:00";
     reddit_post_id := "test_post_1";
     reddit_comment_id := "test_comment_1" |}.

(** A validation of an apartment that is not in the data file, about itself. *)
Definition stranger : CommentValidation :=
  {| comment_id := "";
     source_apartment := "Hub Atlanta";
     mentioned_apartment := "Hub Atlanta";
     comment_text := "Hub Atlanta has a nice gym and the rent is fair";
     confidence_score := 0.9%float;
     validation_status := "pending";
     created_at := "2025-09-27T10:05:00";
     reddit_post_id := "test_post_4";
     reddit_comment_id := "test_comment_4" |}.

Definition fresh_grid : GridData :=
  _initialize_local_storage entities "2025-09-27T09:00:00" "2025-09-27T09:00:01".

(** The location configuration of [create_generator_for_university('gt')]. *)
Definition gt_config : list (string * list string) :=
  [("midtown", ["mid"; "mdt"; "midtwn"]);
   ("downtown", ["dwtn"; "dt"; "dtown"]);
   ("atlanta", ["atl"; "atla"]);
   ("west end", ["we"; "westend"]);
   ("atlantic station", ["as"; "atlsta"]);
   ("tech", ["gt"; "gatech"]);
   ("georgia tech", ["gt"; "gatech"])].

(** A stand-in for [phonetics.soundex]: a code that is no lowercase name. *)
Definition soundex (name : string) : option string :=
  match name with
  | EmptyString => None
  | String c _ => Some (String (Py.upper_char c) "000")
  end.

(** The searcher after [load_apartment_data], and its alias sets as the
    list that [main] of the alias generator builds. *)
Definition searcher : RedditSearcher.Searcher :=
  RedditSearcher.load_apartment_data soundex gt_config entities.

Definition universe : list AliasGenerator.ApartmentAlias :=
  map (AliasGenerator.generate_all_aliases soundex gt_config) entities.

(** An alias set with one alias, and a text whose fourth and sixth tokens
    both resemble the alias. *)
Definition catalyst : AliasGenerator.ApartmentAlias :=
  {| AliasGenerator.original_name := "Catalyst";
     AliasGenerator.aliases := {[ "catalyst" ]};
     AliasGenerator.confidence_scores := {[ "catalyst" := 0.9%float ]} |}.

Definition misspelt_text : string := "i lived at catlys not catalys".

End Sample.

(** ** [advanced_alias_generator.py]: the factory of generators *)

Module AliasFactory.

Definition gt_locations : list (string * list string) :=
  [("midtown", ["mid"; "mdt"; "midtwn"]);
   ("downtown", ["dwtn"; "dt"; "dtown"]);
   ("atlanta", ["atl"; "atla"]);
   ("west end", ["we"; "westend"]);
   ("atlantic station", ["as"; "atlsta"]);
   ("tech", ["gt"; "gatech"]);
   ("georgia tech", ["gt"; "gatech"])].

Definition location_configs : list (string * list (string * list string)) :=
  [("gt", gt_locations);
   ("gatech", gt_locations);
   ("uga",
    [("athens", ["ath"]);
     ("downtown", ["dwtn"; "dt"]);
     ("campus", ["camp"]);
     ("university", ["uga"; "u"]);
     ("georgia", ["ga"; "uga"])]);
   ("emory",
    [("atlanta", ["atl"; "atla"]);
     ("druid hills", ["dh"]);
     ("emory", ["em"]);
     ("university", ["univ"; "u"])]);
   ("generic", [])].

(** [create_generator_for_university]: the location configuration of the
    generator it returns, [location_configs.get(university_name.lower(), {})]. *)
Definition create_generator_for_university (university_name : string)
  : list (string * list string) :=
  default [] (AliasGenerator.dict_get location_configs (Py.lower university_name)).

End AliasFactory.

(** ** [supabase_grid_manager.py]: the queries and the relevance score *)

Module GridQueries.

Import GridManager.

(** [min(a, b)]: the first argument stays unless the second is smaller. *)
Definition py_min (a b : float) : float := if (b <? a)%float then b else a.

(** [a / b] for two ints that are exact as floats (here a count of words
    and a number of words): the nearest float to the quotient. *)
Definition int_truediv (a b : Z) : float :=
  (PyFloat.to_float a / PyFloat.to_float b)%float.

Section Queries.

(** The order in which [grid_data['comments'].items()] lists the store. *)
Variable items : gmap string StoredComment -> list (string * StoredComment).

(** [_get_apartment_validations_local]: all validations where this
    apartment is the source; the empty list when the file cannot be read. *)
Definition _get_apartment_validations_local (file : option GridData)
    (apartment_name : string) : list StoredComment :=
  match file with
  | Some grid_data =>
      flat_map
        (fun '(comment_id, comment_data) =>
           if String.eqb (stored_source_apartment comment_data) apartment_name
           then [comment_data] else [])
        (items (comments grid_data))
  | None => []
  end.

(** [get_all_validations_for_apartment] on a manager that uses the local
    file. *)
Definition get_all_validations_for_apartment := _get_apartment_validations_local.

End Queries.

(** [validate_comment_relevance].  [alias_file] is the content of
    [apartment_aliases.json], each apartment with the list under its
    ['aliases'] key; [None] when the file cannot be read or parsed. *)
Definition validate_comment_relevance (alias_file : option (gmap string (list string)))
    (comment_text source_apartment mentioned_apartment : string) : float :=
  let comment_lower := Py.lower comment_text in
  let mentioned_lower := Py.lower mentioned_apartment in
  let mentioned_aliases :=
    match alias_file with
    | Some alias_data => default [] (alias_data !! mentioned_apartment)
    | None => [mentioned_lower]
    end in
  (* Check for exact mentions *)
  if existsb (fun alias => Py.contains (Py.lower alias) comment_lower) mentioned_aliases
  then 0.9%float
  else
    (* Check for partial matches (word boundaries) *)
    let words_in_comment : gset string := list_to_set (Py.split comment_lower) in
    let mentioned_words : gset string := list_to_set (Py.split mentioned_lower) in
    let overlap := Z.of_nat (size (words_in_comment ∩ mentioned_words)) in
    if 0 <? overlap
    then py_min 0.7%float (int_truediv overlap (Z.of_nat (size mentioned_words)))
    else 0%float.

(** The calls of a run that name the pair [(source, mentioned)], and those
    of them whose status is 'verified'. *)
Definition names_pair (source mentioned : string)
    (call : CommentValidation * string * string) : bool :=
  String.eqb (source_apartment call.1.1) source
  && String.eqb (mentioned_apartment call.1.1) mentioned.

Definition calls_on (source mentioned : string)
    (calls : list (CommentValidation * string * string)) : Z :=
  Z.of_nat (length (List.filter (names_pair source mentioned) calls)).

Definition verified_calls_on (source mentioned : string)
    (calls : list (CommentValidation * string * string)) : Z :=
  Z.of_nat
    (length
       (List.filter
          (fun call =>
             names_pair source mentioned call
             && String.eqb (validation_status call.1.1) "verified")
          calls)).

End GridQueries.

(** ** [enhanced_reddit_searcher.py]: from the answers of Reddit to the grid *)

Module SearchPipeline.

(** A comment and a post, as far as the searcher reads them.  An attribute
    that the code reads through [hasattr], or through [getattr] with a
    default, may be missing. *)
Record Comment : Type := {
  body : option string;
  comment_name : string;                 (* comment.id *)
  comment_created_utc : float;
  comment_score : option Z
}.

Record Post : Type := {
  post_name : string;                    (* post.id *)
  title : string;
  selftext : option string;
  post_created_utc : float;
  post_score : Z;
  (* post.comments.list() after replace_more(limit=0); None when one of
     the two raises *)
  post_comments : option (list Comment)
}.

Record RedditSearchResult : Type := {
  post_id : string;
  comment_id : string;
  comment_text : string;
  subreddit : string;
  created_utc : float;
  score : Z;
  source_apartment : string;
  mentioned_apartments : list string;
  confidence_scores : gmap string float;
  search_term_used : string
}.

Definition target_subreddits : list string :=
  ["gatech"; "Atlanta"; "GeorgiaTech"; "college"].

Definition max_comments_per_post : Z := 50.
Definition min_comment_length : Z := 20.

(** The elements of a list, each at its first occurrence. *)
Fixpoint first_occurrences (seen : gset string) (l : list string) : list string :=
  match l with
  | [] => []
  | x :: l' =>
      if decide (x ∈ seen) then first_occurrences seen l'
      else x :: first_occurrences ({[x]} ∪ seen) l'
  end.

(** [f"{result.post_id}_{result.comment_id}"] *)
Definition result_key (result : RedditSearchResult) : string :=
  post_id result +:+ "_" +:+ comment_id result.

(** One turn of the loop of [_deduplicate_results] on
    [(seen, unique_results)]. *)
Definition deduplicate_step (acc : gset string * list RedditSearchResult)
    (result : RedditSearchResult) : gset string * list RedditSearchResult :=
  let '(seen, unique_results) := acc in
  let key := result_key result in
  if decide (key ∈ seen) then (seen, unique_results)
  else ({[key]} ∪ seen, (unique_results ++ [result])%list).

Definition _deduplicate_results (results : list RedditSearchResult)
  : list RedditSearchResult :=
  (foldl deduplicate_step (∅, []) results).2.

(** The grid of [g'] differs from that of [g] only in the row of [source]
    and off its diagonal, and there only in that cells count further
    comments, none of them verified. *)
Definition grown_in_row (source : string) (g g' : GridManager.GridData) : Prop :=
  GridManager.apartments g' = GridManager.apartments g
  /\ forall s m,
       match GridManager.grid_cell (GridManager.validation_grid g) s m with
       | None => GridManager.grid_cell (GridManager.validation_grid g') s m = None
       | Some cell =>
           exists cell',
             GridManager.grid_cell (GridManager.validation_grid g') s m = Some cell'
             /\ GridManager.verified_comments cell' = GridManager.verified_comments cell
             /\ GridManager.comment_count cell <= GridManager.comment_count cell'
             /\ (s <> source \/ m = source -> cell' = cell)
       end.

Section Pipeline.

(** [fuzz.ratio] *)
Variable ratio : string -> string -> Z.

(** The order in which a [for] loop visits a set of aliases. *)
Variable iter : gset string -> list string.

(** [list(set(search_terms))] *)
Variable list_of_set : list (string * float) -> list (string * float).

Variable self : RedditSearcher.Searcher.

(** [list(mentioned_apts.keys())] for the mapping of
    [_find_mentioned_apartments]: the keys in the order of their insertion,
    which is the order of [self.apartments]. *)
Definition mentioned_keys (mentioned_apts : gmap string float) : list string :=
  first_occurrences ∅
    (List.filter (fun apt_name => bool_decide (is_Some (mentioned_apts !! apt_name)))
       (RedditSearcher.apartments self)).

(** The analysis that [_search_subreddit] makes of a post and of a
    comment: a result when the text has housing context and mentions an
    apartment. *)
Definition analyze (post_id comment_id text subreddit_name : string)
    (created_utc : float) (score : Z) (source_apartment search_term : string)
  : list RedditSearchResult :=
  if RedditSearcher._has_housing_context text
  then
    let mentioned_apts := RedditSearcher._find_mentioned_apartments ratio iter self text in
    if negb (size mentioned_apts =? 0)%nat
    then [{| post_id := post_id;
             comment_id := comment_id;
             comment_text := text;
             subreddit := subreddit_name;
             created_utc := created_utc;
             score := score;
             source_apartment := source_apartment;
             mentioned_apartments := mentioned_keys mentioned_apts;
             confidence_scores := mentioned_apts;
             search_term_used := search_term |}]
    else []
  else [].

(** What holds of a result of the analysis of [text]. *)
Definition analyzed (text subreddit_name source search_term : string)
    (result : RedditSearchResult) : Prop :=
  comment_text result = text
  /\ subreddit result = subreddit_name
  /\ source_apartment result = source
  /\ search_term_used result = search_term
  /\ RedditSearcher._has_housing_context text = true
  /\ confidence_scores result = RedditSearcher._find_mentioned_apartments ratio iter self text
  /\ mentioned_apartments result <> []
  /\ NoDup (mentioned_apartments result)
  /\ (forall apt, apt ∈ mentioned_apartments result
                  <-> is_Some (confidence_scores result !! apt)).

(** The loop over the comments of a post, from the value of
    [comment_count] on. *)
Fixpoint scan_comments (post : Post) (subreddit_name search_term source_apartment : string)
    (time_threshold : float) (comments : list Comment) (comment_count : Z)
  : list RedditSearchResult :=
  match comments with
  | [] => []
  | comment :: rest =>
      if max_comments_per_post <=? comment_count then []
      else
        match body comment with
        | Some comment_body =>
            if (min_comment_length <=? Py.len comment_body)
               && (time_threshold <=? comment_created_utc comment)%float
            then
              (analyze (post_name post) (comment_name comment) comment_body subreddit_name
                 (comment_created_utc comment) (default 0 (comment_score comment))
                 source_apartment search_term
               ++ scan_comments post subreddit_name search_term source_apartment
                    time_threshold rest (comment_count + 1))%list
            else
              scan_comments post subreddit_name search_term source_apartment
                time_threshold rest comment_count
        | None =>
            scan_comments post subreddit_name search_term source_apartment
              time_threshold rest comment_count
        end
  end.

(** [_search_subreddit], on the posts that
    [subreddit.search(search_term, limit=self.max_posts_per_search)] yields
    before it ends or raises. *)
Definition _search_subreddit (posts : list Post)
    (subreddit_name search_term source_apartment : string)
    (time_threshold term_confidence : float) : list RedditSearchResult :=
  flat_map
    (fun post =>
       if (post_created_utc post <? time_threshold)%float then []
       else
         let post_text := title post +:+ " " +:+ default "" (selftext post) in
         (analyze (post_name post) "" post_text subreddit_name
            (post_created_utc post) (post_score post) source_apartment search_term
          ++ match post_comments post with
             | Some comments =>
                 scan_comments post subreddit_name search_term source_apartment
                   time_threshold comments 0
             | None => []
             end)%list)
    posts.

(** The validation file, and the number of calls of
    [add_comment_validation] so far. *)
Definition State : Type := option GridManager.GridData * nat.

(** [datetime.fromtimestamp(t)], in ISO format; [None] when it raises. *)
Variable fromtimestamp : float -> option string.

(** The two readings of the clock during the n-th call of
    [add_comment_validation]. *)
Variable clock : nat -> string * string.

(** [for mentioned_apt in other_apartments]: the state after the loop, and
    whether it ended without an exception.  The grid manager of the
    searcher is one without Supabase credentials: it writes the local
    file. *)
Fixpoint add_cross_references (result : RedditSearchResult) (source_apartment : string)
    (other_apartments : list string) (st : State) : State * bool :=
  match other_apartments with
  | [] => (st, true)
  | mentioned_apt :: rest =>
      let confidence := default 0.5%float (confidence_scores result !! mentioned_apt) in
      match fromtimestamp (created_utc result) with
      | None => (st, false)
      | Some created =>
          let validation :=
            {| GridManager.comment_id := "";
               GridManager.source_apartment := source_apartment;
               GridManager.mentioned_apartment := mentioned_apt;
               GridManager.comment_text := comment_text result;
               GridManager.confidence_score := confidence;
               GridManager.validation_status := "pending";
               GridManager.created_at := created;
               GridManager.reddit_post_id := post_id result;
               GridManager.reddit_comment_id := comment_id result |} in
          let '(now_cell, now_meta) := clock st.2 in
          let file :=
            (GridManager.add_comment_validation st.1 validation now_cell now_meta).1.1 in
          add_cross_references result source_apartment rest (file, S st.2)
      end
  end.

Definition other_apartments_of (result : RedditSearchResult) (source_apartment : string)
  : list string :=
  List.filter (fun apt => negb (String.eqb apt source_apartment))
    (mentioned_apartments result).

(** The cross-references to [mentioned_apt] among the results: the turns
    that the inner loop of [_validate_results] makes for it. *)
Definition cross_references (results : list RedditSearchResult)
    (source_apartment mentioned_apt : string) : Z :=
  Z.of_nat
    (length
       (List.filter (String.eqb mentioned_apt)
          (flat_map (fun result => other_apartments_of result source_apartment) results))).

(** [_validate_results]: the state after the call, and the list returned;
    [None] when the call raises. *)
Fixpoint _validate_results (results : list RedditSearchResult) (source_apartment : string)
    (st : State) : State * option (list RedditSearchResult) :=
  match results with
  | [] => (st, Some [])
  | result :: rest =>
      let other_apartments := other_apartments_of result source_apartment in
      if AliasGenerator.non_empty other_apartments
      then
        match add_cross_references result source_apartment other_apartments st with
        | (st, true) =>
            let '(st, validated_results) := _validate_results rest source_apartment st in
            (st, cons result <$> validated_results)
        | (st, false) => (st, None)
        end
      else if existsb (String.eqb source_apartment) (mentioned_apartments result)
      then
        let '(st, validated_results) := _validate_results rest source_apartment st in
        (st, cons result <$> validated_results)
      else _validate_results rest source_apartment st
  end.

(** [all_results] of [search_reddit_for_apartment] after the loops over
    the search terms and the subreddits.  [reddit n subreddit_name
    search_term] is the answer of Reddit to the n-th search of the call. *)
Definition search_all_terms (reddit : nat -> string -> string -> list Post)
    (search_terms : list (string * float)) (apartment_name : string)
    (time_threshold : float) : list RedditSearchResult :=
  concat
    (imap
       (fun i '(search_term, confidence) =>
          concat
            (imap
               (fun j subreddit_name =>
                  _search_subreddit
                    (reddit (i * length target_subreddits + j)%nat
                       subreddit_name search_term)
                    subreddit_name search_term apartment_name
                    time_threshold confidence)
               target_subreddits))
       search_terms).

(** [search_reddit_for_apartment]; [time_now] is the value of
    [time.time()].  [None] stands for the [OverflowError] of the
    subtraction and for an exception of [_validate_results]. *)
Definition search_reddit_for_apartment (reddit : nat -> string -> string -> list Post)
    (time_now : float) (apartment_name : string) (days_back : Z) (st : State)
  : State * option (list RedditSearchResult) :=
  let search_terms :=
    RedditSearcher.generate_search_terms iter list_of_set self apartment_name in
  match PyFloat.float_of_int (days_back * 24 * 60 * 60) with
  | None => (st, None)
  | Some seconds =>
      let time_threshold := (time_now - seconds)%float in
      let all_results :=
        search_all_terms reddit search_terms apartment_name time_threshold in
      let unique_results := _deduplicate_results all_results in
      _validate_results unique_results apartment_name st
  end.

End Pipeline.

End SearchPipeline.

(** ** Sample answers of Reddit *)

Module SamplePosts.

Import SearchPipeline.

Definition reply : Comment :=
  {| body := Some "I lived at Catalyst Midtown, the rent was fair and parking easy";
     comment_name := "c1";
     comment_created_utc := 1700000100%float;
     comment_score := Some 3 |}.

Definition short_reply : Comment :=
  {| body := Some "no idea";
     comment_name := "c2";
     comment_created_utc := 1700000200%float;
     comment_score := None |}.

Definition post : Post :=
  {| post_name := "p1";
     title := "Catalyst Midtown or Square On 5th?";
     selftext := Some "Which one has the better rent and parking?";
     post_created_utc := 1700000000%float;
     post_score := 12;
     post_comments := Some [reply; short_reply] |}.

Definition time_threshold : float := 1690000000%float.

(** A result that names two apartments, and one that names the second of
    them alone. *)
Definition both : RedditSearchResult :=
  {| post_id := "p1";
     comment_id := "";
     comment_text := "Catalyst Midtown or Square On 5th? rent and parking";
     subreddit := "gatech";
     created_utc := 1700000000%float;
     score := 12;
     source_apartment := "Catalyst Midtown";
     mentioned_apartments := ["Catalyst Midtown"; "Square On 5th"];
     confidence_scores := {[ "Catalyst Midtown" := 1%float; "Square On 5th" := 0.9%float ]};
     search_term_used := "catalyst midtown" |}.

Definition other : RedditSearchResult :=
  {| post_id := "p2";
     comment_id := "c7";
     comment_text := "Square On 5th has cheaper rent and better parking";
     subreddit := "Atlanta";
     created_utc := 1700000500%float;
     score := 4;
     source_apartment := "Catalyst Midtown";
     mentioned_apartments := ["Square On 5th"];
     confidence_scores := {[ "Square On 5th" := 0.9%float ]};
     search_term_used := "catalyst midtown" |}.

(** Reddit finds the post in the first subreddit, for the first two search
    terms. *)
Definition reddit (n : nat) (subreddit_name search_term : string) : list Post :=
  if (n =? 0)%nat || (n =? 4)%nat then [post] else [].

(** A stand-in for [datetime.fromtimestamp]: it raises on a negative time
    and on NaN. *)
Definition fromtimestamp (t : float) : option string :=
  if (0 <=? t)%float then Some "2023-11-14T22:13:20" else None.

Definition clock (n : nat) : string * string :=
  ("2025-09-27T11:00:00", "2025-09-27T11:00:01").

End SamplePosts.

(** * Properties *)

(** ** Test vectors of MD5 (RFC 1321, and a message of two blocks) *)

Example md5_empty : MD5.hexdigest "" = "d41d8cd98f00b204e9800998ecf8427e".
Proof. vm_compute. reflexivity. Qed.

Example md5_abc : MD5.hexdigest "abc" = "900150983cd24fb0d6963f7d28e17f72".
Proof. vm_compute. reflexivity. Qed.

Example md5_two_blocks :
  MD5.hexdigest
    ("Catalyst MidtownSquare On 5th"
     +:+ "I lived at Catalyst but my friend was at SQ5 and said it was much better")
  = "fcae2c0f2195f19be8ba4d1db1c12c1a".
Proof. vm_compute. reflexivity. Qed.

(** ** The order of floats

    The comparisons of primitive floats are specified by [SFcompare]; the
    facts below hold for every float, NaN and the infinities included. *)

Section FloatOrder.

Lemma SFcompare_finite s1 m1 e1 s2 m2 e2 :
  SFcompare (S754_finite s1 m1 e1) (S754_finite s2 m2 e2)
  = Some match s1, s2 with
         | true, false => Lt
         | false, true => Gt
         | false, false =>
             match Z.compare e1 e2 with
             | Lt => Lt
             | Gt => Gt
             | Eq => Pos.compare m1 m2
             end
         | true, true =>
             match Z.compare e1 e2 with
             | Lt => Gt
             | Gt => Lt
             | Eq => CompOpp (Pos.compare m1 m2)
             end
         end.
Proof. reflexivity. Qed.

Ltac sf_signs := repeat match goal with s : bool |- _ => destruct s end.

Ltac sf_compare :=
  repeat match goal with
    | H : context [Z.compare ?a ?b] |- _ => destruct (Z.compare_spec a b)
    | |- context [Z.compare ?a ?b] => destruct (Z.compare_spec a b)
    | H : context [Pos.compare ?a ?b] |- _ => destruct (Pos.compare_spec a b)
    | |- context [Pos.compare ?a ?b] => destruct (Pos.compare_spec a b)
    end;
  simpl in *; try congruence; try lia.

Ltac sf_cases :=
  try (simpl; sf_signs; simpl; congruence);
  rewrite ?SFcompare_finite; sf_signs; simpl; try congruence; sf_compare.

Ltac sf_order x y z :=
  destruct x as [?|?| |? ? ?], y as [?|?| |? ? ?], z as [?|?| |? ? ?]; sf_cases.

Lemma SFleb_ltb_trans t x y :
  SFleb t x = true -> SFltb x y = true -> SFleb t y = true.
Proof. unfold SFleb, SFltb. sf_order t x y. Qed.

Lemma SFleb_not_ltb t x y :
  SFeqb x x = true -> SFltb x y = false -> SFleb t y = true -> SFleb t x = true.
Proof. unfold SFleb, SFltb, SFeqb. sf_order t x y. Qed.

Lemma SFltb_not_ltb x y z :
  SFltb x y = true -> SFltb x z = false -> SFltb y z = false.
Proof. unfold SFltb. sf_order x y z. Qed.

Lemma SFltb_eqb_right x y : SFltb x y = true -> SFeqb y y = true.
Proof.
  unfold SFltb, SFeqb. destruct x as [?|?| |? ? ?], y as [?|?| |? ? ?]; sf_cases.
Qed.

Lemma SFltb_irrefl x : SFltb x x = false.
Proof. unfold SFltb. destruct x as [?|?| |? ? ?]; sf_cases. Qed.

(** [t <= x] and [x < y] give [t <= y]. *)
Lemma float_leb_ltb_trans (t x y : float) :
  (t <=? x)%float = true -> (x <? y)%float = true -> (t <=? y)%float = true.
Proof. rewrite !leb_spec, ltb_spec. apply SFleb_ltb_trans. Qed.

(** [t <= y] and not [x < y] give [t <= x], unless [x] is NaN. *)
Lemma float_leb_not_ltb (t x y : float) :
  (x =? x)%float = true -> (x <? y)%float = false -> (t <=? y)%float = true ->
  (t <=? x)%float = true.
Proof. rewrite !leb_spec, ltb_spec, FloatAxioms.eqb_spec. apply SFleb_not_ltb. Qed.

(** [x < y] and not [x < z] give not [y < z]. *)
Lemma float_ltb_not_ltb (x y z : float) :
  (x <? y)%float = true -> (x <? z)%float = false -> (y <? z)%float = false.
Proof. rewrite !ltb_spec. apply SFltb_not_ltb. Qed.

Lemma float_ltb_eqb_right (x y : float) :
  (x <? y)%float = true -> (y =? y)%float = true.
Proof. rewrite ltb_spec, FloatAxioms.eqb_spec. apply SFltb_eqb_right. Qed.

Lemma float_ltb_irrefl (x : float) : (x <? x)%float = false.
Proof. rewrite ltb_spec. apply SFltb_irrefl. Qed.

Lemma SFleb_trans x y z : SFleb x y = true -> SFleb y z = true -> SFleb x z = true.
Proof. unfold SFleb. sf_order x y z. Qed.

Lemma SFnot_ltb_leb x y :
  SFeqb x x = true -> SFeqb y y = true -> SFltb x y = false -> SFleb y x = true.
Proof.
  unfold SFleb, SFltb, SFeqb. destruct x as [?|?| |? ? ?], y as [?|?| |? ? ?]; sf_cases.
Qed.

Lemma SFeqb_finite x s m e :
  SFeqb x (S754_finite s m e) = true -> x = S754_finite s m e.
Proof.
  unfold SFeqb. destruct x as [?|?| |s' m' e']; try (simpl; sf_signs; discriminate).
  rewrite SFcompare_finite. intros H.
  destruct s, s'; try discriminate H;
    destruct (Z.compare_spec e' e); try discriminate H;
    destruct (Pos.compare_spec m' m); try discriminate H; now subst.
Qed.

Lemma float_leb_trans (x y z : float) :
  (x <=? y)%float = true -> (y <=? z)%float = true -> (x <=? z)%float = true.
Proof. rewrite !leb_spec. apply SFleb_trans. Qed.

(** Not [x < y] gives [y <= x], unless one of them is NaN. *)
Lemma float_not_ltb_leb (x y : float) :
  (x =? x)%float = true -> (y =? y)%float = true -> (x <? y)%float = false ->
  (y <=? x)%float = true.
Proof. rewrite leb_spec, ltb_spec, !FloatAxioms.eqb_spec. apply SFnot_ltb_leb. Qed.

(** [x <= y] excludes [y < x]. *)
Lemma SFleb_not_gt x y : SFleb x y = true -> SFltb y x = false.
Proof.
  unfold SFleb, SFltb. destruct x as [?|?| |? ? ?], y as [?|?| |? ? ?]; sf_cases.
Qed.

Lemma float_leb_not_gt (x y : float) :
  (x <=? y)%float = true -> (y <? x)%float = false.
Proof. rewrite leb_spec, ltb_spec. apply SFleb_not_gt. Qed.

(** [x == 1.0] holds of 1.0 alone. *)
Lemma float_eqb_one (x : float) : (x =? 1)%float = true -> x = 1%float.
Proof.
  rewrite FloatAxioms.eqb_spec. intros H. apply Prim2SF_inj.
  change (Prim2SF 1) with (S754_finite false 4503599627370496 (-52)) in *.
  now apply SFeqb_finite.
Qed.

End FloatOrder.

(** ** The validation grid *)

Section GridManagerProperties.

Import GridManager.

Lemma hexdigest_not_empty (s : string) : Py.is_empty (MD5.hexdigest s) = false.
Proof.
  unfold MD5.hexdigest.
  destruct (MD5.digest_words (MD5.bytes_of s)) as [[[a b] c] d].
  reflexivity.
Qed.

(** Once assigned, the comment id stays: a second call on the same object,
    or on a fresh copy of the record, uses the same id. *)
Lemma with_comment_id_idem (v : CommentValidation) :
  with_comment_id (with_comment_id v) = with_comment_id v.
Proof.
  unfold with_comment_id at 2 3.
  destruct (Py.is_empty (comment_id v)) eqn:E.
  - unfold with_comment_id. cbn [comment_id set_comment_id].
    now rewrite hexdigest_not_empty.
  - unfold with_comment_id. now rewrite E.
Qed.

Lemma with_comment_id_source (v : CommentValidation) :
  source_apartment (with_comment_id v) = source_apartment v.
Proof. unfold with_comment_id. now destruct (Py.is_empty _). Qed.

Lemma with_comment_id_mentioned (v : CommentValidation) :
  mentioned_apartment (with_comment_id v) = mentioned_apartment v.
Proof. unfold with_comment_id. now destruct (Py.is_empty _). Qed.

Lemma grid_cell_set_cell_eq grid source mentioned cell cell' :
  grid_cell grid source mentioned = Some cell ->
  grid_cell (set_cell grid source mentioned cell') source mentioned = Some cell'.
Proof.
  unfold grid_cell, set_cell. intros H.
  destruct (grid !! source) as [row|] eqn:E; [|discriminate].
  now rewrite lookup_insert_eq, lookup_insert_eq.
Qed.

Lemma grid_cell_set_cell_ne grid source mentioned cell' s m :
  (s, m) <> (source, mentioned) ->
  grid_cell (set_cell grid source mentioned cell') s m = grid_cell grid s m.
Proof.
  unfold grid_cell, set_cell. intros H.
  destruct (grid !! source) as [row|] eqn:E; [|reflexivity].
  destruct (decide (s = source)) as [->|Hs].
  - rewrite lookup_insert_eq, E. apply lookup_insert_ne. congruence.
  - now rewrite lookup_insert_ne by congruence.
Qed.

(** The division of the update succeeds on a count that is not negative
    and converts to a float. *)
Lemma truediv_int_Some (x : float) (n : Z) :
  0 < n -> n < PyFloat.overflow_bound ->
  PyFloat.truediv_int x n = Some (x / PyFloat.to_float n)%float.
Proof.
  intros Hpos Hlt. unfold PyFloat.truediv_int, PyFloat.float_of_int.
  replace (Z.abs n <? PyFloat.overflow_bound) with true
    by (symmetry; apply Z.ltb_lt; lia).
  replace (n =? 0) with false by (symmetry; apply Z.eqb_neq; lia).
  reflexivity.
Qed.

Lemma truediv_int_inv (x y : float) (n : Z) :
  PyFloat.truediv_int x n = Some y ->
  n <> 0 /\ y = (x / PyFloat.to_float n)%float.
Proof.
  unfold PyFloat.truediv_int, PyFloat.float_of_int.
  destruct (Z.abs n <? PyFloat.overflow_bound); [|discriminate].
  destruct (n =? 0) eqn:E; [discriminate|].
  intros [= <-]. split; [now apply Z.eqb_neq|reflexivity].
Qed.

Lemma update_cell_Some cell v now :
  0 <= comment_count cell -> comment_count cell + 1 < PyFloat.overflow_bound ->
  exists cell', update_cell cell v now = Some cell'
                /\ comment_count cell' = comment_count cell + 1.
Proof.
  intros H0 H1. unfold update_cell.
  rewrite truediv_int_Some by lia. eexists. split; reflexivity.
Qed.

(** A call on a pair whose cell is in the grid. *)
Lemma add_validation_on_cell grid_data v cell now_cell now_meta :
  grid_cell (validation_grid grid_data) (source_apartment v) (mentioned_apartment v)
    = Some cell ->
  0 <= comment_count cell -> comment_count cell + 1 < PyFloat.overflow_bound ->
  exists grid_data' cell',
    _add_validation_local (Some grid_data) v now_cell now_meta
      = (Some grid_data', with_comment_id v, true)
    /\ grid_cell (validation_grid grid_data') (source_apartment v) (mentioned_apartment v)
       = Some cell'
    /\ comment_count cell' = comment_count cell + 1
    /\ comments grid_data'
       = <[comment_id (with_comment_id v) := stored (with_comment_id v)]> (comments grid_data).
Proof.
  intros Hcell H0 H1.
  destruct (update_cell_Some cell (with_comment_id v) now_cell H0 H1) as (cell' & Hu & Hc).
  unfold _add_validation_local.
  rewrite with_comment_id_source, with_comment_id_mentioned, Hcell, Hu.
  eexists _, cell'. split; [reflexivity|]. cbn [validation_grid comments].
  split; [|split]; [|exact Hc|reflexivity].
  eapply grid_cell_set_cell_eq, Hcell.
Qed.

(** A call on a pair that has no cell in the grid. *)
Lemma add_validation_off_grid grid_data v now_cell now_meta :
  grid_cell (validation_grid grid_data) (source_apartment v) (mentioned_apartment v)
    = None ->
  _add_validation_local (Some grid_data) v now_cell now_meta
  = (Some {| apartments := apartments grid_data;
             validation_grid := validation_grid grid_data;
             comments :=
               <[comment_id (with_comment_id v) := stored (with_comment_id v)]>
                 (comments grid_data);
             metadata :=
               {| meta_created_at := meta_created_at (metadata grid_data);
                  meta_last_updated := now_meta;
                  total_apartments := total_apartments (metadata grid_data) |} |},
     with_comment_id v, true).
Proof.
  intros Hcell. unfold _add_validation_local.
  now rewrite with_comment_id_source, with_comment_id_mentioned, Hcell.
Qed.

(** C1, a defect of the local path: recording the same validation twice
    (first with the empty id, then the object with the id it was given)
    raises the count of its cell from 0 to 2, while the store of comments
    keeps a single record under the one id.  The claim asks for a count of
    1, as the Supabase path gives it, where [comment_id] is [UNIQUE] and
    the insert comes before the update of the cell. *)
Lemma same_validation_twice_counts_twice :
  let r1 := _add_validation_local (Some Sample.fresh_grid) Sample.validation
              "2025-09-27T11:00:00" "2025-09-27T11:00:01" in
  let r2 := _add_validation_local r1.1.1 r1.1.2
              "2025-09-27T12:00:00" "2025-09-27T12:00:01" in
  summary_comment_count
    (_get_summary_local (Some Sample.fresh_grid) "Catalyst Midtown" "Square On 5th") = 0
  /\ r1.2 = true /\ r2.2 = true
  /\ comment_id r1.1.2 = "fcae2c0f2195f19be8ba4d1db1c12c1a"
  /\ comment_id r2.1.2 = comment_id r1.1.2
  /\ summary_comment_count
       (_get_summary_local r2.1.1 "Catalyst Midtown" "Square On 5th") = 2
  /\ (size ∘ comments <$> r2.1.1) = Some 1%nat.
Proof. vm_compute. repeat split; reflexivity. Qed.

(** The counts of the local path, call by call: every call on a pair whose
    cell is in the grid adds one to the count of the cell, whatever the id
    of the record.  Two calls with the same pair add 2, be the second
    record the same as the first or one with another id; when it is the
    same record (the object of the first call or a copy of it) the second
    call leaves the store of comments as the first call left it. *)
Theorem add_validation_counts_every_call
    (grid_data : GridData) (v1 v2 : CommentValidation) (cell : Cell)
    (now1 now1' now2 now2' : string) :
  source_apartment v2 = source_apartment v1 ->
  mentioned_apartment v2 = mentioned_apartment v1 ->
  grid_cell (validation_grid grid_data) (source_apartment v1) (mentioned_apartment v1)
    = Some cell ->
  0 <= comment_count cell ->
  comment_count cell + 2 < PyFloat.overflow_bound ->
  let r1 := _add_validation_local (Some grid_data) v1 now1 now1' in
  let r2 := _add_validation_local r1.1.1 v2 now2 now2' in
  r1.2 = true /\ r2.2 = true
  /\ summary_comment_count
       (_get_summary_local r1.1.1 (source_apartment v1) (mentioned_apartment v1))
     = comment_count cell + 1
  /\ summary_comment_count
       (_get_summary_local r2.1.1 (source_apartment v1) (mentioned_apartment v1))
     = comment_count cell + 2
  /\ (v2 = v1 \/ v2 = r1.1.2 -> (comments <$> r2.1.1) = (comments <$> r1.1.1)).
Proof.
  intros Hs Hm Hcell H0 Hb r1 r2.
  destruct (add_validation_on_cell grid_data v1 cell now1 now1' Hcell H0 ltac:(lia))
    as (g1 & c1 & E1 & Hc1 & Hn1 & Hk1).
  rewrite <- Hs, <- Hm in Hc1.
  destruct (add_validation_on_cell g1 v2 c1 now2 now2' Hc1 ltac:(lia) ltac:(lia))
    as (g2 & c2 & E2 & Hc2 & Hn2 & Hk2).
  assert (R1 : r1 = (Some g1, with_comment_id v1, true)) by exact E1.
  assert (R2 : r2 = (Some g2, with_comment_id v2, true)).
  { subst r2. rewrite R1. exact E2. }
  rewrite R1, R2. cbn [fst snd _get_summary_local].
  rewrite Hs, Hm in Hc1, Hc2. rewrite Hc1, Hc2.
  cbn [summary_comment_count fmap option_fmap option_map].
  repeat split; try lia.
  intros Hsame. f_equal. rewrite Hk2, Hk1.
  assert (Hid : with_comment_id v2 = with_comment_id v1).
  { destruct Hsame as [->| ->]; [reflexivity|apply with_comment_id_idem]. }
  rewrite Hid. apply insert_insert_eq.
Qed.

(** The theorem on the fresh grid of the sample data, with the same
    validation recorded twice. *)
Lemma add_validation_counts_every_call_witness :
  let r1 := _add_validation_local (Some Sample.fresh_grid) Sample.validation "t1" "t1" in
  let r2 := _add_validation_local r1.1.1 Sample.validation "t2" "t2" in
  r1.2 = true /\ r2.2 = true
  /\ summary_comment_count
       (_get_summary_local r1.1.1 "Catalyst Midtown" "Square On 5th") = 0 + 1
  /\ summary_comment_count
       (_get_summary_local r2.1.1 "Catalyst Midtown" "Square On 5th") = 0 + 2
  /\ (Sample.validation = Sample.validation \/ Sample.validation = r1.1.2 ->
      (comments <$> r2.1.1) = (comments <$> r1.1.1)).
Proof.
  apply (add_validation_counts_every_call Sample.fresh_grid Sample.validation
           Sample.validation zero_cell "t1" "t1" "t2" "t2").
  - reflexivity.
  - reflexivity.
  - vm_compute. reflexivity.
  - simpl. lia.
  - vm_compute. reflexivity.
Defined.

(** C3, as stated, fails: a validation of a pair that the grid does not
    hold is accepted, but no cell appears for the pair and no count moves. *)
Lemma unknown_pair_gets_no_cell :
  let r := _add_validation_local (Some Sample.fresh_grid) Sample.stranger
             "2025-09-27T11:00:00" "2025-09-27T11:00:01" in
  r.2 = true
  /\ (r.1.1 ≫= fun g => grid_cell (validation_grid g) "Hub Atlanta" "Hub Atlanta") = None
  /\ summary_comment_count (_get_summary_local r.1.1 "Hub Atlanta" "Hub Atlanta") = 0.
Proof. vm_compute. repeat split; reflexivity. Qed.

(** C3, amended: a validation whose pair has no cell in the grid is
    accepted without error (the result is [True]) and stored under its id;
    the grid itself stays as it was, so the pair still has no cell and its
    summary is the zero one. *)
Theorem add_validation_unknown_pair
    (grid_data : GridData) (v : CommentValidation) (now_cell now_meta : string) :
  grid_cell (validation_grid grid_data) (source_apartment v) (mentioned_apartment v)
    = None ->
  let r := _add_validation_local (Some grid_data) v now_cell now_meta in
  r.2 = true
  /\ (validation_grid <$> r.1.1) = Some (validation_grid grid_data)
  /\ (comments <$> r.1.1)
     = Some (<[comment_id (with_comment_id v) := stored (with_comment_id v)]>
               (comments grid_data))
  /\ _get_summary_local r.1.1 (source_apartment v) (mentioned_apartment v)
     = SummaryDefault.
Proof.
  intros Hcell r. subst r. rewrite add_validation_off_grid by exact Hcell.
  cbn [fst snd fmap option_fmap option_map validation_grid comments _get_summary_local].
  now rewrite Hcell.
Qed.

(** The theorem on the fresh grid and an apartment that the data file does
    not list. *)
Lemma add_validation_unknown_pair_witness :
  let r := _add_validation_local (Some Sample.fresh_grid) Sample.stranger "t1" "t2" in
  r.2 = true
  /\ (validation_grid <$> r.1.1) = Some (validation_grid Sample.fresh_grid)
  /\ (comments <$> r.1.1)
     = Some (<[comment_id (with_comment_id Sample.stranger)
               := stored (with_comment_id Sample.stranger)]>
               (comments Sample.fresh_grid))
  /\ _get_summary_local r.1.1 "Hub Atlanta" "Hub Atlanta" = SummaryDefault.
Proof.
  apply (add_validation_unknown_pair Sample.fresh_grid Sample.stranger "t1" "t2").
  vm_compute. reflexivity.
Defined.

(** *** The average of a cell *)


Lemma zero_cell_consistent : cell_consistent zero_cell.
Proof. unfold cell_consistent. cbn. split; [lia|]. split; [lia|reflexivity]. Qed.

Lemma foldl_insert_lookup {V : Type} (v : V) (l : list string) (m0 : gmap string V) k c :
  foldl (fun m x => <[x := v]> m) m0 l !! k = Some c -> c = v \/ m0 !! k = Some c.
Proof.
  revert m0. induction l as [|x l IH]; intros m0; cbn.
  - now right.
  - intros H. destruct (IH _ H) as [->|H']; [now left|].
    destruct (decide (x = k)) as [->|Hne].
    + rewrite lookup_insert_eq in H'. left. congruence.
    + rewrite lookup_insert_ne in H' by exact Hne. now right.
Qed.

Lemma initial_grid_zero apartments now_created now_updated source mentioned cell :
  grid_cell (validation_grid (_initialize_local_storage apartments now_created now_updated))
    source mentioned = Some cell ->
  cell = zero_cell.
Proof.
  unfold grid_cell, _initialize_local_storage. cbn [validation_grid].
  destruct (foldl _ ∅ apartments !! source) as [row|] eqn:E; [|discriminate].
  apply foldl_insert_lookup in E. destruct E as [->|E].
  - intros H. apply foldl_insert_lookup in H. destruct H as [->|H]; [reflexivity|].
    now rewrite lookup_empty in H.
  - now rewrite lookup_empty in E.
Qed.

Lemma update_cell_consistent cell v now cell' :
  cell_consistent cell -> update_cell cell v now = Some cell' -> cell_consistent cell'.
Proof.
  intros (H0 & _ & _). unfold update_cell.
  destruct (PyFloat.truediv_int _ _) as [avg|] eqn:E; [|discriminate].
  intros [= <-]. apply truediv_int_inv in E. destruct E as [_ ->].
  unfold cell_consistent. cbn. split; [lia|]. split; [reflexivity|lia].
Qed.

(** A call never loses the file, and keeps every cell consistent. *)
Lemma add_validation_consistent grid_data v now_cell now_meta :
  grid_consistent (validation_grid grid_data) ->
  exists grid_data',
    (_add_validation_local (Some grid_data) v now_cell now_meta).1.1 = Some grid_data'
    /\ grid_consistent (validation_grid grid_data').
Proof.
  intros Hg. unfold _add_validation_local.
  destruct (grid_cell _ _ _) as [cell|] eqn:Hcell.
  - destruct (update_cell cell _ now_cell) as [cell'|] eqn:Hu.
    + eexists. split; [reflexivity|]. cbn [validation_grid].
      intros s m c Hc.
      destruct (decide ((s, m) = (source_apartment (with_comment_id v),
                                  mentioned_apartment (with_comment_id v)))) as [E|E].
      * injection E as -> ->. erewrite grid_cell_set_cell_eq in Hc by exact Hcell.
        injection Hc as <-. eapply update_cell_consistent; [|exact Hu]. eapply Hg, Hcell.
      * rewrite grid_cell_set_cell_ne in Hc by exact E. eapply Hg, Hc.
    + exists grid_data. split; [reflexivity|exact Hg].
  - eexists. split; [reflexivity|exact Hg].
Qed.

Lemma run_consistent apartments now_created now_updated calls :
  exists grid_data,
    run apartments now_created now_updated calls = Some grid_data
    /\ grid_consistent (validation_grid grid_data).
Proof.
  induction calls as [|[[v now_cell] now_meta] calls IH] using rev_ind.
  - eexists. split; [reflexivity|].
    intros s m c Hc. apply initial_grid_zero in Hc. subst c. apply zero_cell_consistent.
  - destruct IH as (g & Hrun & Hg). unfold run in *. rewrite foldl_app. cbn [foldl].
    rewrite Hrun. apply add_validation_consistent, Hg.
Qed.

(** C7: in every state that [create_tables] and any sequence of
    [add_comment_validation] calls lead to, the file holds a grid (no call
    loses it) in which every cell with a positive count has
    [average_confidence = confidence_sum / comment_count], the very float
    that the division gives, and every cell with count 0 has the average
    [0.0]. *)
Theorem average_confidence_invariant
    (apartments : list string) (now_created now_updated : string)
    (calls : list (CommentValidation * string * string)) :
  exists grid_data,
    run apartments now_created now_updated calls = Some grid_data
    /\ forall source mentioned cell,
         grid_cell (validation_grid grid_data) source mentioned = Some cell ->
         (0 < comment_count cell ->
          average_confidence cell
          = (confidence_sum cell / PyFloat.to_float (comment_count cell))%float)
         /\ (comment_count cell = 0 -> average_confidence cell = 0%float).
Proof.
  destruct (run_consistent apartments now_created now_updated calls) as (g & Hrun & Hg).
  exists g. split; [exact Hrun|].
  intros s m c Hc. destruct (Hg s m c Hc) as (_ & H1 & H2). now split.
Qed.

(** The invariant on a run of two calls: the cell that was hit twice and a
    cell that was never hit. *)
Example average_confidence_on_a_run :
  let file := run Sample.entities "t0" "t0"
                [(Sample.validation, "t1", "t1"); (Sample.validation, "t2", "t2")] in
  (comment_count <$> (file ≫= fun g =>
     grid_cell (validation_grid g) "Catalyst Midtown" "Square On 5th")) = Some 2
  /\ (average_confidence <$> (file ≫= fun g =>
        grid_cell (validation_grid g) "Catalyst Midtown" "Square On 5th"))
     = Some ((0.85 + 0.85) / 2)%float
  /\ (file ≫= fun g => grid_cell (validation_grid g) "The Connector" "100 Midtown")
     = Some zero_cell.
Proof. vm_compute. repeat split; reflexivity. Qed.

(** The average can be 0.0 on a positive count: a validation with the
    confidence 0.0 on a fresh cell. *)
Example zero_average_on_positive_count :
  let file := run Sample.entities "t0" "t0"
                [(set_comment_id
                    {| comment_id := "";
                       source_apartment := "The Connector";
                       mentioned_apartment := "100 Midtown";
                       comment_text := "Connector is nice but 100 Midtown is closer to campus";
                       confidence_score := 0%float;
                       validation_status := "pending";
                       created_at := "2025-09-27T10:10:00";
                       reddit_post_id := "test_post_3";
                       reddit_comment_id := "test_comment_3" |} "c3", "t1", "t1")] in
  ((fun cell => (comment_count cell, average_confidence cell))
     <$> (file ≫= fun g => grid_cell (validation_grid g) "The Connector" "100 Midtown"))
  = Some (1, 0%float).
Proof. vm_compute. reflexivity. Qed.

End GridManagerProperties.

(** ** The alias generator *)

Section AliasGeneratorProperties.

Import AliasGenerator.

Lemma lookup_assign_all (w : float) (s : gset string) (m : gmap string float) (k : string) :
  assign_all w s m !! k = if decide (k ∈ s) then Some w else m !! k.
Proof.
  unfold assign_all.
  set (P := fun (acc : gmap string float) (X : gset string) =>
              acc !! k = if decide (k ∈ X) then Some w else m !! k).
  change (P (set_fold (fun alias acc => <[alias := w]> acc) m s) s).
  apply set_fold_ind_L; unfold P.
  - destruct (decide (k ∈ (∅ : gset string))) as [H|_]; [set_solver|reflexivity].
  - intros x X r Hx IH.
    destruct (decide (x = k)) as [->|Hne].
    + rewrite lookup_insert_eq.
      destruct (decide (k ∈ {[k]} ∪ X)) as [_|H]; [reflexivity|set_solver].
    + rewrite lookup_insert_ne by exact Hne. rewrite IH.
      destruct (decide (k ∈ X)) as [H1|H1].
      * destruct (decide (k ∈ {[x]} ∪ X)) as [H2|H2]; [reflexivity|set_solver].
      * destruct (decide (k ∈ {[x]} ∪ X)) as [H2|H2]; [|reflexivity].
        apply elem_of_union in H2. destruct H2 as [H2|H2]; [|contradiction].
        apply elem_of_singleton in H2. congruence.
Qed.


Lemma run_passes_lookup ps (A : gset string) (M : gmap string float) (k : string) :
  (foldl run_pass (A, M) ps).2 !! k = last_written k ps (M !! k).
Proof.
  revert A M. induction ps as [|p ps IH]; intros A M; [reflexivity|].
  cbn [foldl last_written]. unfold run_pass at 2. rewrite IH. cbn [fst snd].
  now rewrite lookup_assign_all.
Qed.

Lemma run_passes_aliases ps (A : gset string) (M : gmap string float) (k : string) :
  k ∈ A -> k ∈ (foldl run_pass (A, M) ps).1.
Proof.
  revert A M. induction ps as [|p ps IH]; intros A M Hk; [exact Hk|].
  cbn [foldl]. apply IH. cbn. set_solver.
Qed.

Lemma last_written_cases (k : string) ps (before : option float) :
  (last_written k ps before = before /\ forall p, p ∈ ps -> k ∉ p.1)
  \/ (exists p, p ∈ ps /\ k ∈ p.1 /\ last_written k ps before = Some p.2).
Proof.
  induction ps as [|p ps IH] using rev_ind.
  - left. split; [reflexivity|]. intros p Hp. now apply elem_of_nil in Hp.
  - unfold last_written in *. rewrite foldl_app. cbn [foldl].
    destruct (decide (k ∈ p.1)) as [Hk|Hk].
    + right. exists p. split; [|now split]. apply elem_of_app. right. now left.
    + destruct IH as [[-> Hall]|(q & Hq & Hkq & ->)].
      * left. split; [reflexivity|]. intros q Hq.
        apply elem_of_app in Hq. destruct Hq as [Hq|Hq]; [now apply Hall|].
        apply list_elem_of_singleton in Hq. now subst q.
      * right. exists q. split; [|now split]. apply elem_of_app. now left.
Qed.

Lemma pass_weight_below_one soundex cfg n p :
  p ∈ passes soundex cfg n -> (p.2 <? 1)%float = true.
Proof.
  unfold passes. intros Hp.
  repeat (apply elem_of_cons in Hp; destruct Hp as [->|Hp]; [reflexivity|]).
  now apply elem_of_nil in Hp.
Qed.

Lemma replace_space_absent (s : string) :
  Py.contains " " s = false -> Py.replace " " "" s = s.
Proof.
  unfold Py.replace. cbn [Py.is_empty].
  induction s as [|c s IH]; [reflexivity|].
  cbn [Py.contains Py.replace_from]. intros H.
  apply orb_false_iff in H. destruct H as [H1 H2].
  rewrite H1. f_equal. now apply IH.
Qed.

(** A name without a space is itself one of its basic aliases. *)
Lemma basic_aliases_hold_spaceless_name soundex cfg (n : string) :
  Py.contains " " (Py.lower n) = false ->
  exists p, p ∈ passes soundex cfg n /\ Py.lower n ∈ p.1.
Proof.
  intros H. eexists. split; [unfold passes; left|]. cbn [fst].
  unfold _generate_basic_aliases. apply elem_of_list_to_set.
  rewrite !elem_of_app. do 3 right. rewrite replace_space_absent by exact H. now left.
Qed.

Lemma generate_all_aliases_scores soundex cfg (n k : string) :
  confidence_scores (generate_all_aliases soundex cfg n) !! k
  = last_written k (passes soundex cfg n)
      ((<[Py.lower n := 1%float]> (∅ : gmap string float)) !! k).
Proof.
  unfold generate_all_aliases.
  rewrite <- run_passes_lookup with (A := {[Py.lower n]}).
  now destruct (foldl run_pass _ _).
Qed.

(** The entry of [n.lower()] after a pass has returned it. *)
Lemma original_name_downgraded soundex cfg (n : string) :
  (exists p, p ∈ passes soundex cfg n /\ Py.lower n ∈ p.1) ->
  exists p, p ∈ passes soundex cfg n /\ Py.lower n ∈ p.1
            /\ confidence_scores (generate_all_aliases soundex cfg n) !! Py.lower n
               = Some p.2
            /\ (p.2 <? 1)%float = true.
Proof.
  intros (q & Hq & Hk). rewrite generate_all_aliases_scores.
  destruct (last_written_cases (Py.lower n) (passes soundex cfg n)
              ((<[Py.lower n := 1%float]> (∅ : gmap string float)) !! Py.lower n))
    as [[_ Hall]|(p & Hp & Hkp & ->)].
  - now destruct (Hall q Hq).
  - exists p. repeat split; try assumption. eapply pass_weight_below_one, Hp.
Qed.

(** C2, a defect of [generate_all_aliases]: the 1.0 that it writes for
    [n.lower()] under "Add original name" does not survive.  Whatever
    [soundex] returns and whatever the location configuration is, the
    confidence left for [n.lower()] is not 1.0, neither for the empty name
    nor for the name "Catalyst", whose entry ends at the 0.9 of the basic
    pass. *)
Lemma original_name_confidence_is_overwritten :
  ~ (exists soundex cfg,
       confidence_scores (generate_all_aliases soundex cfg "") !! Py.lower ""
       = Some 1%float)
  /\ ~ (exists soundex cfg,
          confidence_scores (generate_all_aliases soundex cfg "Catalyst")
            !! Py.lower "Catalyst"
          = Some 1%float)
  /\ confidence_scores (generate_all_aliases Sample.soundex Sample.gt_config "Catalyst")
       !! "catalyst" = Some 0.9%float.
Proof.
  split; [|split].
  - intros (soundex & cfg & H).
    destruct (original_name_downgraded soundex cfg ""
                (basic_aliases_hold_spaceless_name soundex cfg "" eq_refl))
      as (p & _ & _ & Hp & Hlt).
    rewrite H in Hp. injection Hp as Hp. rewrite <- Hp in Hlt. discriminate Hlt.
  - intros (soundex & cfg & H).
    destruct (original_name_downgraded soundex cfg "Catalyst"
                (basic_aliases_hold_spaceless_name soundex cfg "Catalyst" eq_refl))
      as (p & _ & _ & Hp & Hlt).
    rewrite H in Hp. injection Hp as Hp. rewrite <- Hp in Hlt. discriminate Hlt.
  - vm_compute. reflexivity.
Qed.

(** What [generate_all_aliases] leaves for the name itself: for every name
    [n], the empty one included, [n.lower()] is a member of the aliases and
    has an entry in the confidence mapping.  The entry is the confidence
    written last: 1.0 when no generator pass returns [n.lower()], else the
    weight of the last pass that returns it, which is below 1.0.  Every
    name without a space is returned by the basic pass, so that its entry
    is below 1.0. *)
Theorem generate_all_aliases_original_name
    (soundex : string -> option string) (location_config : list (string * list string))
    (n : string) :
  let r := generate_all_aliases soundex location_config n in
  let ps := passes soundex location_config n in
  Py.lower n ∈ aliases r
  /\ confidence_scores r !! Py.lower n = last_written (Py.lower n) ps (Some 1%float)
  /\ ((confidence_scores r !! Py.lower n = Some 1%float
       /\ forall p, p ∈ ps -> Py.lower n ∉ p.1)
      \/ (exists p, p ∈ ps /\ Py.lower n ∈ p.1
                    /\ confidence_scores r !! Py.lower n = Some p.2
                    /\ (p.2 <? 1)%float = true))
  /\ (Py.contains " " (Py.lower n) = false ->
      exists w, confidence_scores r !! Py.lower n = Some w /\ (w <? 1)%float = true).
Proof.
  intros r ps. subst r ps.
  assert (Hscore := generate_all_aliases_scores soundex location_config n (Py.lower n)).
  rewrite lookup_insert_eq in Hscore.
  split; [|split; [exact Hscore|split]].
  - unfold generate_all_aliases.
    pose proof (run_passes_aliases (passes soundex location_config n)
                  {[Py.lower n]} (<[Py.lower n := 1%float]> ∅) (Py.lower n)) as H.
    destruct (foldl run_pass _ _). cbn in *. apply H. set_solver.
  - destruct (last_written_cases (Py.lower n) (passes soundex location_config n)
                (Some 1%float)) as [[E Hall]|(p & Hp & Hk & E)].
    + left. split; [now rewrite Hscore|exact Hall].
    + right. exists p. repeat split; try assumption; [now rewrite Hscore|].
      eapply pass_weight_below_one, Hp.
  - intros Hspace.
    destruct (original_name_downgraded soundex location_config n
                (basic_aliases_hold_spaceless_name soundex location_config n Hspace))
      as (p & _ & _ & Hp & Hlt).
    now exists p.2.
Qed.

(** *** The fuzzy matcher *)

Lemma insert_desc_Permutation {A K : Type} (ltb : K -> K -> bool) (key : A -> K)
    (x : A) (l : list A) :
  insert_desc ltb key x l ≡ₚ x :: l.
Proof.
  induction l as [|y l IH]; cbn; [reflexivity|].
  destruct (ltb (key x) (key y)); [|reflexivity].
  rewrite IH. apply Permutation_swap.
Qed.

Lemma sort_desc_Permutation {A K : Type} (ltb : K -> K -> bool) (key : A -> K)
    (l : list A) :
  sort_desc ltb key l ≡ₚ l.
Proof.
  induction l as [|x l IH]; cbn; [reflexivity|].
  unfold sort_desc in IH. now rewrite insert_desc_Permutation, IH.
Qed.

Section MatcherProperties.

Variable ratio : string -> string -> Z.
Variable iter : gset string -> list string.


Lemma best_step_invariant apt_alias q (seen : list string) :
  best_so_far ratio apt_alias q seen
    (foldl (best_step ratio apt_alias q) (0, None, 0%float) seen).
Proof.
  induction seen as [|a seen IH] using rev_ind.
  - cbn. split; [lia|]. split; [|reflexivity]. intros a Ha. now apply elem_of_nil in Ha.
  - rewrite foldl_app. cbn [foldl].
    destruct (foldl _ _ seen) as [[bs ba] c]. cbn in IH. destruct IH as (H0 & Hmax & Hba).
    unfold best_step. destruct (bs <? alias_score ratio q a) eqn:E.
    + apply Z.ltb_lt in E. cbn. split; [lia|]. split.
      * intros b Hb. apply elem_of_app in Hb. destruct Hb as [Hb|Hb].
        -- specialize (Hmax b Hb). lia.
        -- apply list_elem_of_singleton in Hb. subst b. lia.
      * split; [|split; reflexivity]. apply elem_of_app. right. now left.
    + apply Z.ltb_ge in E. cbn. split; [lia|]. split.
      * intros b Hb. apply elem_of_app in Hb. destruct Hb as [Hb|Hb].
        -- now apply Hmax.
        -- apply list_elem_of_singleton in Hb. now subst b.
      * destruct ba as [b|]; [|exact Hba]. destruct Hba as (Hb & Hs & Hc).
        split; [|now split]. apply elem_of_app. now left.
Qed.


Lemma matches_above_threshold q (threshold : Z) universe acc :
  foldl
    (fun matches apt_alias =>
       let '(best_score, best_alias, confidence) := best_of ratio iter apt_alias q in
       if threshold <=? best_score
       then (matches ++ [(original_name apt_alias, best_score, best_alias, confidence)])%list
       else matches)
    acc universe
  = (acc ++ List.filter (fun m => threshold <=? match_score m)
              (map (match_of ratio iter q) universe))%list.
Proof.
  revert acc. induction universe as [|aa universe IH]; intros acc; cbn [foldl map List.filter].
  - now rewrite app_nil_r.
  - rewrite IH. unfold match_of.
    destruct (best_of ratio iter aa q) as [[bs ba] c]. cbn [match_score].
    destruct (threshold <=? bs); [|reflexivity].
    rewrite <- app_assoc. reflexivity.
Qed.

Lemma elem_of_find_best_match search_term universe (threshold : Z) m :
  m ∈ find_best_match ratio iter search_term universe threshold
  <-> exists apt_alias,
        apt_alias ∈ universe /\ m = match_of ratio iter (Py.lower search_term) apt_alias
        /\ threshold <= match_score m.
Proof.
  unfold find_best_match. rewrite sort_desc_Permutation, matches_above_threshold.
  cbn [app]. rewrite list_elem_of_In, filter_In, <- list_elem_of_In, list_elem_of_fmap.
  rewrite Z.leb_le. split.
  - intros [(aa & -> & Haa) Ht]. now exists aa.
  - intros (aa & Haa & -> & Ht). split; [now exists aa|exact Ht].
Qed.

End MatcherProperties.

(** The reference ratio is not negative. *)
Lemma lcs_row_nonneg a t prev diag left :
  0 <= diag -> 0 <= left -> Forall (fun x => 0 <= x) prev ->
  Forall (fun x => 0 <= x) (Fuzz.lcs_row a t prev diag left).
Proof.
  revert prev diag left.
  induction t as [|b t IH]; intros prev diag left Hd Hl Hp; cbn; [constructor|].
  destruct prev as [|up prev]; [constructor|].
  apply Forall_cons in Hp. destruct Hp as [Hup Hp].
  constructor.
  - destruct (Ascii.eqb a b); lia.
  - apply IH; [exact Hup| |exact Hp]. destruct (Ascii.eqb a b); lia.
Qed.

Lemma lcs_rows_nonneg (t : list ascii) (l : list ascii) (row : list Z) :
  Forall (fun x => 0 <= x) row ->
  Forall (fun x => 0 <= x) (fold_left (fun prev a => Fuzz.lcs_row a t prev 0 0) l row).
Proof.
  revert row. induction l as [|a l IH]; intros row Hrow; cbn; [exact Hrow|].
  apply IH. apply lcs_row_nonneg; [lia|lia|exact Hrow].
Qed.

Lemma last_nonneg (row : list Z) :
  Forall (fun x => 0 <= x) row -> 0 <= List.last row 0.
Proof.
  induction row as [|x row IH]; intros H; cbn; [lia|].
  apply Forall_cons in H. destruct H as [Hx H].
  destruct row; [exact Hx|]. now apply IH.
Qed.

Lemma lcs_nonneg (s t : string) : 0 <= Fuzz.lcs s t.
Proof.
  unfold Fuzz.lcs. apply last_nonneg, lcs_rows_nonneg.
  induction (list_ascii_of_string t); constructor; [lia|assumption].
Qed.

Lemma Fuzz_ratio_nonneg (s t : string) : 0 <= Fuzz.ratio s t.
Proof.
  unfold Fuzz.ratio. destruct (_ =? 0) eqn:E; [lia|].
  apply Z.eqb_neq in E. pose proof (lcs_nonneg s t). unfold Py.len in *.
  apply Z.div_pos; lia.
Qed.

(** C5: [find_best_match] returns an entity only with a score that reaches
    the threshold, and that score is the best score over the aliases of the
    entity: no alias scores higher, and some alias has it (an entity
    without aliases has the score 0 the loop starts from).  Raising the
    threshold can only remove tuples from the result. *)
Theorem find_best_match_threshold
    (ratio : string -> string -> Z) (iter : gset string -> list string)
    (search_term : string) (apartment_aliases : list ApartmentAlias) (t1 t2 : Z) :
  (forall s x, x ∈ iter s <-> x ∈ s) ->
  (forall a b, 0 <= ratio a b) ->
  t1 <= t2 ->
  (forall name score alias confidence,
      (name, score, alias, confidence)
        ∈ find_best_match ratio iter search_term apartment_aliases t1 ->
      t1 <= score
      /\ exists apt_alias,
           apt_alias ∈ apartment_aliases /\ original_name apt_alias = name
           /\ (forall a, a ∈ aliases apt_alias ->
                         alias_score ratio (Py.lower search_term) a <= score)
           /\ ((aliases apt_alias = ∅ /\ score = 0)
               \/ exists a, a ∈ aliases apt_alias
                            /\ alias_score ratio (Py.lower search_term) a = score))
  /\ (forall m,
        m ∈ find_best_match ratio iter search_term apartment_aliases t2 ->
        m ∈ find_best_match ratio iter search_term apartment_aliases t1).
Proof.
  intros Hiter Hratio Ht. split.
  - intros name score alias confidence Hin.
    apply elem_of_find_best_match in Hin. destruct Hin as (aa & Haa & Hm & Hscore).
    cbn [match_score] in Hscore. split; [exact Hscore|].
    exists aa. split; [exact Haa|].
    unfold match_of, best_of in Hm.
    pose proof (best_step_invariant ratio aa (Py.lower search_term) (iter (aliases aa)))
      as Hinv.
    destruct (foldl _ _ (iter (aliases aa))) as [[bs ba] c].
    injection Hm as -> -> -> ->. cbn in Hinv. destruct Hinv as (H0 & Hmax & Hba).
    split; [reflexivity|]. split.
    + intros a Ha. apply Hmax, Hiter, Ha.
    + destruct ba as [a|].
      * right. exists a. destruct Hba as (Ha & Hs & _). split; [now apply Hiter|exact Hs].
      * subst bs. destruct (iter (aliases aa)) as [|a l] eqn:E.
        -- left. split; [|reflexivity]. apply set_eq. intros x.
           rewrite <- (Hiter (aliases aa) x), E.
           split; intros Hx; [now apply elem_of_nil in Hx|set_solver].
        -- right. exists a. assert (Ha : a ∈ iter (aliases aa)) by (rewrite E; now left).
           split; [now apply Hiter|]. specialize (Hmax a ltac:(now left)).
           assert (0 <= alias_score ratio (Py.lower search_term) a).
           { unfold alias_score. destruct (String.eqb _ _); [lia|apply Hratio]. }
           lia.
  - intros m Hin. apply elem_of_find_best_match in Hin.
    destruct Hin as (aa & Haa & Hm & Hscore).
    apply elem_of_find_best_match. exists aa. split; [exact Haa|]. split; [exact Hm|lia].
Qed.

(** The theorem on the alias sets of the sample data, with the reference
    ratio, at the thresholds 70 and 90. *)
Lemma find_best_match_threshold_witness :
  (forall (s : gset string) x, x ∈ elements s <-> x ∈ s)
  /\ (forall a b, 0 <= Fuzz.ratio a b)
  /\ 70 <= 90
  /\ (forall m,
        m ∈ find_best_match Fuzz.ratio elements "Catalyst Midtown" Sample.universe 90 ->
        m ∈ find_best_match Fuzz.ratio elements "Catalyst Midtown" Sample.universe 70)
  /\ map match_score
       (find_best_match Fuzz.ratio elements "Catalyst Midtown" Sample.universe 90)
     = [100].
Proof.
  assert (Hiter : forall (s : gset string) x, x ∈ elements s <-> x ∈ s)
    by (intros s x; apply elem_of_elements).
  assert (Ht : 70 <= 90) by lia.
  split; [exact Hiter|]. split; [exact Fuzz_ratio_nonneg|]. split; [exact Ht|].
  split.
  - exact (proj2 (find_best_match_threshold Fuzz.ratio elements "Catalyst Midtown"
                    Sample.universe 70 90 Hiter Fuzz_ratio_nonneg Ht)).
  - vm_compute. reflexivity.
Defined.

End AliasGeneratorProperties.

(** ** The searcher: mention detection *)

Section MentionProperties.

Import AliasGenerator RedditSearcher.

(** The running maximum of [max(best_score, score)], started at 0.0: it is
    never NaN, no score seen is greater, and it is 0.0 or a score seen. *)
Lemma running_max_invariant (scores : list float) :
  let best := foldl PyFloat.max 0%float scores in
  (best =? best)%float = true
  /\ (forall s, s ∈ scores -> (best <? s)%float = false)
  /\ (best = 0%float \/ best ∈ scores).
Proof.
  induction scores as [|s scores IH] using rev_ind.
  - cbn. split; [reflexivity|]. split; [|now left].
    intros s Hs. now apply elem_of_nil in Hs.
  - cbn zeta in *. rewrite foldl_app. cbn [foldl].
    destruct IH as (Hnan & Hmax & Hin).
    set (best := foldl PyFloat.max 0%float scores) in *. unfold PyFloat.max.
    destruct (best <? s)%float eqn:E.
    + split; [eapply float_ltb_eqb_right, E|]. split.
      * intros s' Hs'. apply elem_of_app in Hs'. destruct Hs' as [Hs'|Hs'].
        -- eapply float_ltb_not_ltb; [exact E|now apply Hmax].
        -- apply list_elem_of_singleton in Hs'. subst s'. apply float_ltb_irrefl.
      * right. apply elem_of_app. right. now left.
    + split; [exact Hnan|]. split.
      * intros s' Hs'. apply elem_of_app in Hs'. destruct Hs' as [Hs'|Hs'].
        -- now apply Hmax.
        -- apply list_elem_of_singleton in Hs'. now subst s'.
      * destruct Hin as [Hin|Hin]; [now left|right]. apply elem_of_app. now left.
Qed.

(** The maximum reaches a positive threshold exactly when a score does. *)
Lemma running_max_threshold (t : float) (scores : list float) :
  (t <=? 0)%float = false ->
  (t <=? foldl PyFloat.max 0%float scores)%float = true
  <-> exists s, s ∈ scores /\ (t <=? s)%float = true.
Proof.
  intros Ht. destruct (running_max_invariant scores) as (Hnan & Hmax & Hin).
  cbn zeta in *. split.
  - intros H. destruct Hin as [Hin|Hin].
    + rewrite Hin in H. congruence.
    + eexists. split; [exact Hin|exact H].
  - intros (s & Hs & Hts). eapply float_leb_not_ltb; [exact Hnan|apply Hmax, Hs|exact Hts].
Qed.

Section Mentions.

Variable ratio : string -> string -> Z.
Variable iter : gset string -> list string.
Variable self : Searcher.

Hypothesis iter_elements : forall s x, x ∈ iter s <-> x ∈ s.

Lemma best_mention_score_fold aliases text_lower :
  best_mention_score ratio iter aliases text_lower
  = foldl PyFloat.max 0%float
      (mention_score ratio aliases text_lower <$> iter (AliasGenerator.aliases aliases)).
Proof. unfold best_mention_score. now rewrite foldl_fmap. Qed.

Lemma best_mention_score_threshold aliases text_lower :
  (0.6 <=? best_mention_score ratio iter aliases text_lower)%float = true
  <-> exists alias, alias ∈ AliasGenerator.aliases aliases
        /\ (0.6 <=? mention_score ratio aliases text_lower alias)%float = true.
Proof.
  rewrite best_mention_score_fold, running_max_threshold by reflexivity. split.
  - intros (s & Hs & Hts). apply list_elem_of_fmap in Hs. destruct Hs as (a & -> & Ha).
    exists a. split; [now apply iter_elements|exact Hts].
  - intros (a & Ha & Hts). eexists. split; [|exact Hts].
    apply list_elem_of_fmap. exists a. split; [reflexivity|now apply iter_elements].
Qed.

Lemma best_mention_score_is_max aliases text_lower :
  let best := best_mention_score ratio iter aliases text_lower in
  (forall alias, alias ∈ AliasGenerator.aliases aliases ->
                 (best <? mention_score ratio aliases text_lower alias)%float = false)
  /\ (best = 0%float
      \/ exists alias, alias ∈ AliasGenerator.aliases aliases
                       /\ best = mention_score ratio aliases text_lower alias).
Proof.
  cbn zeta. rewrite best_mention_score_fold.
  destruct (running_max_invariant
              (mention_score ratio aliases text_lower <$> iter (AliasGenerator.aliases aliases)))
    as (_ & Hmax & Hin).
  cbn zeta in *. split.
  - intros a Ha. apply Hmax. apply list_elem_of_fmap. exists a.
    split; [reflexivity|now apply iter_elements].
  - destruct Hin as [Hin|Hin]; [now left|right].
    apply list_elem_of_fmap in Hin. destruct Hin as (a & E & Ha).
    exists a. split; [now apply iter_elements|exact E].
Qed.


Lemma find_mentioned_apartments_lookup text name :
  _find_mentioned_apartments ratio iter self text !! name
  = if decide (name ∈ apartments self)
    then mention_entry ratio iter self (Py.lower text) name
    else None.
Proof.
  unfold _find_mentioned_apartments.
  set (step := fun (mentioned : gmap string float) (apt_name : string) => _).
  assert (H : forall l (m0 : gmap string float),
             foldl step m0 l !! name
             = if decide (name ∈ l)
               then match mention_entry ratio iter self (Py.lower text) name with
                    | Some b => Some b
                    | None => m0 !! name
                    end
               else m0 !! name).
  { induction l as [|x l IH]; intros m0; cbn [foldl].
    - destruct (decide (name ∈ [])) as [H|_]; [now apply elem_of_nil in H|reflexivity].
    - rewrite IH.
      assert (Hstep : step m0 x !! name
                      = if decide (x = name)
                        then match mention_entry ratio iter self (Py.lower text) name with
                             | Some b => Some b
                             | None => m0 !! name
                             end
                        else m0 !! name).
      { unfold step, mention_entry. destruct (decide (x = name)) as [->|Hne].
        - destruct (apartment_aliases self !! name) as [aa|]; [|reflexivity].
          cbn zeta. destruct (0.6 <=? _)%float; [apply lookup_insert_eq|reflexivity].
        - destruct (apartment_aliases self !! x) as [aa|]; [|reflexivity].
          destruct (0.6 <=? _)%float; [now apply lookup_insert_ne|reflexivity]. }
      rewrite Hstep.
      destruct (decide (name ∈ x :: l)) as [Hxl|Hxl].
      * apply elem_of_cons in Hxl.
        destruct (decide (name ∈ l)) as [Hl|Hl].
        -- destruct (decide (x = name)); [|reflexivity].
           now destruct (mention_entry ratio iter self (Py.lower text) name).
        -- destruct (decide (x = name)) as [Hx|Hx]; [reflexivity|].
           destruct Hxl as [Hxl|Hxl]; [congruence|contradiction].
      * destruct (decide (name ∈ l)) as [Hl|Hl]; [destruct Hxl; now right|].
        destruct (decide (x = name)) as [Hx|Hx]; [|reflexivity].
        destruct Hxl. apply elem_of_cons. left. congruence. }
  rewrite H, lookup_empty.
  destruct (decide (name ∈ apartments self)); [|reflexivity].
  now destruct (mention_entry ratio iter self (Py.lower text) name).
Qed.

(** The score of an alias, by the cases of the source. *)
Lemma mention_score_cases aliases text_lower alias :
  let confidence := default 0.5%float (confidence_scores aliases !! alias) in
  let score := mention_score ratio aliases text_lower alias in
  (Py.contains alias text_lower = true -> score = confidence)
  /\ (Py.contains alias text_lower = false -> Py.len alias <= 4 -> score = 0%float)
  /\ (Py.contains alias text_lower = false -> 4 < Py.len alias ->
      (score = 0%float
       /\ forall word, word ∈ Py.split text_lower -> ratio alias word < 85)
      \/ (exists word, word ∈ Py.split text_lower /\ 85 <= ratio alias word
            /\ score
               = (confidence * (PyFloat.to_float (ratio alias word) / 100))%float)).
Proof.
  cbn zeta. unfold mention_score. split; [|split].
  - now intros ->.
  - intros -> Hlen. now replace (4 <? Py.len alias) with false by (symmetry; lia).
  - intros -> Hlen. replace (4 <? Py.len alias) with true by (symmetry; lia).
    induction (Py.split text_lower) as [|word rest IH]; cbn [fuzzy_word_score].
    + left. split; [reflexivity|]. intros w Hw. now apply elem_of_nil in Hw.
    + destruct (85 <=? ratio alias word) eqn:E.
      * right. exists word. split; [now left|]. split; [lia|reflexivity].
      * destruct IH as [[H0 Hall]|(w & Hw & Hr & Hs)].
        -- left. split; [exact H0|]. intros w Hw.
           apply elem_of_cons in Hw. destruct Hw as [->|Hw]; [lia|now apply Hall].
        -- right. exists w. split; [now right|now split].
Qed.

End Mentions.

(** C6: an entity is in the mapping that [_find_mentioned_apartments]
    returns if and only if it is one of the apartments, has an alias set,
    and one of its aliases scores at least 0.6, that is, if and only if
    the maximum of the scores of its aliases is at least 0.6.  The value
    stored is that maximum: no alias scores higher, and an alias has it.
    The score of an alias is its confidence when the alias occurs in the
    lowercased text; else 0 for an alias of at most 4 characters; else
    confidence * (ratio / 100) for a token of the text whose ratio is at
    least 85, and 0 when no token has such a ratio. *)
Theorem find_mentioned_apartments_threshold
    (ratio : string -> string -> Z) (iter : gset string -> list string)
    (self : Searcher) (text name : string) :
  (forall s x, x ∈ iter s <-> x ∈ s) ->
  let mentioned := _find_mentioned_apartments ratio iter self text in
  let score aliases alias := mention_score ratio aliases (Py.lower text) alias in
  (is_Some (mentioned !! name)
   <-> name ∈ apartments self
       /\ exists aliases,
            apartment_aliases self !! name = Some aliases
            /\ exists alias, alias ∈ AliasGenerator.aliases aliases
                             /\ (0.6 <=? score aliases alias)%float = true)
  /\ (forall best, mentioned !! name = Some best ->
        (0.6 <=? best)%float = true
        /\ exists aliases,
             apartment_aliases self !! name = Some aliases
             /\ (forall alias, alias ∈ AliasGenerator.aliases aliases ->
                               (best <? score aliases alias)%float = false)
             /\ exists alias, alias ∈ AliasGenerator.aliases aliases
                              /\ best = score aliases alias)
  /\ (forall aliases alias,
        let confidence := default 0.5%float (confidence_scores aliases !! alias) in
        (Py.contains alias (Py.lower text) = true -> score aliases alias = confidence)
        /\ (Py.contains alias (Py.lower text) = false -> Py.len alias <= 4 ->
            score aliases alias = 0%float)
        /\ (Py.contains alias (Py.lower text) = false -> 4 < Py.len alias ->
            (score aliases alias = 0%float
             /\ forall word, word ∈ Py.split (Py.lower text) -> ratio alias word < 85)
            \/ (exists word, word ∈ Py.split (Py.lower text) /\ 85 <= ratio alias word
                  /\ score aliases alias
                     = (confidence * (PyFloat.to_float (ratio alias word) / 100))%float))).
Proof.
  intros Hiter mentioned score. subst mentioned score. cbn beta.
  rewrite find_mentioned_apartments_lookup. split; [|split].
  - destruct (decide (name ∈ apartments self)) as [Hin|Hin].
    + unfold mention_entry. destruct (apartment_aliases self !! name) as [aa|].
      * cbn zeta.
        pose proof (best_mention_score_threshold ratio iter Hiter aa (Py.lower text)) as Ht.
        destruct (0.6 <=? best_mention_score ratio iter aa (Py.lower text))%float.
        -- split; [|now eexists]. intros _. split; [exact Hin|].
           exists aa. split; [reflexivity|]. now apply Ht.
        -- split; [now intros [? [=]]|]. intros (_ & aa' & [= <-] & Hex).
           apply Ht in Hex. discriminate Hex.
      * split; [now intros [? [=]]|]. now intros (_ & aa & [=] & _).
    + split; [now intros [? [=]]|]. now intros [? _].
  - intros best. destruct (decide (name ∈ apartments self)) as [Hin|Hin]; [|discriminate].
    unfold mention_entry. destruct (apartment_aliases self !! name) as [aa|]; [|discriminate].
    cbn zeta. destruct (0.6 <=? _)%float eqn:E; [|discriminate]. intros [= <-].
    split; [exact E|]. exists aa. split; [reflexivity|].
    destruct (best_mention_score_is_max ratio iter Hiter aa (Py.lower text)) as [Hmax Hatt].
    split; [exact Hmax|]. destruct Hatt as [H0|Hatt]; [|exact Hatt].
    rewrite H0 in E. discriminate E.
  - intros aa alias. apply mention_score_cases.
Qed.

(** C9: when an alias of more than 4 characters does not occur in the
    text, its score comes from the first token, in text order, whose ratio
    is at least 85; the tokens after it, whatever their ratio, play no
    part. *)
Theorem mention_score_first_token
    (ratio : string -> string -> Z) (aliases : ApartmentAlias)
    (text_lower alias : string) (before : list string) (word : string)
    (after : list string) :
  Py.contains alias text_lower = false ->
  4 < Py.len alias ->
  Py.split text_lower = (before ++ word :: after)%list ->
  (forall w, w ∈ before -> ratio alias w < 85) ->
  85 <= ratio alias word ->
  mention_score ratio aliases text_lower alias
  = (default 0.5%float (confidence_scores aliases !! alias)
     * (PyFloat.to_float (ratio alias word) / 100))%float.
Proof.
  intros Hsub Hlen Hsplit Hbefore Hword. unfold mention_score.
  rewrite Hsub, Hsplit. replace (4 <? Py.len alias) with true by (symmetry; lia).
  clear Hsplit. induction before as [|w before IH]; cbn [app fuzzy_word_score].
  - now replace (85 <=? ratio alias word) with true by (symmetry; lia).
  - replace (85 <=? ratio alias w) with false.
    + apply IH. intros w' Hw'. apply Hbefore. now right.
    + symmetry. apply Z.leb_gt. apply Hbefore. now left.
Qed.

(** The theorem on the searcher of the sample data and a text that names
    an apartment in full. *)
Lemma find_mentioned_apartments_threshold_witness :
  (forall (s : gset string) x, x ∈ elements s <-> x ∈ s)
  /\ (forall best,
        _find_mentioned_apartments Fuzz.ratio elements Sample.searcher
          "I lived at Catalyst Midtown and the rent was fair" !! "Catalyst Midtown"
        = Some best ->
        (0.6 <=? best)%float = true)
  /\ _find_mentioned_apartments Fuzz.ratio elements Sample.searcher
       "I lived at Catalyst Midtown and the rent was fair" !! "Catalyst Midtown"
     = Some 0.9%float.
Proof.
  assert (Hiter : forall (s : gset string) x, x ∈ elements s <-> x ∈ s)
    by (intros s x; apply elem_of_elements).
  split; [exact Hiter|]. split.
  - intros best Hbest.
    pose proof (find_mentioned_apartments_threshold Fuzz.ratio elements Sample.searcher
                  "I lived at Catalyst Midtown and the rent was fair" "Catalyst Midtown"
                  Hiter) as T.
    cbv zeta in T. destruct T as (_ & T & _). exact (proj1 (T best Hbest)).
  - vm_compute. reflexivity.
Defined.

(** The theorem on a text whose fourth token has the ratio 86 and whose
    sixth token has the ratio 93: the score is 0.9 * 0.86. *)
Lemma mention_score_first_token_witness :
  Py.contains "catalyst" Sample.misspelt_text = false
  /\ 4 < Py.len "catalyst"
  /\ Py.split Sample.misspelt_text = (["i"; "lived"; "at"] ++ "catlys" :: ["not"; "catalys"])%list
  /\ (forall w, w ∈ ["i"; "lived"; "at"] -> Fuzz.ratio "catalyst" w < 85)
  /\ 85 <= Fuzz.ratio "catalyst" "catlys"
  /\ Fuzz.ratio "catalyst" "catlys" < Fuzz.ratio "catalyst" "catalys"
  /\ mention_score Fuzz.ratio Sample.catalyst Sample.misspelt_text "catalyst"
     = (default 0.5%float (confidence_scores Sample.catalyst !! "catalyst")
        * (PyFloat.to_float (Fuzz.ratio "catalyst" "catlys") / 100))%float.
Proof.
  assert (H1 : Py.contains "catalyst" Sample.misspelt_text = false)
    by (vm_compute; reflexivity).
  assert (H2 : 4 < Py.len "catalyst") by (vm_compute; reflexivity).
  assert (H3 : Py.split Sample.misspelt_text
               = (["i"; "lived"; "at"] ++ "catlys" :: ["not"; "catalys"])%list)
    by (vm_compute; reflexivity).
  assert (H4 : forall w, w ∈ ["i"; "lived"; "at"] -> Fuzz.ratio "catalyst" w < 85).
  { intros w Hw.
    repeat (apply elem_of_cons in Hw; destruct Hw as [->|Hw]; [vm_compute; reflexivity|]).
    now apply elem_of_nil in Hw. }
  assert (H5 : 85 <= Fuzz.ratio "catalyst" "catlys") by (vm_compute; discriminate).
  split; [exact H1|]. split; [exact H2|]. split; [exact H3|].
  split; [exact H4|]. split; [exact H5|].
  split; [vm_compute; reflexivity|].
  exact (mention_score_first_token Fuzz.ratio Sample.catalyst Sample.misspelt_text
           "catalyst" ["i"; "lived"; "at"] "catlys" ["not"; "catalys"] H1 H2 H3 H4 H5).
Defined.

End MentionProperties.

(** ** The searcher: the housing-context gate and the search terms *)

Section SearcherProperties.

Import AliasGenerator RedditSearcher.

Lemma size_at_least_two (X : gset string) :
  (2 <= size X)%nat <-> exists x y, x <> y /\ x ∈ X /\ y ∈ X.
Proof.
  unfold size, set_size. cbn. pose proof (NoDup_elements X) as Hnd.
  setoid_rewrite <- (elem_of_elements X).
  destruct (elements X) as [|x [|y l]]; cbn.
  - split; [lia|]. intros (x & y & _ & Hx & _). now apply elem_of_nil in Hx.
  - split; [lia|]. intros (a & b & Hne & Ha & Hb).
    apply list_elem_of_singleton in Ha, Hb. congruence.
  - split; [|lia]. intros _. exists x, y. split; [|split; [now left|right; now left]].
    apply NoDup_cons in Hnd. destruct Hnd as [Hx _]. intros ->. apply Hx. now left.
Qed.

(** The gate opens exactly on two different keywords that occur in the
    lowercased text. *)
Lemma has_housing_context_two_keywords (text : string) :
  _has_housing_context text = true
  <-> exists k1 k2,
        k1 <> k2
        /\ k1 ∈ housing_context_keywords /\ k2 ∈ housing_context_keywords
        /\ Py.contains k1 (Py.lower text) = true
        /\ Py.contains k2 (Py.lower text) = true.
Proof.
  unfold _has_housing_context. rewrite Z.leb_le.
  change 2 with (Z.of_nat 2). rewrite <- Nat2Z.inj_le, size_at_least_two.
  split; intros (k1 & k2 & Hne & H1 & H2).
  - apply elem_of_filter in H1, H2. exists k1, k2. tauto.
  - exists k1, k2. split; [exact Hne|]. split; apply elem_of_filter; tauto.
Qed.

(** C8: [_has_housing_context] is true if and only if at least two
    distinct keywords of the set occur in the lowercased text; it is false
    on "Random comment about pizza" and true on "The rent and parking here
    are great". *)
Theorem has_housing_context_iff :
  (forall text,
      _has_housing_context text = true
      <-> exists k1 k2,
            k1 <> k2
            /\ k1 ∈ housing_context_keywords /\ k2 ∈ housing_context_keywords
            /\ Py.contains k1 (Py.lower text) = true
            /\ Py.contains k2 (Py.lower text) = true)
  /\ _has_housing_context "Random comment about pizza" = false
  /\ _has_housing_context "The rent and parking here are great" = true.
Proof.
  split; [exact has_housing_context_two_keywords|].
  split; vm_compute; reflexivity.
Qed.

(** C10, as stated, fails: "park" is not a keyword, a text whose only
    keyword is the word "parking" has one hit, and the gate stays shut. *)
Lemma parking_alone_does_not_pass :
  ("park" ∉ housing_context_keywords)
  /\ _has_housing_context "parking" = false
  /\ _has_housing_context "Where is the parking" = false
  /\ size (filter (fun keyword => Py.contains keyword (Py.lower "Where is the parking") = true)
             housing_context_keywords) = 1%nat.
Proof.
  split; [|split; [|split]]; try (vm_compute; reflexivity).
  intros H. apply elem_of_elements in H. vm_compute in H.
  repeat (apply elem_of_cons in H; destruct H as [H|H]; [discriminate H|]).
  now apply elem_of_nil in H.
Qed.

(** C10, amended: a keyword counts as a hit whenever it occurs as a
    substring of the lowercased text, whole word or not: two keywords that
    occur anywhere open the gate, as "rent" inside "parents" does together
    with "walk".  "parking" is a keyword and "park" is not: a text in
    which no keyword but "parking" occurs has at most one hit and does not
    pass the gate. *)
Theorem housing_context_counts_substrings :
  (forall text k1 k2,
      k1 ∈ housing_context_keywords -> k2 ∈ housing_context_keywords -> k1 <> k2 ->
      Py.contains k1 (Py.lower text) = true -> Py.contains k2 (Py.lower text) = true ->
      _has_housing_context text = true)
  /\ _has_housing_context "My parents walk" = true
  /\ ("parking" ∈ housing_context_keywords)
  /\ ("park" ∉ housing_context_keywords)
  /\ (forall text,
        (forall k, k ∈ housing_context_keywords -> Py.contains k (Py.lower text) = true ->
                   k = "parking") ->
        _has_housing_context text = false)
  /\ _has_housing_context "parking" = false.
Proof.
  split; [|split; [|split; [|split; [|split]]]].
  - intros text k1 k2 H1 H2 Hne Hc1 Hc2. apply has_housing_context_two_keywords.
    exists k1, k2. tauto.
  - vm_compute. reflexivity.
  - apply elem_of_elements. vm_compute. repeat constructor.
  - intros H. apply elem_of_elements in H. vm_compute in H.
    repeat (apply elem_of_cons in H; destruct H as [H|H]; [discriminate H|]).
    now apply elem_of_nil in H.
  - intros text Honly. apply not_true_is_false. intros H.
    apply has_housing_context_two_keywords in H.
    destruct H as (k1 & k2 & Hne & H1 & H2 & Hc1 & Hc2).
    rewrite (Honly k1 H1 Hc1), (Honly k2 H2 Hc2) in Hne. now apply Hne.
  - vm_compute. reflexivity.
Qed.

(** C4 on the first apartment of the sample data: the result holds the
    canonical name twice, once with the confidence 1.0 of the explicit
    entry and once with the 0.9 that the basic pass gave the alias, both
    among the 10 terms returned.  The same holds when the sets are visited
    in the opposite order. *)
Theorem search_terms_repeat_the_name :
  let terms :=
    generate_search_terms elements dedupe Sample.searcher "Catalyst Midtown" in
  let terms' :=
    generate_search_terms (fun s => rev (elements s)) (fun l => rev (dedupe l))
      Sample.searcher "Catalyst Midtown" in
  List.filter (fun t => String.eqb t.1 "catalyst midtown") terms
  = [("catalyst midtown", 1%float); ("catalyst midtown", 0.9%float)]
  /\ length terms = 10%nat
  /\ List.filter (fun t => String.eqb t.1 "catalyst midtown") terms'
     = [("catalyst midtown", 1%float); ("catalyst midtown", 0.9%float)]
  /\ length terms' = 10%nat.
Proof. vm_compute. repeat split; reflexivity. Qed.

End SearcherProperties.

(** * Further properties *)

(** ** The validation grid: shape, counts and queries *)

Section GridManagerFurther.

Import GridManager GridQueries.

Lemma foldl_insert_lookup_total {V : Type} (f : string -> V) (l : list string)
    (m0 : gmap string V) (k : string) :
  foldl (fun m x => <[x := f x]> m) m0 l !! k
  = if decide (k ∈ l) then Some (f k) else m0 !! k.
Proof.
  revert m0. induction l as [|x l IH]; intros m0; cbn [foldl].
  - destruct (decide (k ∈ [])) as [H|_]; [now apply elem_of_nil in H|reflexivity].
  - rewrite IH. destruct (decide (k ∈ l)) as [Hl|Hl].
    + destruct (decide (k ∈ x :: l)) as [_|H]; [reflexivity|]. destruct H. now right.
    + destruct (decide (x = k)) as [->|Hne].
      * rewrite lookup_insert_eq.
        destruct (decide (k ∈ k :: l)) as [_|H]; [reflexivity|]. destruct H. now left.
      * rewrite lookup_insert_ne by exact Hne.
        destruct (decide (k ∈ x :: l)) as [H|_]; [|reflexivity].
        apply elem_of_cons in H. destruct H as [H|H]; [congruence|contradiction].
Qed.

(** X1: [_initialize_local_storage] builds one cell for every ordered pair
    of apartments of the data file, self-pairs included, each with count
    0, sum 0.0, average 0.0 and no date, and no cell for any other pair;
    the store of comments is empty. *)
Theorem initial_grid_cells (apartments : list string) (now_created now_updated : string)
    (source mentioned : string) :
  let grid_data := _initialize_local_storage apartments now_created now_updated in
  grid_cell (validation_grid grid_data) source mentioned
  = (if decide (source ∈ apartments /\ mentioned ∈ apartments)
     then Some zero_cell else None)
  /\ comments grid_data = ∅
  /\ _get_summary_local (Some grid_data) source mentioned
     = (if decide (source ∈ apartments /\ mentioned ∈ apartments)
        then SummaryCell zero_cell else SummaryDefault).
Proof.
  cbn zeta.
  assert (H : grid_cell
                (validation_grid
                   (_initialize_local_storage apartments now_created now_updated))
                source mentioned
              = if decide (source ∈ apartments /\ mentioned ∈ apartments)
                then Some zero_cell else None).
  { unfold grid_cell, _initialize_local_storage. cbn [validation_grid].
    rewrite (foldl_insert_lookup_total
               (fun _ => foldl (fun row target_apt => <[target_apt := zero_cell]> row)
                           ∅ apartments)).
    destruct (decide (source ∈ apartments)) as [Hs|Hs].
    - rewrite (foldl_insert_lookup_total (fun _ => zero_cell)), lookup_empty.
      destruct (decide (mentioned ∈ apartments)) as [Hm|Hm].
      + now destruct (decide (source ∈ apartments /\ mentioned ∈ apartments)) as [_|[]].
      + destruct (decide (source ∈ apartments /\ mentioned ∈ apartments)) as [[_ ?]|_];
          [contradiction|reflexivity].
    - rewrite lookup_empty.
      destruct (decide (source ∈ apartments /\ mentioned ∈ apartments)) as [[? _]|_];
        [contradiction|reflexivity]. }
  split; [exact H|]. split; [reflexivity|].
  cbn [_get_summary_local]. rewrite H. now destruct (decide _).
Qed.

Lemma is_Some_grid_cell_set_cell grid source mentioned cell cell' s m :
  grid_cell grid source mentioned = Some cell ->
  is_Some (grid_cell (set_cell grid source mentioned cell') s m)
  <-> is_Some (grid_cell grid s m).
Proof.
  intros Hcell. destruct (decide ((s, m) = (source, mentioned))) as [E|E].
  - injection E as -> ->. erewrite grid_cell_set_cell_eq by exact Hcell.
    rewrite Hcell. split; intros _; eexists; reflexivity.
  - now rewrite grid_cell_set_cell_ne.
Qed.

(** The grid after a call, by the cases of the call. *)
Lemma add_validation_grid grid_data v now_cell now_meta :
  exists grid_data',
    (_add_validation_local (Some grid_data) v now_cell now_meta).1.1 = Some grid_data'
    /\ apartments grid_data' = apartments grid_data
    /\ (validation_grid grid_data' = validation_grid grid_data
        \/ exists cell cell',
             grid_cell (validation_grid grid_data) (source_apartment v)
               (mentioned_apartment v) = Some cell
             /\ update_cell cell (with_comment_id v) now_cell = Some cell'
             /\ validation_grid grid_data'
                = set_cell (validation_grid grid_data) (source_apartment v)
                    (mentioned_apartment v) cell').
Proof.
  unfold _add_validation_local.
  rewrite with_comment_id_source, with_comment_id_mentioned.
  destruct (grid_cell _ _ _) as [cell|] eqn:Hcell.
  - destruct (update_cell cell _ now_cell) as [cell'|] eqn:Hu.
    + eexists. split; [reflexivity|]. split; [reflexivity|]. right.
      exists cell, cell'. now repeat split.
    + exists grid_data. split; [reflexivity|]. split; [reflexivity|now left].
  - eexists. split; [reflexivity|]. split; [reflexivity|now left].
Qed.

Lemma run_snoc apartments now_created now_updated calls v now_cell now_meta :
  run apartments now_created now_updated (calls ++ [(v, now_cell, now_meta)])
  = (_add_validation_local (run apartments now_created now_updated calls)
       v now_cell now_meta).1.1.
Proof. unfold run. now rewrite foldl_app. Qed.

(** X2: the grid keeps its shape.  After [create_tables] and any calls of
    [add_comment_validation], the file holds a grid with the same list of
    apartments, and a pair has a cell if and only if both of its entities
    are apartments of the data file: no call adds or removes a cell. *)
Theorem grid_shape_invariant (apartments : list string) (now_created now_updated : string)
    (calls : list (CommentValidation * string * string)) :
  exists grid_data,
    run apartments now_created now_updated calls = Some grid_data
    /\ GridManager.apartments grid_data = apartments
    /\ forall source mentioned,
         is_Some (grid_cell (validation_grid grid_data) source mentioned)
         <-> source ∈ apartments /\ mentioned ∈ apartments.
Proof.
  induction calls as [|[[v now_cell] now_meta] calls IH] using rev_ind.
  - eexists. split; [reflexivity|]. split; [reflexivity|]. intros s m.
    destruct (initial_grid_cells apartments now_created now_updated s m) as [-> _].
    destruct (decide _) as [H|H]; split; try tauto; try (intros _; now eexists).
    now intros [? [=]].
  - destruct IH as (g & Hrun & Hapts & Hshape). rewrite run_snoc, Hrun.
    destruct (add_validation_grid g v now_cell now_meta)
      as (g' & -> & Ha & [Hg|(cell & cell' & Hcell & _ & Hg)]).
    + exists g'. split; [reflexivity|]. split; [congruence|]. intros s m. now rewrite Hg.
    + exists g'. split; [reflexivity|]. split; [congruence|]. intros s m.
      rewrite Hg, is_Some_grid_cell_set_cell by exact Hcell. apply Hshape.
Qed.

Lemma with_comment_id_status (v : CommentValidation) :
  validation_status (with_comment_id v) = validation_status v.
Proof. unfold with_comment_id. now destruct (Py.is_empty _). Qed.

Lemma update_cell_fields cell v now cell' :
  update_cell cell v now = Some cell' ->
  comment_count cell' = comment_count cell + 1
  /\ verified_comments cell'
     = (if String.eqb (validation_status v) "verified"
        then verified_comments cell + 1 else verified_comments cell)
  /\ confidence_sum cell' = (confidence_sum cell + confidence_score v)%float
  /\ last_updated cell' = Some now.
Proof.
  unfold update_cell. destruct (PyFloat.truediv_int _ _); [|discriminate].
  intros [= <-]. cbn. now repeat split.
Qed.

(** X3: in every state that [create_tables] and any calls of
    [add_comment_validation] lead to, every cell has
    [0 <= verified_comments <= comment_count]. *)
Theorem verified_within_count (apartments : list string) (now_created now_updated : string)
    (calls : list (CommentValidation * string * string)) :
  exists grid_data,
    run apartments now_created now_updated calls = Some grid_data
    /\ forall source mentioned cell,
         grid_cell (validation_grid grid_data) source mentioned = Some cell ->
         0 <= verified_comments cell <= comment_count cell.
Proof.
  induction calls as [|[[v now_cell] now_meta] calls IH] using rev_ind.
  - eexists. split; [reflexivity|]. intros s m c Hc.
    apply initial_grid_zero in Hc. subst c. cbn. lia.
  - destruct IH as (g & Hrun & Hinv). rewrite run_snoc, Hrun.
    destruct (add_validation_grid g v now_cell now_meta)
      as (g' & -> & _ & [Hg|(cell & cell' & Hcell & Hu & Hg)]).
    + exists g'. split; [reflexivity|]. intros s m c. rewrite Hg. apply Hinv.
    + exists g'. split; [reflexivity|]. intros s m c. rewrite Hg.
      destruct (decide ((s, m) = (source_apartment v, mentioned_apartment v))) as [E|E].
      * injection E as -> ->. erewrite grid_cell_set_cell_eq by exact Hcell.
        intros [= <-]. apply update_cell_fields in Hu.
        destruct Hu as (-> & -> & _). specialize (Hinv _ _ _ Hcell).
        destruct (String.eqb _ _); lia.
      * rewrite grid_cell_set_cell_ne by exact E. apply Hinv.
Qed.

Lemma names_pair_true source mentioned v now_cell now_meta :
  names_pair source mentioned (v, now_cell, now_meta) = true
  <-> source_apartment v = source /\ mentioned_apartment v = mentioned.
Proof.
  unfold names_pair. cbn [fst]. rewrite andb_true_iff, !String.eqb_eq. reflexivity.
Qed.

Lemma calls_on_snoc source mentioned calls call :
  calls_on source mentioned (calls ++ [call])
  = calls_on source mentioned calls
    + (if names_pair source mentioned call then 1 else 0).
Proof.
  unfold calls_on. rewrite List.filter_app, length_app. cbn [List.filter].
  destruct (names_pair source mentioned call); cbn [length]; lia.
Qed.

Lemma verified_calls_on_snoc source mentioned calls call :
  verified_calls_on source mentioned (calls ++ [call])
  = verified_calls_on source mentioned calls
    + (if names_pair source mentioned call
          && String.eqb (validation_status call.1.1) "verified"
       then 1 else 0).
Proof.
  unfold verified_calls_on. rewrite List.filter_app, length_app. cbn [List.filter].
  destruct (names_pair source mentioned call && _); cbn [length]; lia.
Qed.

Lemma calls_on_bounds source mentioned calls :
  0 <= calls_on source mentioned calls <= Z.of_nat (length calls).
Proof.
  unfold calls_on. pose proof (filter_length_le (names_pair source mentioned) calls). lia.
Qed.

(** X4: counts count calls.  When fewer calls were made than the largest
    int that converts to a float, the cell of a pair of apartments holds
    in [comment_count] the number of calls made with that pair and in
    [verified_comments] the number of those calls whose status was
    'verified'; ids play no part. *)
Theorem comment_count_counts_calls
    (apartments : list string) (now_created now_updated : string)
    (calls : list (CommentValidation * string * string)) :
  Z.of_nat (length calls) < PyFloat.overflow_bound ->
  exists grid_data,
    run apartments now_created now_updated calls = Some grid_data
    /\ forall source mentioned cell,
         grid_cell (validation_grid grid_data) source mentioned = Some cell ->
         comment_count cell = calls_on source mentioned calls
         /\ verified_comments cell = verified_calls_on source mentioned calls.
Proof.
  induction calls as [|[[v now_cell] now_meta] calls IH] using rev_ind; intros Hlen.
  - eexists. split; [reflexivity|]. intros s m c Hc.
    apply initial_grid_zero in Hc. now subst c.
  - rewrite length_app in Hlen. cbn [length] in Hlen.
    destruct (IH ltac:(lia)) as (g & Hrun & Hinv). rewrite run_snoc, Hrun.
    destruct (grid_cell (validation_grid g) (source_apartment v) (mentioned_apartment v))
      as [cell|] eqn:Hcell.
    + destruct (Hinv _ _ _ Hcell) as [Hcount Hver].
      pose proof (calls_on_bounds (source_apartment v) (mentioned_apartment v) calls).
      destruct (add_validation_grid g v now_cell now_meta)
        as (g' & E & _ & [Hg|(cell0 & cell' & Hcell0 & Hu & Hg)]).
      * (* the grid did not move: the update failed, which the bound excludes *)
        exfalso. revert E Hg. unfold _add_validation_local.
        rewrite with_comment_id_source, with_comment_id_mentioned, Hcell.
        destruct (update_cell_Some cell (with_comment_id v) now_cell ltac:(lia) ltac:(lia))
          as (c' & -> & Hc'). cbn [fst snd]. intros [= <-]. cbn [validation_grid].
        intros Hg.
        assert (H1 : grid_cell (set_cell (validation_grid g) (source_apartment v)
                                  (mentioned_apartment v) c')
                       (source_apartment v) (mentioned_apartment v) = Some c')
          by (eapply grid_cell_set_cell_eq, Hcell).
        rewrite Hg, Hcell in H1. injection H1 as <-. lia.
      * rewrite Hcell in Hcell0. injection Hcell0 as <-.
        exists g'. split; [exact E|]. intros s m c. rewrite Hg.
        rewrite calls_on_snoc, verified_calls_on_snoc.
        destruct (decide ((s, m) = (source_apartment v, mentioned_apartment v))) as [Ep|Ep].
        -- injection Ep as -> ->. erewrite grid_cell_set_cell_eq by exact Hcell.
           intros [= <-]. apply update_cell_fields in Hu. destruct Hu as (-> & -> & _).
           rewrite with_comment_id_status.
           replace (names_pair (source_apartment v) (mentioned_apartment v)
                      (v, now_cell, now_meta)) with true
             by (symmetry; now apply names_pair_true).
           cbn [fst andb]. destruct (String.eqb _ _); lia.
        -- rewrite grid_cell_set_cell_ne by exact Ep. intros Hc.
           destruct (Hinv _ _ _ Hc) as [-> ->].
           replace (names_pair s m (v, now_cell, now_meta)) with false.
           ++ cbn [andb]. lia.
           ++ symmetry. apply not_true_is_false. intros Hn.
              apply names_pair_true in Hn. destruct Hn as [<- <-]. now apply Ep.
    + destruct (add_validation_grid g v now_cell now_meta)
        as (g' & E & _ & [Hg|(cell0 & cell' & Hcell0 & _)]); [|congruence].
      exists g'. split; [exact E|]. intros s m c. rewrite Hg. intros Hc.
      rewrite calls_on_snoc, verified_calls_on_snoc.
      destruct (Hinv _ _ _ Hc) as [-> ->].
      replace (names_pair s m (v, now_cell, now_meta)) with false.
      * cbn [andb]. lia.
      * symmetry. apply not_true_is_false. intros Hn.
        apply names_pair_true in Hn. destruct Hn as [<- <-]. congruence.
Qed.

(** The theorem on the sample grid and the same validation recorded three
    times: the cell of its pair counts 3. *)
Lemma comment_count_counts_calls_witness :
  Z.of_nat (length [(Sample.validation, "t1", "t1"); (Sample.validation, "t2", "t2");
                    (Sample.validation, "t3", "t3")]) < PyFloat.overflow_bound
  /\ calls_on "Catalyst Midtown" "Square On 5th"
       [(Sample.validation, "t1", "t1"); (Sample.validation, "t2", "t2");
        (Sample.validation, "t3", "t3")] = 3
  /\ exists grid_data,
       run Sample.entities "t0" "t0"
         [(Sample.validation, "t1", "t1"); (Sample.validation, "t2", "t2");
          (Sample.validation, "t3", "t3")] = Some grid_data
       /\ forall source mentioned cell,
            grid_cell (validation_grid grid_data) source mentioned = Some cell ->
            comment_count cell
            = calls_on source mentioned
                [(Sample.validation, "t1", "t1"); (Sample.validation, "t2", "t2");
                 (Sample.validation, "t3", "t3")]
            /\ verified_comments cell
               = verified_calls_on source mentioned
                   [(Sample.validation, "t1", "t1"); (Sample.validation, "t2", "t2");
                    (Sample.validation, "t3", "t3")].
Proof.
  assert (H : Z.of_nat (length [(Sample.validation, "t1", "t1");
                                (Sample.validation, "t2", "t2");
                                (Sample.validation, "t3", "t3")])
              < PyFloat.overflow_bound) by (vm_compute; reflexivity).
  split; [exact H|]. split; [vm_compute; reflexivity|].
  exact (comment_count_counts_calls Sample.entities "t0" "t0" _ H).
Defined.

(** X5: a call touches one cell.  The summary of every pair other than the
    one the validation names is after the call what it was before, be the
    call a success or a failure. *)
Theorem add_validation_frame (file : option GridData) (v : CommentValidation)
    (now_cell now_meta source mentioned : string) :
  (source, mentioned) <> (source_apartment v, mentioned_apartment v) ->
  _get_summary_local (_add_validation_local file v now_cell now_meta).1.1 source mentioned
  = _get_summary_local file source mentioned.
Proof.
  intros Hne. destruct file as [g|]; [|reflexivity].
  destruct (add_validation_grid g v now_cell now_meta)
    as (g' & -> & _ & [Hg|(cell & cell' & _ & _ & Hg)]);
    cbn [_get_summary_local]; rewrite Hg; [reflexivity|].
  now rewrite grid_cell_set_cell_ne.
Qed.

Lemma add_validation_frame_witness :
  ("The Connector", "100 Midtown") <> (source_apartment Sample.validation,
                                       mentioned_apartment Sample.validation)
  /\ _get_summary_local
       (_add_validation_local (Some Sample.fresh_grid) Sample.validation "t1" "t2").1.1
       "The Connector" "100 Midtown"
     = _get_summary_local (Some Sample.fresh_grid) "The Connector" "100 Midtown".
Proof.
  assert (H : ("The Connector", "100 Midtown")
              <> (source_apartment Sample.validation,
                  mentioned_apartment Sample.validation)) by discriminate.
  split; [exact H|].
  exact (add_validation_frame (Some Sample.fresh_grid) Sample.validation "t1" "t2"
           "The Connector" "100 Midtown" H).
Defined.

Lemma add_validation_comments grid_data v now_cell now_meta :
  (_add_validation_local (Some grid_data) v now_cell now_meta).2 = true ->
  exists grid_data',
    (_add_validation_local (Some grid_data) v now_cell now_meta).1.1 = Some grid_data'
    /\ comments grid_data'
       = <[comment_id (with_comment_id v) := stored (with_comment_id v)]>
           (comments grid_data).
Proof.
  unfold _add_validation_local. destruct (grid_cell _ _ _) as [cell|].
  - destruct (update_cell _ _ _); cbn [fst snd]; [|discriminate].
    intros _. eexists. split; reflexivity.
  - cbn [fst snd]. intros _. eexists. split; reflexivity.
Qed.

Section QueryProperties.

Variable items : gmap string StoredComment -> list (string * StoredComment).
Hypothesis items_lists : forall m x, x ∈ items m <-> x ∈ map_to_list m.

Lemma elem_of_apartment_validations grid_data apartment_name c :
  c ∈ _get_apartment_validations_local items (Some grid_data) apartment_name
  <-> exists id, comments grid_data !! id = Some c
                 /\ stored_source_apartment c = apartment_name.
Proof.
  unfold _get_apartment_validations_local.
  rewrite list_elem_of_In, in_flat_map. split.
  - intros ([id c'] & Hin & Hc). apply list_elem_of_In, items_lists in Hin.
    apply elem_of_map_to_list in Hin.
    destruct (String.eqb (stored_source_apartment c') apartment_name) eqn:E.
    + destruct Hc as [->|[]]. exists id. split; [exact Hin|now apply String.eqb_eq].
    + destruct Hc.
  - intros (id & Hid & Hsrc). exists (id, c). split.
    + apply list_elem_of_In, items_lists. now apply elem_of_map_to_list.
    + apply String.eqb_eq in Hsrc. rewrite Hsrc. now left.
Qed.

End QueryProperties.

(** X7: [get_all_validations_for_apartment] returns exactly the stored
    comments whose source is the apartment asked for, and the empty list
    when the file cannot be read. *)
Theorem apartment_validations_exact
    (items : gmap string StoredComment -> list (string * StoredComment))
    (grid_data : GridData) (apartment_name : string) :
  (forall m x, x ∈ items m <-> x ∈ map_to_list m) ->
  (forall c,
      c ∈ get_all_validations_for_apartment items (Some grid_data) apartment_name
      <-> exists id, comments grid_data !! id = Some c
                     /\ stored_source_apartment c = apartment_name)
  /\ get_all_validations_for_apartment items None apartment_name = [].
Proof.
  intros Hitems. split; [|reflexivity].
  intros c. now apply elem_of_apartment_validations.
Qed.

(** The file after the two test validations, one of "Catalyst Midtown" and
    one of "Hub Atlanta": the store holds both, and the query for "Catalyst
    Midtown" returns the first alone. *)
Lemma apartment_validations_exact_witness :
  (forall (m : gmap string StoredComment) x, x ∈ map_to_list m <-> x ∈ map_to_list m)
  /\ exists grid_data,
       run Sample.entities "t0" "t0"
         [(Sample.validation, "t1", "t1"); (Sample.stranger, "t2", "t2")] = Some grid_data
       /\ size (comments grid_data) = 2%nat
       /\ map stored_comment_text
            (get_all_validations_for_apartment map_to_list (Some grid_data)
               "Catalyst Midtown")
          = [comment_text Sample.validation]
       /\ (forall c,
             c ∈ get_all_validations_for_apartment map_to_list (Some grid_data)
                   "Catalyst Midtown"
             <-> exists id, comments grid_data !! id = Some c
                            /\ stored_source_apartment c = "Catalyst Midtown")
       /\ get_all_validations_for_apartment map_to_list None "Catalyst Midtown" = [].
Proof.
  assert (H : forall (m : gmap string StoredComment) x,
             x ∈ map_to_list m <-> x ∈ map_to_list m) by (intros; reflexivity).
  split; [exact H|].
  assert (Hrun : (fun g => (size (comments g),
                            map stored_comment_text
                              (get_all_validations_for_apartment map_to_list (Some g)
                                 "Catalyst Midtown")))
                   <$> run Sample.entities "t0" "t0"
                         [(Sample.validation, "t1", "t1"); (Sample.stranger, "t2", "t2")]
                 = Some (2%nat, [comment_text Sample.validation]))
    by (vm_compute; reflexivity).
  destruct (run Sample.entities "t0" "t0"
              [(Sample.validation, "t1", "t1"); (Sample.stranger, "t2", "t2")])
    as [grid_data|]; [|discriminate Hrun].
  injection Hrun as Hsize Hlist.
  exists grid_data. split; [reflexivity|]. split; [exact Hsize|]. split; [exact Hlist|].
  exact (apartment_validations_exact map_to_list grid_data "Catalyst Midtown" H).
Defined.

(** X8: what is recorded can be read back.  After a call of
    [add_comment_validation] that returned [True], the record of the
    validation is among the validations of its source apartment, and it is
    stored under the id of the validation. *)
Theorem recorded_validation_is_listed
    (items : gmap string StoredComment -> list (string * StoredComment))
    (grid_data : GridData) (v : CommentValidation) (now_cell now_meta : string) :
  (forall m x, x ∈ items m <-> x ∈ map_to_list m) ->
  (add_comment_validation (Some grid_data) v now_cell now_meta).2 = true ->
  let r := add_comment_validation (Some grid_data) v now_cell now_meta in
  stored r.1.2 ∈ get_all_validations_for_apartment items r.1.1 (source_apartment v)
  /\ (r.1.1 ≫= fun g => comments g !! comment_id r.1.2) = Some (stored r.1.2).
Proof.
  intros Hitems Hok r. subst r. unfold add_comment_validation in *.
  destruct (add_validation_comments grid_data v now_cell now_meta Hok) as (g' & E & Hc).
  assert (Hv : (_add_validation_local (Some grid_data) v now_cell now_meta).1.2
               = with_comment_id v).
  { unfold _add_validation_local. destruct (grid_cell _ _ _); [|reflexivity].
    now destruct (update_cell _ _ _). }
  rewrite E, Hv. cbn [mbind option_bind]. rewrite Hc, lookup_insert_eq.
  split; [|reflexivity].
  apply (elem_of_apartment_validations items Hitems).
  exists (comment_id (with_comment_id v)). rewrite Hc, lookup_insert_eq.
  split; [reflexivity|]. cbn [stored stored_source_apartment].
  apply with_comment_id_source.
Qed.

Lemma recorded_validation_is_listed_witness :
  (forall (m : gmap string StoredComment) x, x ∈ map_to_list m <-> x ∈ map_to_list m)
  /\ (add_comment_validation (Some Sample.fresh_grid) Sample.stranger "t1" "t2").2 = true
  /\ stored (add_comment_validation (Some Sample.fresh_grid) Sample.stranger "t1" "t2").1.2
       ∈ get_all_validations_for_apartment map_to_list
           (add_comment_validation (Some Sample.fresh_grid) Sample.stranger "t1" "t2").1.1
           (source_apartment Sample.stranger).
Proof.
  assert (H : forall (m : gmap string StoredComment) x,
             x ∈ map_to_list m <-> x ∈ map_to_list m) by (intros; reflexivity).
  assert (Hok : (add_comment_validation (Some Sample.fresh_grid) Sample.stranger
                   "t1" "t2").2 = true) by (vm_compute; reflexivity).
  split; [exact H|]. split; [exact Hok|].
  exact (proj1 (recorded_validation_is_listed map_to_list Sample.fresh_grid
                  Sample.stranger "t1" "t2" H Hok)).
Defined.

Lemma SFltb_leb x y : SFltb x y = true -> SFleb x y = true.
Proof. unfold SFltb, SFleb. now destruct (SFcompare x y) as [[]|]. Qed.

Lemma float_ltb_leb (x y : float) : (x <? y)%float = true -> (x <=? y)%float = true.
Proof. rewrite ltb_spec, leb_spec. apply SFltb_leb. Qed.

Lemma existsb_elem_of {A : Type} (f : A -> bool) (l : list A) :
  existsb f l = true <-> exists x, x ∈ l /\ f x = true.
Proof.
  rewrite existsb_exists. split; intros (x & Hx & Hf); exists x; split; try assumption;
    now apply list_elem_of_In.
Qed.

(** X9: [validate_comment_relevance] returns 0.9 when one of the aliases
    it looks for occurs in the lowercased comment.  When none does, the
    result is at most 0.7, and it is 0.0 when the comment and the name of
    the mentioned apartment share no word.  The aliases are those of the
    alias file; an apartment that the file does not list has none, so that
    even its full name in the comment gives at most 0.7; only when the
    file cannot be read is the lowercased name itself the alias.  The
    source apartment plays no part in the result. *)
Theorem validate_comment_relevance_cases
    (alias_file : option (gmap string (list string)))
    (comment_text source_apartment mentioned_apartment : string) :
  let score :=
    validate_comment_relevance alias_file comment_text source_apartment
      mentioned_apartment in
  let mentioned_aliases :=
    match alias_file with
    | Some alias_data => default [] (alias_data !! mentioned_apartment)
    | None => [Py.lower mentioned_apartment]
    end in
  ((exists alias, alias ∈ mentioned_aliases
                  /\ Py.contains (Py.lower alias) (Py.lower comment_text) = true) ->
   score = 0.9%float)
  /\ ((forall alias, alias ∈ mentioned_aliases ->
                     Py.contains (Py.lower alias) (Py.lower comment_text) = false) ->
      (score <=? 0.7)%float = true
      /\ ((forall word, word ∈ Py.split (Py.lower comment_text) ->
                        word ∉ Py.split (Py.lower mentioned_apartment)) ->
          score = 0%float))
  /\ (forall other_source,
        validate_comment_relevance alias_file comment_text other_source
          mentioned_apartment = score).
Proof.
  cbn zeta. unfold validate_comment_relevance.
  set (aliases := match alias_file with
                  | Some alias_data => default [] (alias_data !! mentioned_apartment)
                  | None => [Py.lower mentioned_apartment]
                  end).
  split; [|split; [|reflexivity]].
  - intros Hex. now replace (existsb _ aliases) with true
      by (symmetry; now apply existsb_elem_of).
  - intros Hnone.
    replace (existsb (fun alias => Py.contains (Py.lower alias) (Py.lower comment_text))
               aliases) with false.
    2:{ symmetry. apply not_true_is_false. intros H. apply existsb_elem_of in H.
        destruct H as (a & Ha & Hc). rewrite (Hnone a Ha) in Hc. discriminate Hc. }
    split.
    + destruct (0 <? _); [|reflexivity]. unfold py_min.
      destruct (_ <? 0.7)%float eqn:E; [now apply float_ltb_leb|reflexivity].
    + intros Hdisjoint.
      replace (list_to_set (Py.split (Py.lower comment_text))
               ∩ list_to_set (Py.split (Py.lower mentioned_apartment)))
        with (∅ : gset string); [reflexivity|].
      symmetry. apply set_eq. intros w.
      rewrite elem_of_intersection, !elem_of_list_to_set. split.
      * intros [H1 H2]. now destruct (Hdisjoint w H1).
      * intros H. now apply elem_of_empty in H.
Qed.

(** On a file without the apartment, the full name in the comment gives
    0.7; with the file missing it gives 0.9. *)
Example relevance_without_alias_entry :
  validate_comment_relevance (Some ∅) "I toured The Connector today" "" "The Connector"
  = 0.7%float
  /\ validate_comment_relevance None "I toured The Connector today" "" "The Connector"
     = 0.9%float
  /\ validate_comment_relevance None "Random comment about pizza" "" "The Connector"
     = 0%float.
Proof. vm_compute. repeat split; reflexivity. Qed.

End GridManagerFurther.

(** ** The alias generator: the alias set as a whole *)

Section AliasGeneratorFurther.

Import AliasGenerator AliasFactory.

Lemma dom_assign_all (w : float) (s : gset string) (m : gmap string float) :
  dom (assign_all w s m) = s ∪ dom m.
Proof.
  apply set_eq. intros k. rewrite elem_of_union, !elem_of_dom, lookup_assign_all.
  destruct (decide (k ∈ s)) as [Hk|Hk].
  - split; [now left|]. intros _. now eexists.
  - split; [now right|]. now intros [?|?].
Qed.

Lemma run_passes_dom ps (A : gset string) (M : gmap string float) :
  dom M = A ->
  dom (foldl run_pass (A, M) ps).2 = (foldl run_pass (A, M) ps).1.
Proof.
  revert A M. induction ps as [|p ps IH]; intros A M HM; [exact HM|].
  cbn [foldl]. apply IH. cbn [run_pass fst snd]. rewrite dom_assign_all, HM.
  apply set_eq. intros k. rewrite !elem_of_union. tauto.
Qed.

Lemma run_passes_union ps (A : gset string) (M : gmap string float) (k : string) :
  k ∈ (foldl run_pass (A, M) ps).1 <-> k ∈ A \/ exists p, p ∈ ps /\ k ∈ p.1.
Proof.
  revert A M. induction ps as [|p ps IH]; intros A M; cbn [foldl].
  - split; [now left|]. intros [H|(p & Hp & _)]; [exact H|now apply elem_of_nil in Hp].
  - unfold run_pass at 2. rewrite IH. cbn [fst snd]. rewrite elem_of_union. split.
    + intros [[H|H]|(q & Hq & Hk)]; [now left| |].
      * right. exists p. split; [now left|exact H].
      * right. exists q. split; [now right|exact Hk].
    + intros [H|(q & Hq & Hk)]; [now left; left|].
      apply elem_of_cons in Hq. destruct Hq as [->|Hq]; [now left; right|].
      right. now exists q.
Qed.

Lemma generate_all_aliases_members soundex cfg (n k : string) :
  k ∈ aliases (generate_all_aliases soundex cfg n)
  <-> k = Py.lower n \/ exists p, p ∈ passes soundex cfg n /\ k ∈ p.1.
Proof.
  unfold generate_all_aliases.
  pose proof (run_passes_union (passes soundex cfg n) {[Py.lower n]}
                (<[Py.lower n := 1%float]> ∅) k) as H.
  destruct (foldl run_pass _ _). cbn [aliases] in *. cbn [fst] in H.
  rewrite H, elem_of_singleton. reflexivity.
Qed.

Lemma generate_all_aliases_dom soundex cfg (n : string) :
  dom (confidence_scores (generate_all_aliases soundex cfg n))
  = aliases (generate_all_aliases soundex cfg n).
Proof.
  unfold generate_all_aliases.
  pose proof (run_passes_dom (passes soundex cfg n) {[Py.lower n]}
                (<[Py.lower n := 1%float]> ∅)) as H.
  destruct (foldl run_pass _ _). cbn in *. apply H.
  rewrite dom_insert_L, dom_empty_L. apply set_eq. intros k.
  rewrite elem_of_union, elem_of_singleton. split; [now intros [?|?]|now left].
Qed.

(** X10: the two parts of a generated alias set agree.  The keys of
    [confidence_scores] are exactly the members of [aliases], so that
    every alias has a confidence and the default 0.5 of
    [confidence_scores.get(alias, 0.5)] is never taken on a generated set;
    the members are the lowercased name and what the six passes return. *)
Theorem generate_all_aliases_keys
    (soundex : string -> option string) (location_config : list (string * list string))
    (n : string) :
  let r := generate_all_aliases soundex location_config n in
  dom (confidence_scores r) = aliases r
  /\ (forall alias, alias ∈ aliases r <-> is_Some (confidence_scores r !! alias))
  /\ (forall alias,
        alias ∈ aliases r
        <-> alias = Py.lower n
            \/ exists p, p ∈ passes soundex location_config n /\ alias ∈ p.1).
Proof.
  cbn zeta.
  pose proof (generate_all_aliases_dom soundex location_config n) as Hdom.
  split; [exact Hdom|]. split.
  - intros alias. now rewrite <- Hdom, elem_of_dom.
  - intros alias. apply generate_all_aliases_members.
Qed.

(** The weights that [generate_all_aliases] writes. *)
Lemma confidence_weight_cases soundex cfg (n alias : string) (w : float) :
  confidence_scores (generate_all_aliases soundex cfg n) !! alias = Some w ->
  w ∈ [1%float; 0.9%float; 0.8%float; 0.7%float; 0.6%float; 0.85%float; 0.75%float]
  /\ (0.6 <=? w)%float = true /\ (w <=? 1)%float = true
  /\ (w = 1%float -> alias = Py.lower n).
Proof.
  rewrite generate_all_aliases_scores. intros H.
  assert (Hw : (w = 1%float /\ alias = Py.lower n)
               \/ exists p, p ∈ passes soundex cfg n /\ w = p.2).
  { destruct (last_written_cases alias (passes soundex cfg n)
                ((<[Py.lower n := 1%float]> (∅ : gmap string float)) !! alias))
      as [[E _]|(p & Hp & _ & E)]; rewrite E in H.
    - left. destruct (decide (Py.lower n = alias)) as [<-|Hne].
      + rewrite lookup_insert_eq in H. now injection H as <-.
      + rewrite lookup_insert_ne, lookup_empty in H by exact Hne. discriminate H.
    - right. exists p. split; [exact Hp|congruence]. }
  destruct Hw as [[-> ->]|(p & Hp & ->)].
  - split; [now left|]. now repeat split.
  - pose proof (pass_weight_below_one _ _ _ _ Hp) as Hlt. unfold passes in Hp.
    repeat (apply elem_of_cons in Hp; destruct Hp as [->|Hp];
            [cbn [snd] in *; split;
             [repeat (first [now left|right])|repeat split; try reflexivity;
              intros E; rewrite E in Hlt; discriminate Hlt]|]).
    now apply elem_of_nil in Hp.
Qed.

(** X11: every confidence of a generated alias set is one of the seven
    weights of the source, hence between 0.6 and 1.0, and 1.0 only for the
    lowercased name. *)
Theorem generate_all_aliases_weights
    (soundex : string -> option string) (location_config : list (string * list string))
    (n alias : string) (w : float) :
  confidence_scores (generate_all_aliases soundex location_config n) !! alias = Some w ->
  w ∈ [1%float; 0.9%float; 0.8%float; 0.7%float; 0.6%float; 0.85%float; 0.75%float]
  /\ (0.6 <=? w)%float = true /\ (w <=? 1)%float = true
  /\ (w = 1%float -> alias = Py.lower n).
Proof. apply confidence_weight_cases. Qed.

Lemma generate_all_aliases_weights_witness :
  confidence_scores (generate_all_aliases Sample.soundex Sample.gt_config "Catalyst Midtown")
    !! "cm" = Some 0.8%float
  /\ (0.8%float ∈ [1%float; 0.9%float; 0.8%float; 0.7%float; 0.6%float; 0.85%float; 0.75%float]
      /\ (0.6 <=? 0.8)%float = true /\ (0.8 <=? 1)%float = true
      /\ (0.8%float = 1%float -> "cm" = Py.lower "Catalyst Midtown")).
Proof.
  assert (H : confidence_scores
                (generate_all_aliases Sample.soundex Sample.gt_config "Catalyst Midtown")
                !! "cm" = Some 0.8%float) by (vm_compute; reflexivity).
  split; [exact H|].
  exact (generate_all_aliases_weights Sample.soundex Sample.gt_config
           "Catalyst Midtown" "cm" 0.8%float H).
Defined.

Lemma last_written_number_pass soundex cfg n k before :
  k ∈ _generate_number_aliases n ->
  last_written k (passes soundex cfg n) before
  = Some (if decide (k ∈ _generate_location_aliases cfg n)
          then 0.75%float else 0.85%float).
Proof.
  intros Hk. unfold passes, last_written. cbn [foldl fst snd].
  destruct (decide (k ∈ _generate_location_aliases cfg n)); [reflexivity|].
  destruct (decide (k ∈ _generate_number_aliases n)); [reflexivity|contradiction].
Qed.

(** X12: number words become digits.  When a number word ("one" ..
    "hundred") occurs in the lowercased name, as a word or inside one, the
    name with every occurrence replaced by the digits is an alias.  Its
    confidence is the 0.85 of the number pass, unless the location pass,
    which runs last, returns the same string: then, and only then, it is
    0.75.  The same holds for an ordinal word ("first" .. "twentieth")
    with its digit form ("1st") and with the bare number ("1"). *)
Theorem number_words_become_digits
    (soundex : string -> option string) (location_config : list (string * list string))
    (n word digits : string) :
  (word, digits) ∈ number_words
  \/ (word, digits) ∈ ordinal_words
  \/ (exists ordinal, (word, ordinal) ∈ ordinal_words /\ digits = Py.drop_last 2 ordinal) ->
  Py.contains word (Py.lower n) = true ->
  let r := generate_all_aliases soundex location_config n in
  let alias := Py.replace word digits (Py.lower n) in
  alias ∈ aliases r
  /\ confidence_scores r !! alias
     = Some (if decide (alias ∈ _generate_location_aliases location_config n)
             then 0.75%float else 0.85%float).
Proof.
  intros Hword Hin r alias. subst r alias.
  assert (Hk : Py.replace word digits (Py.lower n) ∈ _generate_number_aliases n).
  { unfold _generate_number_aliases. apply elem_of_list_to_set, elem_of_app.
    destruct Hword as [Hw|[Hw|(ordinal & Hw & ->)]].
    - left. apply list_elem_of_In, in_flat_map. exists (word, digits).
      split; [now apply list_elem_of_In|]. rewrite Hin. now left.
    - right. apply list_elem_of_In, in_flat_map. exists (word, digits).
      split; [now apply list_elem_of_In|]. rewrite Hin. now left.
    - right. apply list_elem_of_In, in_flat_map. exists (word, ordinal).
      split; [now apply list_elem_of_In|]. rewrite Hin. right. now left. }
  split.
  - apply generate_all_aliases_members. right.
    exists (_generate_number_aliases n, 0.85%float). split; [|exact Hk].
    unfold passes. do 4 right. now left.
  - rewrite generate_all_aliases_scores. now apply last_written_number_pass.
Qed.

(** The theorem on "Five Points" and on a name that holds "one" inside a
    word. *)
Lemma number_words_become_digits_witness :
  (("five", "5") ∈ number_words
   \/ ("five", "5") ∈ ordinal_words
   \/ (exists ordinal, ("five", ordinal) ∈ ordinal_words /\ "5" = Py.drop_last 2 ordinal))
  /\ Py.contains "five" (Py.lower "Five Points") = true
  /\ Py.replace "five" "5" (Py.lower "Five Points") = "5 points"
  /\ (Py.replace "five" "5" (Py.lower "Five Points")
        ∈ aliases (generate_all_aliases Sample.soundex Sample.gt_config "Five Points"))
  /\ confidence_scores (generate_all_aliases Sample.soundex Sample.gt_config "Five Points")
       !! Py.replace "five" "5" (Py.lower "Five Points")
     = Some (if decide (Py.replace "five" "5" (Py.lower "Five Points")
                          ∈ _generate_location_aliases Sample.gt_config "Five Points")
             then 0.75%float else 0.85%float)
  /\ confidence_scores (generate_all_aliases Sample.soundex Sample.gt_config "Five Points")
       !! "5 points" = Some 0.85%float
  /\ Py.replace "one" "1" (Py.lower "Stonehenge") = "st1henge".
Proof.
  assert (H1 : ("five", "5") ∈ number_words
               \/ ("five", "5") ∈ ordinal_words
               \/ (exists ordinal, ("five", ordinal) ∈ ordinal_words
                                   /\ "5" = Py.drop_last 2 ordinal)).
  { left. unfold number_words. do 4 right. now left. }
  assert (H2 : Py.contains "five" (Py.lower "Five Points") = true) by reflexivity.
  split; [exact H1|]. split; [exact H2|]. split; [reflexivity|].
  pose proof (number_words_become_digits Sample.soundex Sample.gt_config
                "Five Points" "five" "5" H1 H2) as [Hin Hconf].
  split; [exact Hin|]. split; [exact Hconf|].
  split; [vm_compute; reflexivity|reflexivity].
Defined.

Lemma flat_map_all_nil {A B : Type} (f : A -> list B) (l : list A) :
  (forall x, x ∈ l -> f x = []) -> flat_map f l = [].
Proof.
  induction l as [|x l IH]; intros H; cbn; [reflexivity|].
  rewrite (H x) by now left. apply IH. intros y Hy. apply H. now right.
Qed.

(** X13: the location configuration matters only through the terms that
    occur in the name.  When no configured location term occurs in the
    lowercased name, [generate_all_aliases] returns the alias set it
    returns with the empty configuration. *)
Theorem location_config_without_match
    (soundex : string -> option string) (location_config : list (string * list string))
    (n : string) :
  (forall location_term abbrevs,
      (location_term, abbrevs) ∈ location_config ->
      Py.contains (Py.lower location_term) (Py.lower n) = false) ->
  generate_all_aliases soundex location_config n = generate_all_aliases soundex [] n.
Proof.
  intros Hnone.
  assert (H : _generate_location_aliases location_config n = _generate_location_aliases [] n).
  { unfold _generate_location_aliases. f_equal. cbn [flat_map].
    apply flat_map_all_nil. intros [term abbrevs] Hin. now rewrite (Hnone term abbrevs Hin). }
  unfold generate_all_aliases, passes. now rewrite H.
Qed.

Lemma location_config_without_match_witness :
  (forall location_term abbrevs,
      (location_term, abbrevs) ∈ Sample.gt_config ->
      Py.contains (Py.lower location_term) (Py.lower "The Connector") = false)
  /\ generate_all_aliases Sample.soundex Sample.gt_config "The Connector"
     = generate_all_aliases Sample.soundex [] "The Connector".
Proof.
  assert (H : forall location_term abbrevs,
             (location_term, abbrevs) ∈ Sample.gt_config ->
             Py.contains (Py.lower location_term) (Py.lower "The Connector") = false).
  { intros term abbrevs Hin. unfold Sample.gt_config in Hin.
    repeat (apply elem_of_cons in Hin; destruct Hin as [[= -> ->]|Hin]; [reflexivity|]).
    now apply elem_of_nil in Hin. }
  split; [exact H|].
  exact (location_config_without_match Sample.soundex Sample.gt_config "The Connector" H).
Defined.

Lemma lower_upper_char (c : ascii) : Py.lower_char (Py.upper_char c) = Py.lower_char c.
Proof. destruct c as [[] [] [] [] [] [] [] []]; reflexivity. Qed.

Lemma lower_upper (s : string) : Py.lower (Py.upper s) = Py.lower s.
Proof.
  induction s as [|c s IH]; [reflexivity|].
  cbn [Py.lower Py.upper Py.map_chars] in *. now rewrite lower_upper_char, IH.
Qed.

Lemma lower_lower_char (c : ascii) : Py.lower_char (Py.lower_char c) = Py.lower_char c.
Proof. destruct c as [[] [] [] [] [] [] [] []]; reflexivity. Qed.

Lemma lower_lower (s : string) : Py.lower (Py.lower s) = Py.lower s.
Proof.
  induction s as [|c s IH]; [reflexivity|].
  cbn [Py.lower Py.map_chars] in *. now rewrite lower_lower_char, IH.
Qed.

(** X14: [create_generator_for_university] reads the name of the
    university without regard to case, and a name that is none of 'gt',
    'gatech', 'uga', 'emory' gets the empty configuration of 'generic':
    its generator returns no location alias and the alias sets of the
    generic one. *)
Theorem create_generator_for_university_fallback (university_name : string) :
  create_generator_for_university (Py.upper university_name)
  = create_generator_for_university university_name
  /\ create_generator_for_university (Py.lower university_name)
     = create_generator_for_university university_name
  /\ (Py.lower university_name ∉ ["gt"; "gatech"; "uga"; "emory"] ->
      create_generator_for_university university_name = []
      /\ forall soundex n,
           _generate_location_aliases (create_generator_for_university university_name) n
           = ∅
           /\ generate_all_aliases soundex
                (create_generator_for_university university_name) n
              = generate_all_aliases soundex (create_generator_for_university "generic") n).
Proof.
  unfold create_generator_for_university. rewrite lower_upper, lower_lower.
  split; [reflexivity|]. split; [reflexivity|]. intros Hnot.
  assert (H : default [] (dict_get location_configs (Py.lower university_name)) = []).
  { unfold location_configs. cbn [dict_get].
    repeat match goal with
      | |- context [String.eqb ?a ?b] =>
          destruct (String.eqb_spec a b) as [E|_];
          [try reflexivity; exfalso; apply Hnot; rewrite E;
           repeat (first [now left|right])|]
      end.
    reflexivity. }
  rewrite H. split; [reflexivity|]. intros soundex n. split; reflexivity.
Qed.

End AliasGeneratorFurther.

(** ** Sorting: order and stability *)

Section SortFurther.

Context {A K : Type} (ltb : K -> K -> bool) (key : A -> K).

Variable ge : K -> K -> Prop.
Variable ok : K -> Prop.

Hypothesis ltb_ge : forall a b, ltb a b = true -> ge b a.
Hypothesis not_ltb_ge : forall a b, ok a -> ok b -> ltb a b = false -> ge a b.
Hypothesis ge_trans : forall a b c, ge a b -> ge b c -> ge a c.

Lemma insert_desc_sorted (x : A) (l : list A) :
  ok (key x) -> Forall (fun y => ok (key y)) l ->
  StronglySorted (fun a b => ge (key a) (key b)) l ->
  StronglySorted (fun a b => ge (key a) (key b)) (insert_desc ltb key x l).
Proof.
  intros Hx Hok Hs. induction l as [|y l IH]; cbn [insert_desc].
  - constructor; constructor.
  - apply StronglySorted_inv in Hs. destruct Hs as [Hs Hy].
    apply Forall_cons in Hok. destruct Hok as [Hoky Hok].
    destruct (ltb (key x) (key y)) eqn:E.
    + constructor; [now apply IH|].
      rewrite insert_desc_Permutation. constructor; [now apply ltb_ge|exact Hy].
    + constructor; [now constructor|].
      assert (Hxy : ge (key x) (key y)) by now apply not_ltb_ge.
      constructor; [exact Hxy|].
      eapply Forall_impl; [exact Hy|]. intros z Hz. cbn in Hz. now apply ge_trans with (key y).
Qed.

Lemma Forall_insert_desc (P : A -> Prop) (x : A) (l : list A) :
  P x -> Forall P l -> Forall P (insert_desc ltb key x l).
Proof. intros Hx Hl. rewrite insert_desc_Permutation. now constructor. Qed.

Lemma sort_desc_sorted (l : list A) :
  Forall (fun y => ok (key y)) l ->
  StronglySorted (fun a b => ge (key a) (key b)) (sort_desc ltb key l).
Proof.
  induction l as [|x l IH]; intros Hok; cbn; [constructor|].
  apply Forall_cons in Hok. destruct Hok as [Hx Hok].
  apply insert_desc_sorted; [exact Hx| |now apply IH].
  change (foldr (insert_desc ltb key) [] l) with (sort_desc ltb key l).
  now rewrite sort_desc_Permutation.
Qed.

End SortFurther.

Section SortStable.

Context {A K : Type} (ltb : K -> K -> bool) (key : A -> K).

(** A class of keys no two of which are in the order [ltb]: the elements
    of the class keep their order. *)
Variable p : K -> bool.

Hypothesis ltb_apart : forall a b, p a = true -> p b = true -> ltb a b = false.

Lemma insert_desc_stable (x : A) (l : list A) :
  List.filter (fun y => p (key y)) (insert_desc ltb key x l)
  = List.filter (fun y => p (key y)) (x :: l).
Proof.
  induction l as [|y l IH]; cbn [insert_desc]; [reflexivity|].
  destruct (ltb (key x) (key y)) eqn:E; [|reflexivity].
  cbn [List.filter] in *. rewrite IH.
  destruct (p (key x)) eqn:Ex, (p (key y)) eqn:Ey; try reflexivity.
  rewrite (ltb_apart _ _ Ex Ey) in E. discriminate E.
Qed.

Lemma sort_desc_stable (l : list A) :
  List.filter (fun y => p (key y)) (sort_desc ltb key l)
  = List.filter (fun y => p (key y)) l.
Proof.
  induction l as [|x l IH]; [reflexivity|].
  cbn [sort_desc foldr]. rewrite insert_desc_stable.
  cbn [List.filter]. unfold sort_desc in IH. now rewrite IH.
Qed.

End SortStable.

(** ** The matcher: order of the result, exact matches *)

Section MatcherFurther.

Import AliasGenerator.

Lemma filter_filter_andb {A : Type} (p q : A -> bool) (l : list A) :
  List.filter p (List.filter q l) = List.filter (fun x => q x && p x) l.
Proof.
  induction l as [|x l IH]; [reflexivity|]. cbn [List.filter].
  destruct (q x); cbn [andb List.filter]; rewrite ?IH; reflexivity.
Qed.

Lemma filter_length_le {A : Type} (p : A -> bool) (l : list A) :
  (length (List.filter p l) <= length l)%nat.
Proof.
  induction l as [|x l IH]; [reflexivity|]. cbn [List.filter].
  destruct (p x); cbn [length]; lia.
Qed.

(** X15: [find_best_match] returns its matches by score, highest first,
    and matches of equal score in the order of [apartment_aliases]; there
    is at most one match for each alias set of the list. *)
Theorem find_best_match_sorted
    (ratio : string -> string -> Z) (iter : gset string -> list string)
    (search_term : string) (apartment_aliases : list ApartmentAlias) (threshold : Z) :
  let found := find_best_match ratio iter search_term apartment_aliases threshold in
  StronglySorted (fun m1 m2 => match_score m2 <= match_score m1) found
  /\ (forall score,
        List.filter (fun m => match_score m =? score) found
        = List.filter (fun m => (threshold <=? match_score m) && (match_score m =? score))
            (map (match_of ratio iter (Py.lower search_term)) apartment_aliases))
  /\ (length found <= length apartment_aliases)%nat.
Proof.
  cbn zeta. unfold find_best_match. rewrite matches_above_threshold. cbn [app].
  split; [|split].
  - apply (sort_desc_sorted Z.ltb match_score (fun a b => b <= a) (fun _ => True)).
    + intros a b H. apply Z.ltb_lt in H. lia.
    + intros a b _ _ H. apply Z.ltb_ge in H. lia.
    + intros a b c H1 H2. lia.
    + apply Forall_forall. now intros.
  - intros score.
    rewrite (sort_desc_stable Z.ltb match_score (fun k => k =? score)).
    + apply filter_filter_andb.
    + intros a b Ha Hb. apply Z.eqb_eq in Ha, Hb. subst. apply Z.ltb_irrefl.
  - rewrite sort_desc_Permutation.
    etransitivity; [apply filter_length_le|]. now rewrite length_map.
Qed.

(** X16: [find_best_match] compares the lowercased search term with the
    aliases as they are stored.  When the lowercased search term is one of
    the stored aliases of an entity, the entity is found: for every
    threshold up to 100 the result holds a match with the name of the
    entity and a score of at least 100. *)
Theorem find_best_match_exact
    (ratio : string -> string -> Z) (iter : gset string -> list string)
    (search_term : string) (apartment_aliases : list ApartmentAlias)
    (apt_alias : ApartmentAlias) (threshold : Z) :
  (forall s x, x ∈ iter s <-> x ∈ s) ->
  threshold <= 100 ->
  apt_alias ∈ apartment_aliases ->
  Py.lower search_term ∈ aliases apt_alias ->
  exists score alias confidence,
    (original_name apt_alias, score, alias, confidence)
      ∈ find_best_match ratio iter search_term apartment_aliases threshold
    /\ 100 <= score.
Proof.
  intros Hiter Ht Hin Halias.
  pose proof (best_step_invariant ratio apt_alias (Py.lower search_term)
                (iter (aliases apt_alias))) as Hbest.
  assert (Hm : exists score alias confidence,
             match_of ratio iter (Py.lower search_term) apt_alias
             = (original_name apt_alias, score, alias, confidence) /\ 100 <= score).
  { unfold match_of, best_of.
    destruct (foldl _ _ _) as [[bs ba] c]. cbn in Hbest. destruct Hbest as (_ & Hmax & _).
    exists bs, ba, c. split; [reflexivity|].
    specialize (Hmax (Py.lower search_term) (proj2 (Hiter _ _) Halias)).
    unfold alias_score in Hmax. now rewrite String.eqb_refl in Hmax. }
  destruct Hm as (score & alias & confidence & E & Hs).
  exists score, alias, confidence. split; [|exact Hs].
  apply elem_of_find_best_match. exists apt_alias.
  split; [exact Hin|]. split; [now rewrite E|]. cbn. lia.
Qed.

(** The name of the first sample apartment in capitals, at the default
    threshold.  The stored alias "SQ5" of "Square On 5th" is not the
    lowercased form of any search term: the search term "SQ5" finds
    nothing. *)
Lemma find_best_match_exact_witness :
  (forall (s : gset string) x, x ∈ elements s <-> x ∈ s)
  /\ 80 <= 100
  /\ generate_all_aliases Sample.soundex Sample.gt_config "Catalyst Midtown"
       ∈ Sample.universe
  /\ Py.lower "CATALYST MIDTOWN"
       ∈ aliases (generate_all_aliases Sample.soundex Sample.gt_config "Catalyst Midtown")
  /\ find_best_match Fuzz.ratio elements "SQ5" Sample.universe 80 = []
  /\ exists score alias confidence,
       ("Catalyst Midtown", score, alias, confidence)
         ∈ find_best_match Fuzz.ratio elements "CATALYST MIDTOWN" Sample.universe 80
       /\ 100 <= score.
Proof.
  assert (Hiter : forall (s : gset string) x, x ∈ elements s <-> x ∈ s)
    by (intros s x; apply elem_of_elements).
  assert (Ht : 80 <= 100) by lia.
  assert (Hin : generate_all_aliases Sample.soundex Sample.gt_config "Catalyst Midtown"
                  ∈ Sample.universe) by (unfold Sample.universe; now left).
  assert (Ha : Py.lower "CATALYST MIDTOWN"
                 ∈ aliases (generate_all_aliases Sample.soundex Sample.gt_config
                              "Catalyst Midtown"))
    by (apply generate_all_aliases_members; left; reflexivity).
  split; [exact Hiter|]. split; [exact Ht|]. split; [exact Hin|]. split; [exact Ha|].
  split; [vm_compute; reflexivity|].
  exact (find_best_match_exact Fuzz.ratio elements "CATALYST MIDTOWN" Sample.universe
           _ 80 Hiter Ht Hin Ha).
Defined.

End MatcherFurther.

(** ** The searcher: search terms, mentions and housing context *)

Section SearcherFurther.

Import AliasGenerator RedditSearcher.

Lemma load_apartment_data_lookup soundex cfg (names : list string) (n : string) :
  apartment_aliases (load_apartment_data soundex cfg names) !! n
  = if decide (n ∈ names) then Some (generate_all_aliases soundex cfg n) else None.
Proof.
  unfold load_apartment_data. cbn [apartment_aliases].
  rewrite (foldl_insert_lookup_total (generate_all_aliases soundex cfg)).
  now rewrite lookup_empty.
Qed.

Lemma dedupe_subset (l : list (string * float)) (x : string * float) :
  x ∈ dedupe l -> x ∈ l.
Proof.
  induction l as [|y l IH]; cbn [dedupe]; [trivial|].
  intros H. apply elem_of_cons in H. destruct H as [->|H]; [now left|].
  right. apply IH. apply list_elem_of_In in H. apply filter_In in H.
  now apply list_elem_of_In.
Qed.

Lemma dedupe_keeps_one (l : list (string * float)) (t : string) :
  (t, 1%float) ∈ l -> (t, 1%float) ∈ dedupe l.
Proof.
  induction l as [|y l IH]; cbn [dedupe]; intros H; [exact H|].
  apply elem_of_cons in H. destruct H as [<-|H]; [now left|].
  destruct (term_eqb y (t, 1%float)) eqn:E.
  - unfold term_eqb in E. cbn [fst snd] in E. apply andb_true_iff in E.
    destruct E as [E1 E2]. apply String.eqb_eq in E1. apply float_eqb_one in E2.
    destruct y as [t' c']. cbn [fst snd] in *. subst. now left.
  - right. apply list_elem_of_In, filter_In. split; [|now rewrite E].
    now apply list_elem_of_In, IH.
Qed.

Lemma elem_of_when {X : Type} (b : bool) (l : list X) (x : X) :
  x ∈ when b l <-> b = true /\ x ∈ l.
Proof.
  destruct b; cbn; [tauto|]. split; [intros H; now apply elem_of_nil in H|now intros [? _]].
Qed.

Lemma elem_of_firstn {X : Type} (n : nat) (l : list X) (x : X) :
  x ∈ firstn n l -> x ∈ l.
Proof.
  rewrite elem_of_take. intros (i & Hi & _). now apply list_elem_of_lookup_2 in Hi.
Qed.

(** The entries that [generate_search_terms] collects before it sorts. *)
Lemma search_terms_collected (iter : gset string -> list string)
    (list_of_set : list (string * float) -> list (string * float))
    (self : Searcher) (apartment_name : string) (set : ApartmentAlias) (x : string * float) :
  (forall s a, a ∈ iter s -> a ∈ s) ->
  (forall l, list_of_set l ≡ₚ dedupe l) ->
  apartment_aliases self !! apartment_name = Some set ->
  x ∈ generate_search_terms iter list_of_set self apartment_name ->
  x = (Py.lower apartment_name, 1%float)
  \/ (x.1 ∈ aliases set
      /\ x.2 = default 0.5%float (confidence_scores set !! x.1)
      /\ (0.6 <=? x.2)%float = true).
Proof.
  intros Hiter Hset Hlook. unfold generate_search_terms. rewrite Hlook.
  intros H. apply elem_of_firstn in H. rewrite sort_desc_Permutation, Hset in H.
  apply dedupe_subset in H. apply elem_of_cons in H. destruct H as [->|H]; [now left|].
  right. apply elem_of_app in H.
  destruct H as [H|H]; apply list_elem_of_In, in_flat_map in H;
    destruct H as (alias & Halias & H); apply list_elem_of_In in Halias, H;
    apply elem_of_when in H; destruct H as [Hc H];
    apply list_elem_of_singleton in H; subst x; cbn [fst snd];
    (split; [now apply Hiter|]); (split; [reflexivity|]).
  - now apply float_leb_trans with 0.8%float.
  - now apply andb_true_iff in Hc.
Qed.

(** X17: what [generate_search_terms] returns.  For a name without an
    alias set the result is the lowercased name alone, with confidence 1.0.
    Otherwise there are at most 10 terms, and each is the lowercased name
    with confidence 1.0 or an alias of the set with the confidence that
    [confidence_scores.get(alias, 0.5)] gives, which is at least 0.6: an
    alias without a confidence, or with one below 0.6, is never a search
    term. *)
Theorem search_terms_are_aliases
    (iter : gset string -> list string)
    (list_of_set : list (string * float) -> list (string * float))
    (self : Searcher) (apartment_name : string) :
  (forall s a, a ∈ iter s -> a ∈ s) ->
  (forall l, list_of_set l ≡ₚ dedupe l) ->
  let terms := generate_search_terms iter list_of_set self apartment_name in
  (apartment_aliases self !! apartment_name = None ->
   terms = [(Py.lower apartment_name, 1%float)])
  /\ (length terms <= 10)%nat
  /\ (forall set term confidence,
        apartment_aliases self !! apartment_name = Some set ->
        (term, confidence) ∈ terms ->
        (term = Py.lower apartment_name /\ confidence = 1%float)
        \/ (term ∈ aliases set
            /\ confidence_scores set !! term = Some confidence
            /\ (0.6 <=? confidence)%float = true)).
Proof.
  intros Hiter Hset. cbn zeta. split; [|split].
  - intros Hnone. unfold generate_search_terms. now rewrite Hnone.
  - unfold generate_search_terms. destruct (apartment_aliases self !! apartment_name).
    + apply firstn_le_length.
    + cbn. lia.
  - intros set term confidence Hlook Hin.
    destruct (search_terms_collected iter list_of_set self apartment_name set
                (term, confidence) Hiter Hset Hlook Hin) as [E|(Ha & Hc & Hle)].
    + left. now injection E.
    + right. cbn [fst snd] in *. split; [exact Ha|]. split; [|exact Hle].
      destruct (confidence_scores set !! term) as [w|] eqn:E; cbn [default] in Hc.
      * now subst.
      * subst confidence. discriminate Hle.
Qed.

Lemma search_terms_are_aliases_witness :
  (forall (s : gset string) a, a ∈ elements s -> a ∈ s)
  /\ (forall l, dedupe l ≡ₚ dedupe l)
  /\ (length (generate_search_terms elements dedupe Sample.searcher "Square On 5th")
      <= 10)%nat
  /\ generate_search_terms elements dedupe Sample.searcher "Hub Atlanta"
     = [("hub atlanta", 1%float)].
Proof.
  assert (Hiter : forall (s : gset string) a, a ∈ elements s -> a ∈ s)
    by (intros s a; apply elem_of_elements).
  assert (Hset : forall l, dedupe l ≡ₚ dedupe l) by reflexivity.
  split; [exact Hiter|]. split; [exact Hset|]. split.
  - exact (proj1 (proj2 (search_terms_are_aliases elements dedupe Sample.searcher
                           "Square On 5th" Hiter Hset))).
  - apply (proj1 (search_terms_are_aliases elements dedupe Sample.searcher
                    "Hub Atlanta" Hiter Hset)).
    vm_compute. reflexivity.
Defined.

Lemma StronglySorted_firstn {X : Type} (R : X -> X -> Prop) (n : nat) (l : list X) :
  StronglySorted R l -> StronglySorted R (firstn n l).
Proof.
  revert n. induction l as [|x l IH]; intros n Hs.
  - destruct n; constructor.
  - destruct n; [constructor|]. cbn [firstn].
    apply StronglySorted_inv in Hs. destruct Hs as [Hs Hx].
    constructor; [now apply IH|].
    apply Forall_forall. intros y Hy. apply elem_of_firstn in Hy.
    revert y Hy. now apply Forall_forall.
Qed.

Lemma weight_not_nan (w : float) :
  w ∈ [1%float; 0.9%float; 0.8%float; 0.7%float; 0.6%float; 0.85%float; 0.75%float] ->
  (w =? w)%float = true.
Proof.
  intros H.
  repeat (apply elem_of_cons in H; destruct H as [->|H]; [reflexivity|]).
  now apply elem_of_nil in H.
Qed.

Lemma weight_at_least_one (w : float) :
  w ∈ [1%float; 0.9%float; 0.8%float; 0.7%float; 0.6%float; 0.85%float; 0.75%float] ->
  (1 <=? w)%float = true -> w = 1%float.
Proof.
  intros H.
  repeat (apply elem_of_cons in H; destruct H as [->|H];
          [first [reflexivity|intros E; vm_compute in E; discriminate E]|]).
  now apply elem_of_nil in H.
Qed.

(** The search terms of a listed apartment of a loaded searcher: the
    lowercased name with 1.0, or an alias with its weight. *)
Lemma loaded_search_term (iter : gset string -> list string)
    (list_of_set : list (string * float) -> list (string * float))
    soundex cfg (names : list string) (apartment_name : string) (x : string * float) :
  (forall s a, a ∈ iter s -> a ∈ s) ->
  (forall l, list_of_set l ≡ₚ dedupe l) ->
  apartment_name ∈ names ->
  x ∈ generate_search_terms iter list_of_set (load_apartment_data soundex cfg names)
        apartment_name ->
  x.2 ∈ [1%float; 0.9%float; 0.8%float; 0.7%float; 0.6%float; 0.85%float; 0.75%float]
  /\ (x.2 = 1%float -> x = (Py.lower apartment_name, 1%float)).
Proof.
  intros Hiter Hset Hname Hx.
  assert (Hlook : apartment_aliases (load_apartment_data soundex cfg names)
                    !! apartment_name
                  = Some (generate_all_aliases soundex cfg apartment_name)).
  { rewrite load_apartment_data_lookup. now destruct (decide _). }
  destruct (search_terms_collected iter list_of_set _ apartment_name _ x
              Hiter Hset Hlook Hx) as [->|(Ha & Hc & Hle)].
  - cbn [snd]. split; [now left|reflexivity].
  - destruct (confidence_scores (generate_all_aliases soundex cfg apartment_name) !! x.1)
      as [w|] eqn:E; cbn in Hc.
    + destruct (confidence_weight_cases _ _ _ _ _ E) as (Hw & _ & _ & Hone).
      rewrite Hc. split; [exact Hw|]. intros Hw1.
      destruct x as [t c]. cbn [fst snd] in *. subst c w. now rewrite (Hone eq_refl).
    + rewrite Hc in Hle. discriminate Hle.
Qed.

(** X18: the search terms of a listed apartment, on a searcher that
    [load_apartment_data] has filled: the terms are in the order of their
    confidence, highest first, and the first term is the lowercased name of
    the apartment with confidence 1.0; every confidence is one of the
    weights of the alias generator. *)
Theorem search_terms_of_loaded_searcher
    (iter : gset string -> list string)
    (list_of_set : list (string * float) -> list (string * float))
    (soundex : string -> option string) (location_config : list (string * list string))
    (names : list string) (apartment_name : string) :
  (forall s a, a ∈ iter s -> a ∈ s) ->
  (forall l, list_of_set l ≡ₚ dedupe l) ->
  apartment_name ∈ names ->
  let terms :=
    generate_search_terms iter list_of_set
      (load_apartment_data soundex location_config names) apartment_name in
  StronglySorted (fun t1 t2 => (t2.2 <=? t1.2)%float = true) terms
  /\ hd_error terms = Some (Py.lower apartment_name, 1%float)
  /\ (forall term confidence,
        (term, confidence) ∈ terms ->
        confidence ∈ [1%float; 0.9%float; 0.8%float; 0.7%float; 0.6%float;
                      0.85%float; 0.75%float]).
Proof.
  intros Hiter Hset Hname. cbn zeta.
  pose proof (fun x => loaded_search_term iter list_of_set soundex location_config
                         names apartment_name x Hiter Hset Hname) as Hterm.
  assert (Hlook : apartment_aliases (load_apartment_data soundex location_config names)
                    !! apartment_name
                  = Some (generate_all_aliases soundex location_config apartment_name)).
  { rewrite load_apartment_data_lookup. now destruct (decide _). }
  revert Hterm. unfold generate_search_terms. rewrite Hlook.
  set (collected := list_of_set _). intros Hterm.
  assert (Hok : Forall (fun t : string * float => (t.2 =? t.2)%float = true)
                  (sort_desc PrimFloat.ltb snd collected)).
  { apply Forall_forall. intros x Hx. apply weight_not_nan.
    (* the confidences of the whole sorted list *)
    unfold collected in Hx. rewrite sort_desc_Permutation, Hset in Hx.
    apply dedupe_subset in Hx. apply elem_of_cons in Hx.
    destruct Hx as [->|Hx]; [now left|].
    assert (Ha : x.1 ∈ aliases (generate_all_aliases soundex location_config apartment_name)
                 /\ x.2 = default 0.5%float
                            (confidence_scores
                               (generate_all_aliases soundex location_config apartment_name)
                               !! x.1)).
    { apply elem_of_app in Hx.
      destruct Hx as [H|H]; apply list_elem_of_In, in_flat_map in H;
        destruct H as (alias & Halias & H); apply list_elem_of_In in Halias, H;
        apply elem_of_when in H; destruct H as [_ H];
        apply list_elem_of_singleton in H; subst x; cbn [fst snd];
        (split; [now apply Hiter|reflexivity]). }
    destruct Ha as [Ha Hc].
    rewrite <- generate_all_aliases_dom in Ha. apply elem_of_dom in Ha.
    destruct Ha as [w E]. rewrite E in Hc. cbn in Hc. rewrite Hc.
    now destruct (confidence_weight_cases _ _ _ _ _ E). }
  assert (Hsorted : StronglySorted (fun t1 t2 : string * float => (t2.2 <=? t1.2)%float = true)
                      (sort_desc PrimFloat.ltb snd collected)).
  { rewrite sort_desc_Permutation in Hok.
    apply (sort_desc_sorted PrimFloat.ltb snd (fun a b => (b <=? a)%float = true)
             (fun c => (c =? c)%float = true)).
    - intros a b. apply float_ltb_leb.
    - intros a b. apply float_not_ltb_leb.
    - intros a b c H1 H2. now apply float_leb_trans with b.
    - exact Hok. }
  split; [now apply StronglySorted_firstn|]. split.
  - assert (Hin : (Py.lower apartment_name, 1%float)
                    ∈ sort_desc PrimFloat.ltb snd collected).
    { rewrite sort_desc_Permutation. unfold collected. rewrite Hset.
      apply dedupe_keeps_one. now left. }
    destruct (sort_desc PrimFloat.ltb snd collected) as [|h rest] eqn:E;
      [now apply elem_of_nil in Hin|].
    cbn [firstn hd_error]. f_equal.
    destruct (Hterm h ltac:(cbn [firstn]; now left)) as [Hw Hone].
    apply Hone. apply weight_at_least_one; [exact Hw|].
    apply elem_of_cons in Hin. destruct Hin as [<-|Hin]; [reflexivity|].
    apply StronglySorted_inv in Hsorted. destruct Hsorted as [_ Hall].
    exact (proj1 (Forall_forall _ _) Hall _ Hin).
  - intros term confidence Hin. exact (proj1 (Hterm (term, confidence) Hin)).
Qed.

Lemma search_terms_of_loaded_searcher_witness :
  (forall (s : gset string) a, a ∈ elements s -> a ∈ s)
  /\ (forall l, dedupe l ≡ₚ dedupe l)
  /\ "Square On 5th" ∈ Sample.entities
  /\ hd_error (generate_search_terms elements dedupe
                 (load_apartment_data Sample.soundex Sample.gt_config Sample.entities)
                 "Square On 5th")
     = Some (Py.lower "Square On 5th", 1%float).
Proof.
  assert (Hiter : forall (s : gset string) a, a ∈ elements s -> a ∈ s)
    by (intros s a; apply elem_of_elements).
  assert (Hset : forall l, dedupe l ≡ₚ dedupe l) by reflexivity.
  assert (Hname : "Square On 5th" ∈ Sample.entities)
    by (unfold Sample.entities; right; now left).
  split; [exact Hiter|]. split; [exact Hset|]. split; [exact Hname|].
  exact (proj1 (proj2 (search_terms_of_loaded_searcher elements dedupe Sample.soundex
                         Sample.gt_config Sample.entities "Square On 5th"
                         Hiter Hset Hname))).
Defined.

End SearcherFurther.

(** ** The searcher: what a text mentions *)

Section MentionFurther.

Import AliasGenerator RedditSearcher.

Lemma startswith_any_char (f : ascii -> bool) (p s : string) :
  Py.startswith p s = true -> Py.any_char f p = true -> Py.any_char f s = true.
Proof.
  revert s. induction p as [|a p IH]; intros s Hs Hp; [discriminate Hp|].
  destruct s as [|b s]; [discriminate Hs|]. cbn in Hs, Hp |- *.
  apply andb_true_iff in Hs. destruct Hs as [Hab Hs]. apply Ascii.eqb_eq in Hab. subst b.
  apply orb_true_iff in Hp. apply orb_true_iff.
  destruct Hp as [Hp|Hp]; [now left|right; now apply IH].
Qed.

Lemma contains_any_char (f : ascii -> bool) (p s : string) :
  Py.contains p s = true -> Py.any_char f p = true -> Py.any_char f s = true.
Proof.
  intros Hc Hp. induction s as [|b s IH].
  - cbn in Hc. rewrite orb_false_r in Hc. now apply startswith_any_char with p.
  - cbn [Py.contains] in Hc. apply orb_true_iff in Hc. destruct Hc as [Hc|Hc].
    + now apply startswith_any_char with p.
    + cbn. apply orb_true_iff. right. now apply IH.
Qed.

Lemma lower_char_not_upper (c : ascii) : Py.is_upper_char (Py.lower_char c) = false.
Proof. destruct c as [[] [] [] [] [] [] [] []]; reflexivity. Qed.

Lemma lower_has_no_upper (s : string) : Py.any_char Py.is_upper_char (Py.lower s) = false.
Proof.
  induction s as [|c s IH]; [reflexivity|].
  cbn [Py.lower Py.map_chars Py.any_char] in *. now rewrite lower_char_not_upper, IH.
Qed.

Lemma uppercase_not_in_lowered (alias text : string) :
  Py.any_char Py.is_upper_char alias = true -> Py.contains alias (Py.lower text) = false.
Proof.
  intros Hup. apply not_true_is_false. intros Hc.
  pose proof (contains_any_char _ _ _ Hc Hup) as H.
  rewrite lower_has_no_upper in H. discriminate H.
Qed.

(** X19: an alias with an uppercase letter never occurs in a lowercased
    text.  [_find_mentioned_apartments] looks for the aliases in
    [text.lower()], so that such an alias can only score through the fuzzy
    comparison of the words, and scores 0.0 when it has at most 4
    characters, as the short forms "SQ5" and the Soundex codes do;
    [find_best_match] lowercases the search term, so that it never takes
    the exact-match branch for such an alias. *)
Theorem uppercase_alias_never_occurs
    (ratio : string -> string -> Z) (aliases : ApartmentAlias)
    (alias text search_term : string) :
  Py.any_char Py.is_upper_char alias = true ->
  Py.contains alias (Py.lower text) = false
  /\ (Py.len alias <= 4 -> mention_score ratio aliases (Py.lower text) alias = 0%float)
  /\ alias_score ratio (Py.lower search_term) alias = ratio (Py.lower search_term) alias.
Proof.
  intros Hup. pose proof (uppercase_not_in_lowered alias text Hup) as Hc.
  split; [exact Hc|]. split.
  - intros Hlen. unfold mention_score. rewrite Hc.
    now replace (4 <? Py.len alias) with false by (symmetry; lia).
  - unfold alias_score. destruct (String.eqb_spec (Py.lower search_term) alias) as [E|_];
      [|reflexivity].
    rewrite <- E in Hup. rewrite lower_has_no_upper in Hup. discriminate Hup.
Qed.

(** The short form "SQ5" of "Square On 5th", against the comment of the
    test data that names the apartment by it. *)
Lemma uppercase_alias_never_occurs_witness :
  Py.any_char Py.is_upper_char "SQ5" = true
  /\ "SQ5" ∈ elements (aliases (generate_all_aliases Sample.soundex Sample.gt_config
                                 "Square On 5th"))
  /\ Py.contains "sq5" (Py.lower (GridManager.comment_text Sample.validation)) = true
  /\ Py.contains "SQ5" (Py.lower (GridManager.comment_text Sample.validation)) = false
  /\ mention_score Fuzz.ratio
       (generate_all_aliases Sample.soundex Sample.gt_config "Square On 5th")
       (Py.lower (GridManager.comment_text Sample.validation)) "SQ5" = 0%float.
Proof.
  assert (Hup : Py.any_char Py.is_upper_char "SQ5" = true) by reflexivity.
  pose proof (uppercase_alias_never_occurs Fuzz.ratio
                (generate_all_aliases Sample.soundex Sample.gt_config "Square On 5th")
                "SQ5" (GridManager.comment_text Sample.validation) "" Hup)
    as (Hc & Hscore & _).
  split; [exact Hup|]. split; [vm_compute; repeat constructor|].
  split; [vm_compute; reflexivity|]. split; [exact Hc|].
  apply Hscore. vm_compute. discriminate.
Defined.

(** X20: [_find_mentioned_apartments] looks for the aliases, as they are
    stored, in the lowercased text.  On a searcher that
    [load_apartment_data] has filled, an apartment of the list is mentioned
    by every text whose lowercased form contains one of its stored aliases:
    the confidence of every generated alias is at least 0.6, the threshold
    of [_find_mentioned_apartments], and the score stored is at least the
    confidence of that alias. *)
Theorem occurring_alias_is_a_mention
    (ratio : string -> string -> Z) (iter : gset string -> list string)
    (soundex : string -> option string) (location_config : list (string * list string))
    (names : list string) (name alias text : string) :
  (forall s x, x ∈ iter s <-> x ∈ s) ->
  name ∈ names ->
  alias ∈ aliases (generate_all_aliases soundex location_config name) ->
  Py.contains alias (Py.lower text) = true ->
  exists score confidence,
    _find_mentioned_apartments ratio iter
      (load_apartment_data soundex location_config names) text !! name = Some score
    /\ confidence_scores (generate_all_aliases soundex location_config name) !! alias
       = Some confidence
    /\ (0.6 <=? confidence)%float = true
    /\ (confidence <=? score)%float = true.
Proof.
  intros Hiter Hname Halias Hocc.
  set (self := load_apartment_data soundex location_config names).
  set (set := generate_all_aliases soundex location_config name) in *.
  assert (Hlook : apartment_aliases self !! name = Some set).
  { unfold self. rewrite load_apartment_data_lookup. now destruct (decide _). }
  pose proof Halias as Hdom. unfold set in Hdom.
  rewrite <- generate_all_aliases_dom in Hdom. apply elem_of_dom in Hdom.
  destruct Hdom as [confidence Hconf]. fold set in Hconf.
  destruct (confidence_weight_cases _ _ _ _ _ Hconf) as (Hw & H06 & _ & _).
  assert (Hscore : mention_score ratio set (Py.lower text) alias = confidence).
  { unfold mention_score. now rewrite Hocc, Hconf. }
  set (best := best_mention_score ratio iter set (Py.lower text)).
  assert (Hbest : (0.6 <=? best)%float = true).
  { apply (best_mention_score_threshold ratio iter Hiter). exists alias.
    split; [exact Halias|]. now rewrite Hscore. }
  exists best, confidence. split; [|split; [exact Hconf|split; [exact H06|]]].
  - rewrite find_mentioned_apartments_lookup.
    destruct (decide (name ∈ apartments self)) as [_|Hn];
      [|destruct Hn; exact Hname].
    unfold mention_entry. rewrite Hlook. cbn zeta. fold best. now rewrite Hbest.
  - destruct (best_mention_score_is_max ratio iter Hiter set (Py.lower text))
      as [Hmax _]. specialize (Hmax alias Halias). rewrite Hscore in Hmax. fold best in Hmax.
    apply float_not_ltb_leb; [| |exact Hmax].
    + unfold best. rewrite best_mention_score_fold.
      now destruct (running_max_invariant
                      (mention_score ratio set (Py.lower text) <$> iter (aliases set))).
    + now apply weight_not_nan.
Qed.

(** The abbreviation "cm" of "Catalyst Midtown" inside the word "cmos".
    The stored alias "SQ5" of "Square On 5th" is in no lowercased text: a
    text that names "SQ5" mentions nothing. *)
Lemma occurring_alias_is_a_mention_witness :
  (forall (s : gset string) x, x ∈ elements s <-> x ∈ s)
  /\ "Catalyst Midtown" ∈ Sample.entities
  /\ "cm" ∈ aliases (generate_all_aliases Sample.soundex Sample.gt_config "Catalyst Midtown")
  /\ Py.contains "cm" (Py.lower "A CMOS camera") = true
  /\ size (_find_mentioned_apartments Fuzz.ratio elements
             (load_apartment_data Sample.soundex Sample.gt_config Sample.entities)
             "My friend was at SQ5") = 0%nat
  /\ exists score confidence,
       _find_mentioned_apartments Fuzz.ratio elements
         (load_apartment_data Sample.soundex Sample.gt_config Sample.entities)
         "A CMOS camera" !! "Catalyst Midtown" = Some score
       /\ confidence_scores
            (generate_all_aliases Sample.soundex Sample.gt_config "Catalyst Midtown")
            !! "cm" = Some confidence
       /\ (0.6 <=? confidence)%float = true
       /\ (confidence <=? score)%float = true.
Proof.
  assert (Hiter : forall (s : gset string) x, x ∈ elements s <-> x ∈ s)
    by (intros s x; apply elem_of_elements).
  assert (Hname : "Catalyst Midtown" ∈ Sample.entities)
    by (unfold Sample.entities; now left).
  assert (Halias : "cm" ∈ aliases (generate_all_aliases Sample.soundex Sample.gt_config
                                     "Catalyst Midtown"))
    by (apply elem_of_elements; vm_compute; repeat constructor).
  assert (Hocc : Py.contains "cm" (Py.lower "A CMOS camera") = true) by reflexivity.
  split; [exact Hiter|]. split; [exact Hname|]. split; [exact Halias|].
  split; [exact Hocc|]. split; [vm_compute; reflexivity|].
  exact (occurring_alias_is_a_mention Fuzz.ratio elements Sample.soundex Sample.gt_config
           Sample.entities "Catalyst Midtown" "cm" "A CMOS camera"
           Hiter Hname Halias Hocc).
Defined.








End MentionFurther.

(** ** The search pipeline: results, duplicates and validation *)

Section PipelineFurther.

Import SearchPipeline.

Lemma find_append {X : Type} (p : X -> bool) (l l' : list X) :
  List.find p (l ++ l')
  = match List.find p l with Some x => Some x | None => List.find p l' end.
Proof.
  induction l as [|x l IH]; [reflexivity|]. cbn [app List.find].
  now destruct (p x).
Qed.

Lemma deduplicate_fold (results : list RedditSearchResult) :
  let '(seen, out) := foldl deduplicate_step (∅, []) results in
  seen = list_to_set (map result_key out)
  /\ NoDup (map result_key out)
  /\ out `sublist_of` results
  /\ (forall key,
        List.find (fun r => String.eqb (result_key r) key) out
        = List.find (fun r => String.eqb (result_key r) key) results).
Proof.
  induction results as [|r results IH] using rev_ind.
  - cbn. split; [reflexivity|]. split; [constructor|]. split; [constructor|reflexivity].
  - rewrite foldl_app. cbn [foldl]. destruct (foldl _ _ results) as [seen out].
    destruct IH as (Hseen & Hnd & Hsub & Hfind). unfold deduplicate_step.
    destruct (decide (result_key r ∈ seen)) as [Hin|Hin].
    + split; [exact Hseen|]. split; [exact Hnd|]. split.
      * rewrite <- (app_nil_r out). apply sublist_app; [exact Hsub|apply sublist_nil_l].
      * intros key. rewrite find_append, <- Hfind.
        destruct (List.find _ out) as [x|] eqn:E; [reflexivity|]. cbn [List.find].
        destruct (String.eqb_spec (result_key r) key) as [Hk|_]; [|reflexivity].
        exfalso. subst key. rewrite Hseen in Hin. apply elem_of_list_to_set in Hin.
        apply list_elem_of_fmap in Hin. destruct Hin as (x & Hx & Hxin).
        apply list_elem_of_In in Hxin.
        apply (find_none _ _ E) in Hxin. now rewrite Hx, String.eqb_refl in Hxin.
    + split; [|split; [|split]].
      * rewrite map_app, list_to_set_app_L, <- Hseen. cbn.
        apply set_eq. intros k. rewrite !elem_of_union, elem_of_singleton, elem_of_empty.
        tauto.
      * rewrite map_app. apply NoDup_app. split; [exact Hnd|]. split.
        -- intros k Hk Hk'. apply list_elem_of_singleton in Hk'. subst k.
           apply Hin. rewrite Hseen. now apply elem_of_list_to_set.
        -- apply NoDup_singleton.
      * apply sublist_app; [exact Hsub|reflexivity].
      * intros key. now rewrite !find_append, Hfind.
Qed.

Lemma deduplicate_distinct (results : list RedditSearchResult) :
  NoDup (map result_key results) -> _deduplicate_results results = results.
Proof.
  unfold _deduplicate_results. intros Hnd.
  enough (H : foldl deduplicate_step (∅, []) results
              = (list_to_set (map result_key results), results)) by now rewrite H.
  induction results as [|r results IH] using rev_ind; [reflexivity|].
  rewrite map_app in Hnd. apply NoDup_app in Hnd. destruct Hnd as (Hnd & Hnot & _).
  rewrite foldl_app, (IH Hnd). cbn [foldl deduplicate_step].
  destruct (decide (result_key r ∈ list_to_set (map result_key results))) as [Hin|_].
  - exfalso. apply elem_of_list_to_set in Hin. apply (Hnot _ Hin). now left.
  - f_equal. rewrite map_app, list_to_set_app_L. cbn.
    apply set_eq. intros k. rewrite !elem_of_union, elem_of_singleton, elem_of_empty.
    tauto.
Qed.

(** X22: [_deduplicate_results] keeps, of the results that have the same
    key [post_id_comment_id], the first one, and keeps the order: no two
    results of its output have the same key, the output is a subsequence of
    the input, and for every key the first result of the output with the
    key is the first result of the input with it.  A list without
    duplicate keys is returned as it is, so that deduplicating twice
    changes nothing. *)
Theorem deduplicate_results_keeps_first (results : list RedditSearchResult) :
  let unique_results := _deduplicate_results results in
  NoDup (map result_key unique_results)
  /\ unique_results `sublist_of` results
  /\ (forall key,
        List.find (fun r => String.eqb (result_key r) key) unique_results
        = List.find (fun r => String.eqb (result_key r) key) results)
  /\ (NoDup (map result_key results) -> unique_results = results)
  /\ _deduplicate_results unique_results = unique_results.
Proof.
  cbn zeta. pose proof (deduplicate_fold results) as H.
  unfold _deduplicate_results at 1 2 3 4.
  destruct (foldl _ _ results) as [seen out] eqn:E. cbn [snd].
  destruct H as (_ & Hnd & Hsub & Hfind).
  split; [exact Hnd|]. split; [exact Hsub|]. split; [exact Hfind|]. split.
  - intros Hall. pose proof (deduplicate_distinct results Hall) as Hd.
    unfold _deduplicate_results in Hd. now rewrite E in Hd.
  - assert (Hout : _deduplicate_results results = out)
      by (unfold _deduplicate_results; now rewrite E).
    rewrite Hout. now apply deduplicate_distinct.
Qed.

Lemma elem_of_first_occurrences (seen : gset string) (l : list string) (x : string) :
  x ∈ first_occurrences seen l <-> x ∈ l /\ x ∉ seen.
Proof.
  revert seen. induction l as [|y l IH]; intros seen; cbn [first_occurrences].
  - split; [intros H; now apply elem_of_nil in H|intros [H _]; now apply elem_of_nil in H].
  - destruct (decide (y ∈ seen)) as [Hy|Hy].
    + rewrite IH, elem_of_cons. split; [tauto|]. intros [[->|H] Hn]; [contradiction|tauto].
    + rewrite !elem_of_cons, IH, elem_of_union, elem_of_singleton. split.
      * intros [->|[H Hn]]; [tauto|]. split; [now right|tauto].
      * intros [[->|H] Hn]; [now left|].
        destruct (decide (x = y)) as [->|Hne]; [now left|right]. tauto.
Qed.

Lemma NoDup_first_occurrences (seen : gset string) (l : list string) :
  NoDup (first_occurrences seen l).
Proof.
  revert seen. induction l as [|y l IH]; intros seen; cbn [first_occurrences];
    [constructor|].
  destruct (decide (y ∈ seen)); [apply IH|]. constructor; [|apply IH].
  rewrite elem_of_first_occurrences, elem_of_union, elem_of_singleton. tauto.
Qed.

Section SearchResults.

Variable ratio : string -> string -> Z.
Variable iter : gset string -> list string.
Variable self : RedditSearcher.Searcher.

Lemma elem_of_mentioned_keys (text apt : string) :
  apt ∈ mentioned_keys self (RedditSearcher._find_mentioned_apartments ratio iter self text)
  <-> is_Some (RedditSearcher._find_mentioned_apartments ratio iter self text !! apt).
Proof.
  unfold mentioned_keys. rewrite elem_of_first_occurrences, list_elem_of_In, filter_In.
  rewrite bool_decide_eq_true, <- list_elem_of_In. split; [tauto|]. intros H.
  split; [|apply not_elem_of_empty]. split; [|exact H].
  rewrite find_mentioned_apartments_lookup in H.
  destruct (decide (apt ∈ RedditSearcher.apartments self)) as [Hin|_]; [exact Hin|].
  now destruct H.
Qed.

Lemma elem_of_analyze pid cid text subreddit_name created sc source search_term result :
  result ∈ analyze ratio iter self pid cid text subreddit_name created sc source search_term ->
  analyzed ratio iter self text subreddit_name source search_term result
  /\ post_id result = pid /\ comment_id result = cid /\ created_utc result = created.
Proof.
  unfold analyze. destruct (RedditSearcher._has_housing_context text) eqn:Hctx;
    [|intros H; now apply elem_of_nil in H].
  destruct (size _ =? 0)%nat eqn:Hsize; cbn [negb];
    [intros H; now apply elem_of_nil in H|].
  intros H. apply list_elem_of_singleton in H. subst result. cbn.
  split; [|now repeat split]. unfold analyzed. cbn.
  split; [reflexivity|]. split; [reflexivity|]. split; [reflexivity|].
  split; [reflexivity|]. split; [exact Hctx|]. split; [reflexivity|].
  split; [|split; [apply NoDup_first_occurrences|apply elem_of_mentioned_keys]].
  apply Nat.eqb_neq in Hsize. apply map_size_ne_0_lookup_1 in Hsize.
  destruct Hsize as [apt Hapt]. apply elem_of_mentioned_keys in Hapt.
  intros E. rewrite E in Hapt. now apply elem_of_nil in Hapt.
Qed.

Lemma elem_of_scan_comments post subreddit_name search_term source time_threshold
    comments comment_count result :
  result ∈ scan_comments ratio iter self post subreddit_name search_term source
             time_threshold comments comment_count ->
  exists comment,
    comment ∈ comments
    /\ body comment = Some (comment_text result)
    /\ min_comment_length <= Py.len (comment_text result)
    /\ (time_threshold <=? comment_created_utc comment)%float = true
    /\ analyzed ratio iter self (comment_text result) subreddit_name source search_term result
    /\ post_id result = post_name post
    /\ comment_id result = comment_name comment
    /\ created_utc result = comment_created_utc comment.
Proof.
  revert comment_count. induction comments as [|comment rest IH]; intros comment_count;
    cbn [scan_comments]; [intros H; now apply elem_of_nil in H|].
  destruct (max_comments_per_post <=? comment_count);
    [intros H; now apply elem_of_nil in H|].
  assert (Hrest : forall n,
             result ∈ scan_comments ratio iter self post subreddit_name search_term source
                        time_threshold rest n ->
             exists comment0,
               comment0 ∈ comment :: rest
               /\ body comment0 = Some (comment_text result)
               /\ min_comment_length <= Py.len (comment_text result)
               /\ (time_threshold <=? comment_created_utc comment0)%float = true
               /\ analyzed ratio iter self (comment_text result) subreddit_name source search_term result
               /\ post_id result = post_name post
               /\ comment_id result = comment_name comment0
               /\ created_utc result = comment_created_utc comment0).
  { intros n Hn. destruct (IH n Hn) as (c & Hc & H). exists c. split; [now right|exact H]. }
  destruct (body comment) as [comment_body|] eqn:Hbody; [|apply Hrest].
  destruct ((min_comment_length <=? Py.len comment_body)
            && (time_threshold <=? comment_created_utc comment)%float) eqn:Hcond;
    [|apply Hrest].
  intros H. apply elem_of_app in H. destruct H as [H|H]; [|now apply Hrest in H].
  apply andb_true_iff in Hcond. destruct Hcond as [Hlen Htime]. apply Z.leb_le in Hlen.
  apply elem_of_analyze in H. destruct H as (Ha & Hp & Hc & Hu).
  pose proof Ha as (Htext & _). exists comment. rewrite Htext.
  split; [now left|]. split; [exact Hbody|]. split; [exact Hlen|]. split; [exact Htime|].
  split; [exact Ha|]. now repeat split.
Qed.

Lemma search_subreddit_spec (posts : list Post)
    (subreddit_name search_term source : string) (time_threshold term_confidence : float)
    (result : RedditSearchResult) :
  result ∈ _search_subreddit ratio iter self posts subreddit_name search_term source
             time_threshold term_confidence ->
  subreddit result = subreddit_name
  /\ source_apartment result = source
  /\ search_term_used result = search_term
  /\ RedditSearcher._has_housing_context (comment_text result) = true
  /\ confidence_scores result
     = RedditSearcher._find_mentioned_apartments ratio iter self (comment_text result)
  /\ mentioned_apartments result <> []
  /\ NoDup (mentioned_apartments result)
  /\ (forall apt, apt ∈ mentioned_apartments result
                  <-> is_Some (confidence_scores result !! apt))
  /\ (created_utc result <? time_threshold)%float = false
  /\ (exists post,
        post ∈ posts /\ post_id result = post_name post
        /\ ((comment_id result = ""
             /\ comment_text result = title post +:+ " " +:+ default "" (selftext post))
            \/ (exists comments comment,
                  post_comments post = Some comments /\ comment ∈ comments
                  /\ body comment = Some (comment_text result)
                  /\ comment_id result = comment_name comment
                  /\ 20 <= Py.len (comment_text result))))
  /\ (forall other_confidence,
        _search_subreddit ratio iter self posts subreddit_name search_term source
          time_threshold other_confidence
        = _search_subreddit ratio iter self posts subreddit_name search_term source
            time_threshold term_confidence).
Proof.
  unfold _search_subreddit. intros H. apply list_elem_of_In, in_flat_map in H.
  destruct H as (post & Hpost & H). apply list_elem_of_In in Hpost, H.
  destruct (post_created_utc post <? time_threshold)%float eqn:Htime;
    [now apply elem_of_nil in H|].
  assert (Hgoal : analyzed ratio iter self (comment_text result) subreddit_name source search_term result
                  /\ (created_utc result <? time_threshold)%float = false
                  /\ post_id result = post_name post
                  /\ ((comment_id result = ""
                       /\ comment_text result
                          = title post +:+ " " +:+ default "" (selftext post))
                      \/ (exists comments comment,
                            post_comments post = Some comments /\ comment ∈ comments
                            /\ body comment = Some (comment_text result)
                            /\ comment_id result = comment_name comment
                            /\ 20 <= Py.len (comment_text result)))).
  { apply elem_of_app in H. destruct H as [H|H].
    - apply elem_of_analyze in H. destruct H as (Ha & Hp & Hc & Hu).
      pose proof Ha as (Htext & _). rewrite Htext. split; [exact Ha|].
      split; [now rewrite Hu|]. split; [exact Hp|]. left. now split.
    - destruct (post_comments post) as [comments|] eqn:Hcomments;
        [|now apply elem_of_nil in H].
      apply elem_of_scan_comments in H.
      destruct H as (comment & Hin & Hbody & Hlen & Hthr & Ha & Hp & Hc & Hu).
      split; [exact Ha|]. split; [rewrite Hu; now apply float_leb_not_gt|].
      split; [exact Hp|]. right. exists comments, comment. now repeat split. }
  destruct Hgoal as ((_ & Hsub & Hsrc & Hterm & Hctx & Hconf & Hne & Hnd & Hkeys)
                     & Hold & Hp & Hfrom).
  split; [exact Hsub|]. split; [exact Hsrc|]. split; [exact Hterm|].
  split; [exact Hctx|]. split; [exact Hconf|]. split; [exact Hne|].
  split; [exact Hnd|]. split; [exact Hkeys|]. split; [exact Hold|].
  split; [exists post; split; [exact Hpost|]; split; [exact Hp|exact Hfrom]|].
  intros other_confidence. reflexivity.
Qed.

(** X23: what [_search_subreddit] returns.  Every result has housing
    context, names the subreddit, the search term and the source apartment
    of the call, and is not older than the time threshold; it mentions at
    least one apartment, its [mentioned_apartments] are the keys of its
    [confidence_scores], each once, and these are the scores that
    [_find_mentioned_apartments] gives for its text.  It is made from a
    post of the answer, from title and text (then its [comment_id] is
    empty) or from one of its comments of at least 20 characters.  The
    confidence of the search term plays no part. *)
Theorem search_subreddit_results (posts : list Post)
    (subreddit_name search_term source : string) (time_threshold term_confidence : float)
    (result : RedditSearchResult) :
  result ∈ _search_subreddit ratio iter self posts subreddit_name search_term source
             time_threshold term_confidence ->
  subreddit result = subreddit_name
  /\ source_apartment result = source
  /\ search_term_used result = search_term
  /\ RedditSearcher._has_housing_context (comment_text result) = true
  /\ confidence_scores result
     = RedditSearcher._find_mentioned_apartments ratio iter self (comment_text result)
  /\ mentioned_apartments result <> []
  /\ NoDup (mentioned_apartments result)
  /\ (forall apt, apt ∈ mentioned_apartments result
                  <-> is_Some (confidence_scores result !! apt))
  /\ (created_utc result <? time_threshold)%float = false
  /\ (exists post,
        post ∈ posts /\ post_id result = post_name post
        /\ ((comment_id result = ""
             /\ comment_text result = title post +:+ " " +:+ default "" (selftext post))
            \/ (exists comments comment,
                  post_comments post = Some comments /\ comment ∈ comments
                  /\ body comment = Some (comment_text result)
                  /\ comment_id result = comment_name comment
                  /\ 20 <= Py.len (comment_text result))))
  /\ (forall other_confidence,
        _search_subreddit ratio iter self posts subreddit_name search_term source
          time_threshold other_confidence
        = _search_subreddit ratio iter self posts subreddit_name search_term source
            time_threshold term_confidence).
Proof. apply search_subreddit_spec. Qed.



End SearchResults.

(** The sample post and its answers, searched for "Catalyst Midtown". *)
Lemma search_subreddit_results_witness :
  exists result,
    result ∈ _search_subreddit Fuzz.ratio elements Sample.searcher [SamplePosts.post]
               "gatech" "catalyst midtown" "Catalyst Midtown"
               SamplePosts.time_threshold 1%float
    /\ subreddit result = "gatech"
    /\ source_apartment result = "Catalyst Midtown"
    /\ RedditSearcher._has_housing_context (comment_text result) = true
    /\ mentioned_apartments result <> [].
Proof.
  assert (Hlen : length (_search_subreddit Fuzz.ratio elements Sample.searcher
                           [SamplePosts.post] "gatech" "catalyst midtown"
                           "Catalyst Midtown" SamplePosts.time_threshold 1%float)
                 = 2%nat) by (vm_compute; reflexivity).
  destruct (_search_subreddit Fuzz.ratio elements Sample.searcher [SamplePosts.post]
              "gatech" "catalyst midtown" "Catalyst Midtown"
              SamplePosts.time_threshold 1%float) as [|result rest] eqn:E;
    [discriminate Hlen|].
  assert (Hin : result ∈ _search_subreddit Fuzz.ratio elements Sample.searcher
                           [SamplePosts.post] "gatech" "catalyst midtown"
                           "Catalyst Midtown" SamplePosts.time_threshold 1%float)
    by (rewrite E; now left).
  exists result. split; [now left|].
  destruct (search_subreddit_results Fuzz.ratio elements Sample.searcher
              [SamplePosts.post] "gatech" "catalyst midtown" "Catalyst Midtown"
              SamplePosts.time_threshold 1%float result Hin)
    as (H1 & H2 & _ & H4 & _ & H6 & _).
  split; [exact H1|]. split; [exact H2|]. split; [exact H4|exact H6].
Defined.

Lemma grown_in_row_refl (source : string) (g : GridManager.GridData) :
  grown_in_row source g g.
Proof.
  split; [reflexivity|]. intros s m.
  destruct (GridManager.grid_cell _ s m) as [cell|] eqn:E; [|reflexivity].
  exists cell. split; [reflexivity|]. split; [reflexivity|]. split; [lia|reflexivity].
Qed.

Lemma grown_in_row_trans (source : string) (g1 g2 g3 : GridManager.GridData) :
  grown_in_row source g1 g2 -> grown_in_row source g2 g3 -> grown_in_row source g1 g3.
Proof.
  intros [Ha12 H12] [Ha23 H23]. split; [congruence|]. intros s m.
  specialize (H12 s m). specialize (H23 s m).
  destruct (GridManager.grid_cell (GridManager.validation_grid g1) s m) as [c1|].
  - destruct H12 as (c2 & E2 & Hv2 & Hc2 & Hf2). rewrite E2 in H23.
    destruct H23 as (c3 & E3 & Hv3 & Hc3 & Hf3). exists c3.
    split; [exact E3|]. split; [congruence|]. split; [lia|].
    intros H. rewrite (Hf3 H). exact (Hf2 H).
  - now rewrite H12 in H23.
Qed.

(** A call of [add_comment_validation] with a pending validation of
    [source] about another apartment. *)
Lemma add_pending_grows (g : GridManager.GridData) (v : GridManager.CommentValidation)
    (now_cell now_meta : string) :
  GridManager.mentioned_apartment v <> GridManager.source_apartment v ->
  GridManager.validation_status v = "pending" ->
  exists g',
    (GridManager.add_comment_validation (Some g) v now_cell now_meta).1.1 = Some g'
    /\ grown_in_row (GridManager.source_apartment v) g g'.
Proof.
  intros Hne Hstatus. unfold GridManager.add_comment_validation.
  destruct (add_validation_grid g v now_cell now_meta)
    as (g' & E & Hap & [Hg|(cell & cell' & Hcell & Hu & Hg)]);
    exists g'; (split; [exact E|]); (split; [exact Hap|]); intros s m; rewrite Hg.
  - destruct (GridManager.grid_cell _ s m) as [c|]; [|reflexivity].
    exists c. split; [reflexivity|]. split; [reflexivity|]. split; [lia|reflexivity].
  - destruct (decide ((s, m) = (GridManager.source_apartment v,
                                GridManager.mentioned_apartment v))) as [Heq|Hdiff].
    + injection Heq as -> ->. rewrite Hcell.
      rewrite (grid_cell_set_cell_eq _ _ _ cell cell' Hcell). exists cell'.
      apply update_cell_fields in Hu. destruct Hu as (Hc & Hv & _).
      rewrite with_comment_id_status, Hstatus in Hv. cbn in Hv.
      split; [reflexivity|]. split; [exact Hv|]. split; [lia|].
      intros [H|H]; [now destruct H|contradiction].
    + rewrite grid_cell_set_cell_ne by exact Hdiff.
      destruct (GridManager.grid_cell _ s m) as [c|]; [|reflexivity].
      exists c. split; [reflexivity|]. split; [reflexivity|]. split; [lia|reflexivity].
Qed.

Lemma other_apartments_differ (result : RedditSearchResult) (source : string) :
  Forall (fun apt => apt <> source) (other_apartments_of result source).
Proof.
  apply Forall_forall. intros apt H. unfold other_apartments_of in H.
  apply list_elem_of_In, filter_In in H. destruct H as [_ H].
  apply negb_true_iff in H. now apply String.eqb_neq in H.
Qed.

(** Whether a result is kept, in terms of its list of apartments. *)
Lemma kept_iff_mentioned (result : RedditSearchResult) (source : string) :
  AliasGenerator.non_empty (other_apartments_of result source)
  || existsb (String.eqb source) (mentioned_apartments result)
  = AliasGenerator.non_empty (mentioned_apartments result).
Proof.
  unfold other_apartments_of.
  induction (mentioned_apartments result) as [|apt l IH]; [reflexivity|].
  cbn [List.filter existsb]. rewrite (String.eqb_sym source apt).
  destruct (String.eqb apt source); cbn; [apply orb_true_r|reflexivity].
Qed.

Section ValidationProperties.

Variable fromtimestamp : float -> option string.
Variable clock : nat -> string * string.

Lemma add_cross_references_result result source others (st : State) :
  (add_cross_references fromtimestamp clock result source others st).2
  = match fromtimestamp (created_utc result) with
    | Some _ => true
    | None => negb (AliasGenerator.non_empty others)
    end.
Proof.
  revert st. induction others as [|apt rest IH]; intros st; cbn [add_cross_references].
  - now destruct (fromtimestamp _).
  - destruct (fromtimestamp (created_utc result)) as [created|] eqn:E; [|reflexivity].
    destruct (clock st.2) as [now_cell now_meta]. apply IH.
Qed.

Lemma add_cross_references_grid result source others g calls :
  Forall (fun apt => apt <> source) others ->
  exists g',
    (add_cross_references fromtimestamp clock result source others (Some g, calls)).1.1
    = Some g'
    /\ grown_in_row source g g'.
Proof.
  intros Hothers. revert g calls.
  induction Hothers as [|apt rest Hapt _ IH]; intros g calls; cbn [add_cross_references].
  - exists g. split; [reflexivity|apply grown_in_row_refl].
  - destruct (fromtimestamp (created_utc result)) as [created|];
      [|exists g; split; [reflexivity|apply grown_in_row_refl]].
    cbn [fst snd]. destruct (clock calls) as [now_cell now_meta].
    match goal with
    | |- context [GridManager.add_comment_validation (Some g) ?v now_cell now_meta] =>
        destruct (add_pending_grows g v now_cell now_meta Hapt eq_refl) as (g1 & E1 & H1)
    end.
    rewrite E1. destruct (IH g1 (S calls)) as (g2 & E2 & H2).
    exists g2. split; [exact E2|]. cbn in H1. now apply grown_in_row_trans with g1.
Qed.

Lemma add_cross_references_unwritable result source others calls :
  (add_cross_references fromtimestamp clock result source others (None, calls)).1.1 = None.
Proof.
  revert calls. induction others as [|apt rest IH]; intros calls;
    cbn [add_cross_references]; [reflexivity|].
  destruct (fromtimestamp _); [|reflexivity].
  cbn [fst snd]. destruct (clock calls) as [now_cell now_meta]. apply IH.
Qed.

Lemma validate_results_cons result rest source (st : State) :
  _validate_results fromtimestamp clock (result :: rest) source st
  = if AliasGenerator.non_empty (other_apartments_of result source)
    then
      let after :=
        add_cross_references fromtimestamp clock result source
          (other_apartments_of result source) st in
      if after.2
      then ((_validate_results fromtimestamp clock rest source after.1).1,
            cons result <$> (_validate_results fromtimestamp clock rest source after.1).2)
      else (after.1, None)
    else if existsb (String.eqb source) (mentioned_apartments result)
    then ((_validate_results fromtimestamp clock rest source st).1,
          cons result <$> (_validate_results fromtimestamp clock rest source st).2)
    else _validate_results fromtimestamp clock rest source st.
Proof.
  cbn [_validate_results].
  destruct (AliasGenerator.non_empty _).
  - cbn zeta. destruct (add_cross_references _ _ _ _ _ _) as [st' []]; cbn [fst snd];
      [|reflexivity].
    now destruct (_validate_results _ _ _ _ _).
  - destruct (existsb _ _); [|reflexivity]. now destruct (_validate_results _ _ _ _ _).
Qed.

Lemma validate_results_spec results source (st : State) :
  let out := (_validate_results fromtimestamp clock results source st).2 in
  (out = None
   <-> exists result,
         result ∈ results
         /\ other_apartments_of result source <> []
         /\ fromtimestamp (created_utc result) = None)
  /\ (forall validated,
        out = Some validated ->
        validated
        = List.filter (fun result => AliasGenerator.non_empty (mentioned_apartments result))
            results).
Proof.
  cbn zeta. revert st. induction results as [|result rest IH]; intros st.
  - cbn. split.
    + split; [discriminate|]. intros (r & Hr & _). now apply elem_of_nil in Hr.
    + now intros validated [= <-].
  - rewrite validate_results_cons. cbn [List.filter].
    rewrite <- (kept_iff_mentioned result source).
    destruct (AliasGenerator.non_empty (other_apartments_of result source)) eqn:Hother.
    + cbn zeta. cbn [orb]. rewrite add_cross_references_result.
      destruct (fromtimestamp (created_utc result)) as [created|] eqn:Htime.
      * cbn [snd]. set (st' := (add_cross_references _ _ _ _ _ _).1).
        destruct (IH st') as [IHnone IHsome]. split.
        -- rewrite fmap_None, IHnone. split.
           ++ intros (r & Hr & H). exists r. split; [now right|exact H].
           ++ intros (r & Hr & Ho & Ht). apply elem_of_cons in Hr.
              destruct Hr as [->|Hr]; [congruence|]. now exists r.
        -- intros validated H. apply fmap_Some in H. destruct H as (l & Hl & ->).
           now rewrite (IHsome l Hl).
      * rewrite Hother. cbn [negb snd]. split; [|discriminate].
        split; [|reflexivity]. intros _. exists result. split; [now left|].
        split; [|exact Htime]. intros E. rewrite E in Hother. discriminate Hother.
    + cbn [orb]. destruct (IH st) as [IHnone IHsome].
      assert (Hskip : (exists r, r ∈ result :: rest
                                 /\ other_apartments_of r source <> []
                                 /\ fromtimestamp (created_utc r) = None)
                      <-> (exists r, r ∈ rest
                                     /\ other_apartments_of r source <> []
                                     /\ fromtimestamp (created_utc r) = None)).
      { split.
        - intros (r & Hr & Ho & Ht). apply elem_of_cons in Hr.
          destruct Hr as [->|Hr]; [|now exists r].
          destruct (other_apartments_of result source); [now destruct Ho|discriminate].
        - intros (r & Hr & H). exists r. split; [now right|exact H]. }
      destruct (existsb _ _); cbn [snd].
      * split.
        -- now rewrite fmap_None, IHnone, Hskip.
        -- intros validated H. apply fmap_Some in H. destruct H as (l & Hl & ->).
           now rewrite (IHsome l Hl).
      * split; [now rewrite IHnone, Hskip|exact IHsome].
Qed.

Lemma validate_results_grid results source g calls :
  exists g',
    (_validate_results fromtimestamp clock results source (Some g, calls)).1.1 = Some g'
    /\ grown_in_row source g g'.
Proof.
  revert g calls. induction results as [|result rest IH]; intros g calls.
  - exists g. split; [reflexivity|apply grown_in_row_refl].
  - rewrite validate_results_cons.
    destruct (AliasGenerator.non_empty _).
    + cbn zeta.
      destruct (add_cross_references_grid result source
                  (other_apartments_of result source) g calls
                  (other_apartments_differ result source)) as (g1 & E1 & H1).
      destruct (add_cross_references _ _ _ _ _ _) as [[file calls'] ok].
      cbn [fst snd] in *. subst file. destruct ok; cbn [fst snd].
      * destruct (IH g1 calls') as (g2 & E2 & H2). exists g2.
        split; [exact E2|]. now apply grown_in_row_trans with g1.
      * now exists g1.
    + destruct (existsb _ _); cbn [fst]; apply IH.
Qed.

Lemma validate_results_unwritable results source calls :
  (_validate_results fromtimestamp clock results source (None, calls)).1.1 = None.
Proof.
  revert calls. induction results as [|result rest IH]; intros calls; [reflexivity|].
  rewrite validate_results_cons.
  destruct (AliasGenerator.non_empty _).
  - cbn zeta.
    pose proof (add_cross_references_unwritable result source
                  (other_apartments_of result source) calls) as H.
    destruct (add_cross_references _ _ _ _ _ _) as [[file calls'] ok].
    cbn [fst snd] in *. subst file. destruct ok; cbn [fst snd]; [apply IH|reflexivity].
  - destruct (existsb _ _); cbn [fst]; apply IH.
Qed.

(** X24: [_validate_results] keeps a result if and only if its list of
    mentioned apartments is not empty: the list returned is the input
    without the results that mention no apartment, in the same order.  The
    call raises if and only if one of the results mentions an apartment
    other than the source and [datetime.fromtimestamp] raises on its
    time. *)
Theorem validate_results_keeps (results : list RedditSearchResult) (source : string)
    (st : State) :
  let out := (_validate_results fromtimestamp clock results source st).2 in
  (out = None
   <-> exists result,
         result ∈ results
         /\ other_apartments_of result source <> []
         /\ fromtimestamp (created_utc result) = None)
  /\ (forall validated,
        out = Some validated ->
        validated
        = List.filter (fun result => AliasGenerator.non_empty (mentioned_apartments result))
            results).
Proof. apply validate_results_spec. Qed.

(** X25: what [_validate_results] does to the validation grid, whether it
    returns or raises.  The file stays readable and keeps its apartments
    and its cells; a cell outside the row of the source apartment, and the
    cell of the source apartment with itself, are as before; in every cell
    [verified_comments] is as before, since every validation is recorded as
    'pending', and [comment_count] has not gone down.  A file that cannot
    be read stays so. *)
Theorem validate_results_grid_effect (results : list RedditSearchResult) (source : string)
    (grid_data : GridManager.GridData) (calls : nat) :
  (exists grid_data',
     (_validate_results fromtimestamp clock results source (Some grid_data, calls)).1.1
     = Some grid_data'
     /\ GridManager.apartments grid_data' = GridManager.apartments grid_data
     /\ forall s m,
          match GridManager.grid_cell (GridManager.validation_grid grid_data) s m with
          | None =>
              GridManager.grid_cell (GridManager.validation_grid grid_data') s m = None
          | Some cell =>
              exists cell',
                GridManager.grid_cell (GridManager.validation_grid grid_data') s m
                = Some cell'
                /\ GridManager.verified_comments cell' = GridManager.verified_comments cell
                /\ GridManager.comment_count cell <= GridManager.comment_count cell'
                /\ (s <> source \/ m = source -> cell' = cell)
          end)
  /\ (_validate_results fromtimestamp clock results source (None, calls)).1.1 = None.
Proof.
  split; [|apply validate_results_unwritable].
  destruct (validate_results_grid results source grid_data calls) as (g' & E & Hap & H).
  exists g'. split; [exact E|]. split; [exact Hap|exact H].
Qed.

(** A call of [add_comment_validation] about the pair [(source, apt)],
    seen from the cell of [(source, m)]. *)
Lemma add_counts_one (g : GridManager.GridData) (v : GridManager.CommentValidation)
    (now_cell now_meta m : string) (cell : GridManager.Cell) :
  GridManager.grid_cell (GridManager.validation_grid g) (GridManager.source_apartment v) m
    = Some cell ->
  0 <= GridManager.comment_count cell ->
  GridManager.comment_count cell
    + (if String.eqb m (GridManager.mentioned_apartment v) then 1 else 0)
    < PyFloat.overflow_bound ->
  exists g' cell',
    (GridManager.add_comment_validation (Some g) v now_cell now_meta).1.1 = Some g'
    /\ GridManager.grid_cell (GridManager.validation_grid g')
         (GridManager.source_apartment v) m = Some cell'
    /\ GridManager.comment_count cell'
       = GridManager.comment_count cell
         + (if String.eqb m (GridManager.mentioned_apartment v) then 1 else 0).
Proof.
  intros Hcell H0 Hbound. unfold GridManager.add_comment_validation.
  destruct (String.eqb_spec m (GridManager.mentioned_apartment v)) as [->|Hne].
  - destruct (add_validation_on_cell g v cell now_cell now_meta Hcell H0 Hbound)
      as (g' & cell' & E & Hcell' & Hcount & _).
    exists g', cell'. rewrite E. now repeat split.
  - destruct (add_validation_grid g v now_cell now_meta)
      as (g' & E & _ & [Hg|(c & c' & _ & _ & Hg)]);
      exists g', cell; (split; [exact E|]); rewrite Hg; (split; [|lia]); [exact Hcell|].
    rewrite grid_cell_set_cell_ne; [exact Hcell|]. intros [= E']. now apply Hne.
Qed.

Lemma add_cross_references_counts result source others m g calls cell :
  is_Some (fromtimestamp (created_utc result)) ->
  GridManager.grid_cell (GridManager.validation_grid g) source m = Some cell ->
  0 <= GridManager.comment_count cell ->
  GridManager.comment_count cell
    + Z.of_nat (length (List.filter (String.eqb m) others)) < PyFloat.overflow_bound ->
  exists g' cell',
    (add_cross_references fromtimestamp clock result source others (Some g, calls)).1.1
    = Some g'
    /\ GridManager.grid_cell (GridManager.validation_grid g') source m = Some cell'
    /\ GridManager.comment_count cell'
       = GridManager.comment_count cell
         + Z.of_nat (length (List.filter (String.eqb m) others)).
Proof.
  intros [created Htime]. revert g calls cell.
  induction others as [|apt rest IH]; intros g calls cell Hcell H0 Hbound;
    cbn [add_cross_references List.filter].
  - exists g, cell. cbn. split; [reflexivity|]. split; [exact Hcell|lia].
  - rewrite Htime. cbn [fst snd]. destruct (clock calls) as [now_cell now_meta].
    cbn [List.filter] in Hbound.
    match goal with
    | |- context [GridManager.add_comment_validation (Some g) ?v now_cell now_meta] =>
        destruct (add_counts_one g v now_cell now_meta m cell Hcell H0)
          as (g1 & c1 & E1 & Hc1 & Hn1)
    end.
    { cbn. destruct (String.eqb m apt); cbn [length] in Hbound; lia. }
    cbn in Hc1, Hn1. rewrite E1.
    destruct (IH g1 (S calls) c1 Hc1) as (g2 & c2 & E2 & Hc2 & Hn2).
    { destruct (String.eqb m apt); lia. }
    { destruct (String.eqb m apt); cbn [length] in Hbound; lia. }
    exists g2, c2. split; [exact E2|]. split; [exact Hc2|].
    destruct (String.eqb m apt); cbn [length]; lia.
Qed.

Lemma cross_references_cons result rest source m :
  cross_references (result :: rest) source m
  = Z.of_nat (length (List.filter (String.eqb m) (other_apartments_of result source)))
    + cross_references rest source m.
Proof.
  unfold cross_references. cbn [flat_map].
  rewrite List.filter_app, length_app. lia.
Qed.

Lemma cross_references_nonneg results source m : 0 <= cross_references results source m.
Proof. unfold cross_references. lia. Qed.

(** X27: the grid counts the cross-references.  When
    [datetime.fromtimestamp] does not raise on the results, the cell of the
    source apartment and another apartment has after [_validate_results]
    one more comment for every result that lists the apartment among its
    mentioned apartments (once for each time it is listed). *)
Theorem validate_results_counts (results : list RedditSearchResult) (source m : string)
    (grid_data : GridManager.GridData) (calls : nat) (cell : GridManager.Cell) :
  (forall result, result ∈ results -> is_Some (fromtimestamp (created_utc result))) ->
  GridManager.grid_cell (GridManager.validation_grid grid_data) source m = Some cell ->
  0 <= GridManager.comment_count cell ->
  GridManager.comment_count cell + cross_references results source m
    < PyFloat.overflow_bound ->
  exists grid_data' cell',
    (_validate_results fromtimestamp clock results source (Some grid_data, calls)).1.1
    = Some grid_data'
    /\ GridManager.grid_cell (GridManager.validation_grid grid_data') source m = Some cell'
    /\ GridManager.comment_count cell'
       = GridManager.comment_count cell + cross_references results source m.
Proof.
  revert grid_data calls cell.
  induction results as [|result rest IH]; intros g calls cell Htime Hcell H0 Hbound.
  - exists g, cell. split; [reflexivity|]. split; [exact Hcell|].
    unfold cross_references. cbn [flat_map List.filter length]. lia.
  - rewrite cross_references_cons in Hbound |- *.
    pose proof (cross_references_nonneg rest source m) as Hrest.
    assert (Htime' : forall r, r ∈ rest -> is_Some (fromtimestamp (created_utc r)))
      by (intros r Hr; apply Htime; now right).
    rewrite validate_results_cons.
    destruct (AliasGenerator.non_empty (other_apartments_of result source)) eqn:Hother.
    + cbn zeta.
      destruct (add_cross_references_counts result source
                  (other_apartments_of result source) m g calls cell
                  (Htime result ltac:(now left)) Hcell H0 ltac:(lia))
        as (g1 & c1 & E1 & Hc1 & Hn1).
      pose proof (add_cross_references_result result source
                    (other_apartments_of result source) (Some g, calls)) as Hok.
      destruct (Htime result ltac:(now left)) as [created Hcreated].
      rewrite Hcreated in Hok.
      destruct (add_cross_references _ _ _ _ _ _) as [[file calls'] ok].
      cbn [fst snd] in *. subst file ok.
      destruct (IH g1 calls' c1 Htime' Hc1 ltac:(lia) ltac:(lia))
        as (g2 & c2 & E2 & Hc2 & Hn2).
      exists g2, c2. split; [exact E2|]. split; [exact Hc2|lia].
    + assert (Hnone : other_apartments_of result source = [])
        by (destruct (other_apartments_of result source); [reflexivity|discriminate]).
      rewrite Hnone in Hbound |- *. cbn [List.filter length] in Hbound |- *.
      destruct (IH g calls cell Htime' Hcell H0 ltac:(lia)) as (g2 & c2 & E2 & Hc2 & Hn2).
      exists g2, c2. split; [|split; [exact Hc2|lia]].
      now destruct (existsb _ _).
Qed.

End ValidationProperties.

(** Two results that name "Square On 5th" in a search for "Catalyst
    Midtown", on the fresh grid of the sample data. *)
Lemma validate_results_counts_witness :
  (forall result,
      result ∈ [SamplePosts.both; SamplePosts.other] ->
      is_Some (SamplePosts.fromtimestamp (created_utc result)))
  /\ GridManager.grid_cell (GridManager.validation_grid Sample.fresh_grid)
       "Catalyst Midtown" "Square On 5th" = Some GridManager.zero_cell
  /\ cross_references [SamplePosts.both; SamplePosts.other]
       "Catalyst Midtown" "Square On 5th" = 2
  /\ exists grid_data' cell',
       (_validate_results SamplePosts.fromtimestamp SamplePosts.clock
          [SamplePosts.both; SamplePosts.other] "Catalyst Midtown"
          (Some Sample.fresh_grid, 0%nat)).1.1 = Some grid_data'
       /\ GridManager.grid_cell (GridManager.validation_grid grid_data')
            "Catalyst Midtown" "Square On 5th" = Some cell'
       /\ GridManager.comment_count cell'
          = GridManager.comment_count GridManager.zero_cell
            + cross_references [SamplePosts.both; SamplePosts.other]
                "Catalyst Midtown" "Square On 5th".
Proof.
  assert (Htime : forall result,
             result ∈ [SamplePosts.both; SamplePosts.other] ->
             is_Some (SamplePosts.fromtimestamp (created_utc result))).
  { intros result H.
    apply elem_of_cons in H. destruct H as [->|H]; [now eexists|].
    apply elem_of_cons in H. destruct H as [->|H]; [now eexists|].
    now apply elem_of_nil in H. }
  assert (Hcell : GridManager.grid_cell (GridManager.validation_grid Sample.fresh_grid)
                    "Catalyst Midtown" "Square On 5th" = Some GridManager.zero_cell)
    by (vm_compute; reflexivity).
  assert (H0 : 0 <= GridManager.comment_count GridManager.zero_cell) by (cbn; lia).
  assert (Hbound : GridManager.comment_count GridManager.zero_cell
                   + cross_references [SamplePosts.both; SamplePosts.other]
                       "Catalyst Midtown" "Square On 5th" < PyFloat.overflow_bound)
    by (vm_compute; reflexivity).
  split; [exact Htime|]. split; [exact Hcell|]. split; [vm_compute; reflexivity|].
  exact (validate_results_counts SamplePosts.fromtimestamp SamplePosts.clock
           [SamplePosts.both; SamplePosts.other] "Catalyst Midtown" "Square On 5th"
           Sample.fresh_grid 0%nat GridManager.zero_cell Htime Hcell H0 Hbound).
Defined.

Lemma elem_of_search_all_terms ratio iter self
    (reddit : nat -> string -> string -> list Post) (search_terms : list (string * float))
    (apartment_name : string) (time_threshold : float) (result : RedditSearchResult) :
  result ∈ search_all_terms ratio iter self reddit search_terms apartment_name
             time_threshold ->
  exists n search_term confidence subreddit_name,
    (search_term, confidence) ∈ search_terms
    /\ subreddit_name ∈ target_subreddits
    /\ result ∈ _search_subreddit ratio iter self (reddit n subreddit_name search_term)
                  subreddit_name search_term apartment_name time_threshold confidence.
Proof.
  unfold search_all_terms. intros H. apply list_elem_of_In, in_concat in H.
  destruct H as (per_term & Hterm & H). apply list_elem_of_In, elem_of_lookup_imap in Hterm.
  destruct Hterm as (i & [search_term confidence] & -> & Hi).
  apply in_concat in H. destruct H as (per_subreddit & Hsub & H).
  apply list_elem_of_In, elem_of_lookup_imap in Hsub.
  destruct Hsub as (j & subreddit_name & -> & Hj). apply list_elem_of_In in H.
  exists (i * length target_subreddits + j)%nat, search_term, confidence, subreddit_name.
  split; [now apply list_elem_of_lookup_2 in Hi|].
  split; [now apply list_elem_of_lookup_2 in Hj|exact H].
Qed.

(** X26: [search_reddit_for_apartment] as a whole.  When it returns, the
    validation has dropped nothing: the list returned is the list of all
    results of the searches after [_deduplicate_results], so that no two
    results have the same key; every result has the apartment searched for
    as its source, comes from one of the four subreddits and from one of
    the search terms of the apartment, has housing context, mentions an
    apartment and is not older than [days_back] days.  The call raises
    before any search when [days_back] days, in seconds, do not convert to
    a float; otherwise it raises if and only if [datetime.fromtimestamp]
    raises on the time of one of the results, after the removal of the
    duplicates, that mentions an apartment other than the one searched
    for. *)
Theorem search_reddit_for_apartment_results
    (ratio : string -> string -> Z) (iter : gset string -> list string)
    (list_of_set : list (string * float) -> list (string * float))
    (self : RedditSearcher.Searcher)
    (fromtimestamp : float -> option string) (clock : nat -> string * string)
    (reddit : nat -> string -> string -> list Post)
    (time_now : float) (apartment_name : string) (days_back : Z) (st : State) :
  let run :=
    search_reddit_for_apartment ratio iter list_of_set self fromtimestamp clock
      reddit time_now apartment_name days_back st in
  let search_terms :=
    RedditSearcher.generate_search_terms iter list_of_set self apartment_name in
  (PyFloat.overflow_bound <= Z.abs (days_back * 24 * 60 * 60) -> run = (st, None))
  /\ (forall validated,
        run.2 = Some validated ->
        exists seconds,
          PyFloat.float_of_int (days_back * 24 * 60 * 60) = Some seconds
          /\ validated
             = _deduplicate_results
                 (search_all_terms ratio iter self reddit search_terms apartment_name
                    (time_now - seconds)%float)
          /\ NoDup (map result_key validated)
          /\ forall result,
               result ∈ validated ->
               source_apartment result = apartment_name
               /\ subreddit result ∈ target_subreddits
               /\ (exists confidence, (search_term_used result, confidence) ∈ search_terms)
               /\ RedditSearcher._has_housing_context (comment_text result) = true
               /\ mentioned_apartments result <> []
               /\ (created_utc result <? time_now - seconds)%float = false)
  /\ (Z.abs (days_back * 24 * 60 * 60) < PyFloat.overflow_bound ->
      (run.2 = None
       <-> exists result,
             result ∈ _deduplicate_results
                        (search_all_terms ratio iter self reddit search_terms
                           apartment_name
                           (time_now - PyFloat.to_float (days_back * 24 * 60 * 60))%float)
             /\ other_apartments_of result apartment_name <> []
             /\ fromtimestamp (created_utc result) = None)).
Proof.
  cbn zeta. unfold search_reddit_for_apartment, PyFloat.float_of_int.
  destruct (Z.abs (days_back * 24 * 60 * 60) <? PyFloat.overflow_bound) eqn:Hdays.
  - apply Z.ltb_lt in Hdays.
    set (time_threshold := (time_now - PyFloat.to_float (days_back * 24 * 60 * 60))%float).
    set (search_terms :=
           RedditSearcher.generate_search_terms iter list_of_set self apartment_name).
    set (all_results :=
           search_all_terms ratio iter self reddit search_terms apartment_name
             time_threshold).
    destruct (validate_results_spec fromtimestamp clock
                (_deduplicate_results all_results) apartment_name st)
      as [Hnone Hsome].
    assert (Hres : forall result,
               result ∈ _deduplicate_results all_results ->
               source_apartment result = apartment_name
               /\ subreddit result ∈ target_subreddits
               /\ (exists confidence,
                     (search_term_used result, confidence) ∈ search_terms)
               /\ RedditSearcher._has_housing_context (comment_text result) = true
               /\ mentioned_apartments result <> []
               /\ (created_utc result <? time_threshold)%float = false).
    { intros result Hin.
      pose proof (deduplicate_fold all_results) as Hfold.
      unfold _deduplicate_results in Hin.
      destruct (foldl deduplicate_step _ all_results) as [seen out].
      destruct Hfold as (_ & _ & Hsub & _). cbn [snd] in Hin.
      pose proof (elem_of_sublist _ _ _ Hin Hsub) as Hall.
      apply elem_of_search_all_terms in Hall.
      destruct Hall as (n & search_term & confidence & subreddit_name & Hterm & Hs & Hr).
      apply search_subreddit_spec in Hr.
      destruct Hr as (H1 & H2 & H3 & H4 & _ & H6 & _ & _ & H9 & _).
      split; [exact H2|]. split; [now rewrite H1|].
      split; [exists confidence; now rewrite H3|]. split; [exact H4|].
      split; [exact H6|exact H9]. }
    split; [lia|]. split.
    + intros validated Hv. eexists. split; [reflexivity|].
      fold time_threshold. fold all_results.
      assert (E : validated = _deduplicate_results all_results).
      { rewrite (Hsome validated Hv). apply forallb_filter_id, forallb_forall.
        intros result Hin. apply list_elem_of_In, Hres in Hin.
        destruct Hin as (_ & _ & _ & _ & Hne & _).
        destruct (mentioned_apartments result); [now destruct Hne|reflexivity]. }
      split; [exact E|]. rewrite E. split; [|exact Hres].
      pose proof (deduplicate_fold all_results) as Hfold.
      unfold _deduplicate_results.
      destruct (foldl deduplicate_step _ all_results) as [seen out].
      now destruct Hfold as (_ & Hnd & _).
    + intros _. exact Hnone.
  - apply Z.ltb_ge in Hdays. split; [reflexivity|]. split; [discriminate|lia].
Qed.

(** The search for "Catalyst Midtown" on the sample answers of Reddit. *)
Lemma search_reddit_for_apartment_results_witness :
  exists validated,
    (search_reddit_for_apartment Fuzz.ratio elements RedditSearcher.dedupe
       Sample.searcher SamplePosts.fromtimestamp SamplePosts.clock SamplePosts.reddit
       1700000300%float "Catalyst Midtown" 365 (Some Sample.fresh_grid, 0%nat)).2
    = Some validated
    /\ length validated = 2%nat
    /\ NoDup (map result_key validated)
    /\ forall result,
         result ∈ validated ->
         source_apartment result = "Catalyst Midtown"
         /\ subreddit result ∈ target_subreddits
         /\ RedditSearcher._has_housing_context (comment_text result) = true
         /\ mentioned_apartments result <> [].
Proof.
  assert (Hlen : length <$>
                   (search_reddit_for_apartment Fuzz.ratio elements RedditSearcher.dedupe
                      Sample.searcher SamplePosts.fromtimestamp SamplePosts.clock
                      SamplePosts.reddit 1700000300%float "Catalyst Midtown" 365
                      (Some Sample.fresh_grid, 0%nat)).2
                 = Some 2%nat) by (vm_compute; reflexivity).
  pose proof (proj1 (proj2 (search_reddit_for_apartment_results Fuzz.ratio elements
                              RedditSearcher.dedupe Sample.searcher
                              SamplePosts.fromtimestamp SamplePosts.clock
                              SamplePosts.reddit 1700000300%float "Catalyst Midtown" 365
                              (Some Sample.fresh_grid, 0%nat)))) as Hrun.
  cbn zeta in Hrun.
  destruct (search_reddit_for_apartment Fuzz.ratio elements RedditSearcher.dedupe
              Sample.searcher SamplePosts.fromtimestamp SamplePosts.clock
              SamplePosts.reddit 1700000300%float "Catalyst Midtown" 365
              (Some Sample.fresh_grid, 0%nat)).2 as [validated|];
    [|discriminate Hlen].
  exists validated. split; [reflexivity|].
  split; [now injection Hlen|].
  destruct (Hrun validated eq_refl) as (seconds & _ & _ & Hnd & Hres).
  split; [exact Hnd|]. intros result Hin.
  destruct (Hres result Hin) as (H1 & H2 & _ & H4 & H5 & _).
  split; [exact H1|]. split; [exact H2|]. split; [exact H4|exact H5].
Defined.

(** A run on the sample data: Reddit answers the first two search terms
    with the same post, whose text names two apartments and whose first
    comment names the source alone.  The post and the comment are returned
    once each, and the grid counts one comment for the pair, not verified. *)
Example search_run_on_sample :
  let run :=
    search_reddit_for_apartment Fuzz.ratio elements RedditSearcher.dedupe Sample.searcher
      SamplePosts.fromtimestamp SamplePosts.clock SamplePosts.reddit
      1700000300%float "Catalyst Midtown" 365 (Some Sample.fresh_grid, 0%nat) in
  (map result_key <$> run.2) = Some ["p1_"; "p1_c1"]
  /\ (map mentioned_apartments <$> run.2)
     = Some [["Catalyst Midtown"; "Square On 5th"]; ["Catalyst Midtown"]]
  /\ run.1.2 = 1%nat
  /\ GridManager.summary_comment_count
       (GridManager._get_summary_local run.1.1 "Catalyst Midtown" "Square On 5th") = 1
  /\ GridManager.summary_comment_count
       (GridManager._get_summary_local run.1.1 "Catalyst Midtown" "Catalyst Midtown") = 0.
Proof. vm_compute. repeat split; reflexivity. Qed.

End PipelineFurther.
